(** * GoNES: a shallow embedding of the emulator core

    The development follows the package layout of the Go sources:
    [Mapper] (pkg/cartridge/mapper), [Cartridge] (pkg/cartridge),
    [Input] (pkg/input), [APU] (pkg/apu), [PPU] (pkg/ppu),
    [Memory] (pkg/memory), [CPU] (pkg/cpu) and [NES] (pkg/nes).

    Conventions.
    - A Go [uint8]/[uint16]/[uint32] is a [Z] kept in range by writing the
      wrap-around out ([u8], [u16], [u32]); Go [int] is an unbounded [Z].
    - A Go fixed-size array ([[2048]uint8], ...) is a [gmap Z Z] in which a
      missing key reads as the zero value; every index the code uses is
      masked into range before the access.
    - A Go slice is a [list Z]; [len] and [idx] are its length and indexing.
    - Go objects reached through pointers are stored once and threaded
      through the functions that mutate them. *)

From Stdlib Require Import ZArith Lia Bool List.
From stdpp Require Import base gmap list.
Import ListNotations.
Open Scope Z_scope.

(** ** Machine words and containers *)

Definition u8 (x : Z) : Z := x mod 256.
Definition u16 (x : Z) : Z := x mod 65536.
Definition u32 (x : Z) : Z := x mod 4294967296.

(** [x != 0] on an unsigned value. *)
Definition nz (x : Z) : bool := negb (x =? 0).

(** Slices. *)
Definition len (l : list Z) : Z := Z.of_nat (length l).
Definition idx (l : list Z) (i : Z) : Z := default 0 (l !! Z.to_nat i).
Definition upd (l : list Z) (i v : Z) : list Z := <[Z.to_nat i := v]> l.

(** Fixed-size, zero-initialised arrays. *)
Definition aget (a : gmap Z Z) (i : Z) : Z := default 0 (a !! i).
Definition aset (a : gmap Z Z) (i v : Z) : gmap Z Z := <[i := v]> a.
Definition bget (a : gmap Z bool) (i : Z) : bool := default false (a !! i).

(** ** pkg/cartridge/mapper *)

Module Mapper.

(** [CartridgeData]: the ROM and RAM slices a mapper works on. *)
Record CartridgeData := {
  PRGROM : list Z;
  CHRROM : list Z;
  PRGRAM : list Z;
  CHRRAM : list Z
}.

Definition set_PRGRAM (val : list Z) (r : CartridgeData) : CartridgeData :=
  {| PRGROM := PRGROM r; CHRROM := CHRROM r; PRGRAM := val; CHRRAM := CHRRAM r |}.
Definition set_CHRRAM (val : list Z) (r : CartridgeData) : CartridgeData :=
  {| PRGROM := PRGROM r; CHRROM := CHRROM r; PRGRAM := PRGRAM r; CHRRAM := val |}.

(** The [Mapper] interface.  The last two methods stand for the dynamic
    type tests of cartridge.go: [GetMirroringMode] is [None] for a mapper
    without that method, and [NotifyA12] is the identity for every mapper
    that is not a [*Mapper4]. *)
Class Mapper (M : Type) := {
  ReadPRG : M -> Z -> Z;
  WritePRG : M -> Z -> Z -> M;
  ReadCHR : M -> Z -> Z;
  WriteCHR : M -> Z -> Z -> M;
  Step : M -> M;
  IsIRQPending : M -> bool;
  ClearIRQ : M -> M;
  GetMirroringMode : M -> option Z;
  NotifyA12 : M -> Z -> bool -> M
}.

End Mapper.

(** *** Mapper 0 (NROM) *)

Module Mapper0.
Import Mapper.

Record Mapper0 := { cartridge : CartridgeData }.

Definition NewMapper0 (data : CartridgeData) : Mapper0 := {| cartridge := data |}.

Definition ReadPRG (m : Mapper0) (addr : Z) : Z :=
  if 0x8000 <=? addr then
    let addr := u16 (addr - 0x8000) in
    let addr :=
      if len (PRGROM (cartridge m)) =? 16384 then addr mod 16384 else addr in
    if addr <? len (PRGROM (cartridge m)) then idx (PRGROM (cartridge m)) addr
    else 0
  else if (0x6000 <=? addr) && (0 <? len (PRGRAM (cartridge m))) then
    let addr := u16 (addr - 0x6000) in
    if addr <? len (PRGRAM (cartridge m)) then idx (PRGRAM (cartridge m)) addr
    else 0
  else 0.

Definition WritePRG (m : Mapper0) (addr value : Z) : Mapper0 :=
  if (0x6000 <=? addr) && (addr <? 0x8000) && (0 <? len (PRGRAM (cartridge m))) then
    let addr := u16 (addr - 0x6000) in
    if addr <? len (PRGRAM (cartridge m)) then
      {| cartridge := set_PRGRAM (upd (PRGRAM (cartridge m)) addr value) (cartridge m) |}
    else m
  else m.

Definition ReadCHR (m : Mapper0) (addr : Z) : Z :=
  if 0 <? len (CHRROM (cartridge m)) then
    if addr <? len (CHRROM (cartridge m)) then idx (CHRROM (cartridge m)) addr
    else 0
  else if 0 <? len (CHRRAM (cartridge m)) then
    if addr <? len (CHRRAM (cartridge m)) then idx (CHRRAM (cartridge m)) addr
    else 0
  else 0.

Definition WriteCHR (m : Mapper0) (addr value : Z) : Mapper0 :=
  if 0 <? len (CHRRAM (cartridge m)) then
    if addr <? len (CHRRAM (cartridge m)) then
      {| cartridge := set_CHRRAM (upd (CHRRAM (cartridge m)) addr value) (cartridge m) |}
    else m
  else m.

Definition Step (m : Mapper0) : Mapper0 := m.
Definition IsIRQPending (m : Mapper0) : bool := false.
Definition ClearIRQ (m : Mapper0) : Mapper0 := m.

#[global] Instance mapper : Mapper Mapper0 := {|
  Mapper.ReadPRG := ReadPRG;
  Mapper.WritePRG := WritePRG;
  Mapper.ReadCHR := ReadCHR;
  Mapper.WriteCHR := WriteCHR;
  Mapper.Step := Step;
  Mapper.IsIRQPending := IsIRQPending;
  Mapper.ClearIRQ := ClearIRQ;
  Mapper.GetMirroringMode := fun _ => None;
  Mapper.NotifyA12 := fun m _ _ => m
|}.

End Mapper0.

(** *** Mapper 4 (MMC3) *)

Module Mapper4.
Import Mapper.

Record Mapper4 := {
  data : CartridgeData;
  bankRegisters : gmap Z Z;        (* [8]uint8, R0-R7 *)
  bankSelect : Z;
  mirroringMode : Z;
  prgRAMProtect : Z;
  irqReloadValue : Z;
  irqCounter : Z;
  irqEnabled : bool;
  irqPending : bool;
  irqReloadFlag : bool;
  a12Low : bool;
  a12LowCounter : Z;
  a12FilterPass : bool;
  a12History : gmap Z bool;        (* [8]bool *)
  a12HistoryPos : Z;
  m2CycleCount : Z;
  prgBankCount : Z;
  chrBankCount : Z;
  isSharpMMC3 : bool
}.

Definition set_data (val : _) (r : Mapper4) : Mapper4 :=
  {| data := val; bankRegisters := bankRegisters r; bankSelect := bankSelect r;
     mirroringMode := mirroringMode r; prgRAMProtect := prgRAMProtect r; irqReloadValue
     := irqReloadValue r; irqCounter := irqCounter r; irqEnabled := irqEnabled r;
     irqPending := irqPending r; irqReloadFlag := irqReloadFlag r; a12Low := a12Low r;
     a12LowCounter := a12LowCounter r; a12FilterPass := a12FilterPass r; a12History :=
     a12History r; a12HistoryPos := a12HistoryPos r; m2CycleCount := m2CycleCount r;
     prgBankCount := prgBankCount r; chrBankCount := chrBankCount r; isSharpMMC3 :=
     isSharpMMC3 r |}.
Definition set_bankRegisters (val : _) (r : Mapper4) : Mapper4 :=
  {| data := data r; bankRegisters := val; bankSelect := bankSelect r; mirroringMode
     := mirroringMode r; prgRAMProtect := prgRAMProtect r; irqReloadValue :=
     irqReloadValue r; irqCounter := irqCounter r; irqEnabled := irqEnabled r;
     irqPending := irqPending r; irqReloadFlag := irqReloadFlag r; a12Low := a12Low r;
     a12LowCounter := a12LowCounter r; a12FilterPass := a12FilterPass r; a12History :=
     a12History r; a12HistoryPos := a12HistoryPos r; m2CycleCount := m2CycleCount r;
     prgBankCount := prgBankCount r; chrBankCount := chrBankCount r; isSharpMMC3 :=
     isSharpMMC3 r |}.
Definition set_bankSelect (val : _) (r : Mapper4) : Mapper4 :=
  {| data := data r; bankRegisters := bankRegisters r; bankSelect := val;
     mirroringMode := mirroringMode r; prgRAMProtect := prgRAMProtect r; irqReloadValue
     := irqReloadValue r; irqCounter := irqCounter r; irqEnabled := irqEnabled r;
     irqPending := irqPending r; irqReloadFlag := irqReloadFlag r; a12Low := a12Low r;
     a12LowCounter := a12LowCounter r; a12FilterPass := a12FilterPass r; a12History :=
     a12History r; a12HistoryPos := a12HistoryPos r; m2CycleCount := m2CycleCount r;
     prgBankCount := prgBankCount r; chrBankCount := chrBankCount r; isSharpMMC3 :=
     isSharpMMC3 r |}.
Definition set_mirroringMode (val : _) (r : Mapper4) : Mapper4 :=
  {| data := data r; bankRegisters := bankRegisters r; bankSelect := bankSelect r;
     mirroringMode := val; prgRAMProtect := prgRAMProtect r; irqReloadValue :=
     irqReloadValue r; irqCounter := irqCounter r; irqEnabled := irqEnabled r;
     irqPending := irqPending r; irqReloadFlag := irqReloadFlag r; a12Low := a12Low r;
     a12LowCounter := a12LowCounter r; a12FilterPass := a12FilterPass r; a12History :=
     a12History r; a12HistoryPos := a12HistoryPos r; m2CycleCount := m2CycleCount r;
     prgBankCount := prgBankCount r; chrBankCount := chrBankCount r; isSharpMMC3 :=
     isSharpMMC3 r |}.
Definition set_prgRAMProtect (val : _) (r : Mapper4) : Mapper4 :=
  {| data := data r; bankRegisters := bankRegisters r; bankSelect := bankSelect r;
     mirroringMode := mirroringMode r; prgRAMProtect := val; irqReloadValue :=
     irqReloadValue r; irqCounter := irqCounter r; irqEnabled := irqEnabled r;
     irqPending := irqPending r; irqReloadFlag := irqReloadFlag r; a12Low := a12Low r;
     a12LowCounter := a12LowCounter r; a12FilterPass := a12FilterPass r; a12History :=
     a12History r; a12HistoryPos := a12HistoryPos r; m2CycleCount := m2CycleCount r;
     prgBankCount := prgBankCount r; chrBankCount := chrBankCount r; isSharpMMC3 :=
     isSharpMMC3 r |}.
Definition set_irqReloadValue (val : _) (r : Mapper4) : Mapper4 :=
  {| data := data r; bankRegisters := bankRegisters r; bankSelect := bankSelect r;
     mirroringMode := mirroringMode r; prgRAMProtect := prgRAMProtect r; irqReloadValue
     := val; irqCounter := irqCounter r; irqEnabled := irqEnabled r; irqPending :=
     irqPending r; irqReloadFlag := irqReloadFlag r; a12Low := a12Low r; a12LowCounter
     := a12LowCounter r; a12FilterPass := a12FilterPass r; a12History := a12History r;
     a12HistoryPos := a12HistoryPos r; m2CycleCount := m2CycleCount r; prgBankCount :=
     prgBankCount r; chrBankCount := chrBankCount r; isSharpMMC3 := isSharpMMC3 r |}.
Definition set_irqCounter (val : _) (r : Mapper4) : Mapper4 :=
  {| data := data r; bankRegisters := bankRegisters r; bankSelect := bankSelect r;
     mirroringMode := mirroringMode r; prgRAMProtect := prgRAMProtect r; irqReloadValue
     := irqReloadValue r; irqCounter := val; irqEnabled := irqEnabled r; irqPending :=
     irqPending r; irqReloadFlag := irqReloadFlag r; a12Low := a12Low r; a12LowCounter
     := a12LowCounter r; a12FilterPass := a12FilterPass r; a12History := a12History r;
     a12HistoryPos := a12HistoryPos r; m2CycleCount := m2CycleCount r; prgBankCount :=
     prgBankCount r; chrBankCount := chrBankCount r; isSharpMMC3 := isSharpMMC3 r |}.
Definition set_irqEnabled (val : _) (r : Mapper4) : Mapper4 :=
  {| data := data r; bankRegisters := bankRegisters r; bankSelect := bankSelect r;
     mirroringMode := mirroringMode r; prgRAMProtect := prgRAMProtect r; irqReloadValue
     := irqReloadValue r; irqCounter := irqCounter r; irqEnabled := val; irqPending :=
     irqPending r; irqReloadFlag := irqReloadFlag r; a12Low := a12Low r; a12LowCounter
     := a12LowCounter r; a12FilterPass := a12FilterPass r; a12History := a12History r;
     a12HistoryPos := a12HistoryPos r; m2CycleCount := m2CycleCount r; prgBankCount :=
     prgBankCount r; chrBankCount := chrBankCount r; isSharpMMC3 := isSharpMMC3 r |}.
Definition set_irqPending (val : _) (r : Mapper4) : Mapper4 :=
  {| data := data r; bankRegisters := bankRegisters r; bankSelect := bankSelect r;
     mirroringMode := mirroringMode r; prgRAMProtect := prgRAMProtect r; irqReloadValue
     := irqReloadValue r; irqCounter := irqCounter r; irqEnabled := irqEnabled r;
     irqPending := val; irqReloadFlag := irqReloadFlag r; a12Low := a12Low r;
     a12LowCounter := a12LowCounter r; a12FilterPass := a12FilterPass r; a12History :=
     a12History r; a12HistoryPos := a12HistoryPos r; m2CycleCount := m2CycleCount r;
     prgBankCount := prgBankCount r; chrBankCount := chrBankCount r; isSharpMMC3 :=
     isSharpMMC3 r |}.
Definition set_irqReloadFlag (val : _) (r : Mapper4) : Mapper4 :=
  {| data := data r; bankRegisters := bankRegisters r; bankSelect := bankSelect r;
     mirroringMode := mirroringMode r; prgRAMProtect := prgRAMProtect r; irqReloadValue
     := irqReloadValue r; irqCounter := irqCounter r; irqEnabled := irqEnabled r;
     irqPending := irqPending r; irqReloadFlag := val; a12Low := a12Low r;
     a12LowCounter := a12LowCounter r; a12FilterPass := a12FilterPass r; a12History :=
     a12History r; a12HistoryPos := a12HistoryPos r; m2CycleCount := m2CycleCount r;
     prgBankCount := prgBankCount r; chrBankCount := chrBankCount r; isSharpMMC3 :=
     isSharpMMC3 r |}.
Definition set_a12Low (val : _) (r : Mapper4) : Mapper4 :=
  {| data := data r; bankRegisters := bankRegisters r; bankSelect := bankSelect r;
     mirroringMode := mirroringMode r; prgRAMProtect := prgRAMProtect r; irqReloadValue
     := irqReloadValue r; irqCounter := irqCounter r; irqEnabled := irqEnabled r;
     irqPending := irqPending r; irqReloadFlag := irqReloadFlag r; a12Low := val;
     a12LowCounter := a12LowCounter r; a12FilterPass := a12FilterPass r; a12History :=
     a12History r; a12HistoryPos := a12HistoryPos r; m2CycleCount := m2CycleCount r;
     prgBankCount := prgBankCount r; chrBankCount := chrBankCount r; isSharpMMC3 :=
     isSharpMMC3 r |}.
Definition set_a12LowCounter (val : _) (r : Mapper4) : Mapper4 :=
  {| data := data r; bankRegisters := bankRegisters r; bankSelect := bankSelect r;
     mirroringMode := mirroringMode r; prgRAMProtect := prgRAMProtect r; irqReloadValue
     := irqReloadValue r; irqCounter := irqCounter r; irqEnabled := irqEnabled r;
     irqPending := irqPending r; irqReloadFlag := irqReloadFlag r; a12Low := a12Low r;
     a12LowCounter := val; a12FilterPass := a12FilterPass r; a12History := a12History
     r; a12HistoryPos := a12HistoryPos r; m2CycleCount := m2CycleCount r; prgBankCount
     := prgBankCount r; chrBankCount := chrBankCount r; isSharpMMC3 := isSharpMMC3 r
     |}.
Definition set_a12FilterPass (val : _) (r : Mapper4) : Mapper4 :=
  {| data := data r; bankRegisters := bankRegisters r; bankSelect := bankSelect r;
     mirroringMode := mirroringMode r; prgRAMProtect := prgRAMProtect r; irqReloadValue
     := irqReloadValue r; irqCounter := irqCounter r; irqEnabled := irqEnabled r;
     irqPending := irqPending r; irqReloadFlag := irqReloadFlag r; a12Low := a12Low r;
     a12LowCounter := a12LowCounter r; a12FilterPass := val; a12History := a12History
     r; a12HistoryPos := a12HistoryPos r; m2CycleCount := m2CycleCount r; prgBankCount
     := prgBankCount r; chrBankCount := chrBankCount r; isSharpMMC3 := isSharpMMC3 r
     |}.
Definition set_a12History (val : _) (r : Mapper4) : Mapper4 :=
  {| data := data r; bankRegisters := bankRegisters r; bankSelect := bankSelect r;
     mirroringMode := mirroringMode r; prgRAMProtect := prgRAMProtect r; irqReloadValue
     := irqReloadValue r; irqCounter := irqCounter r; irqEnabled := irqEnabled r;
     irqPending := irqPending r; irqReloadFlag := irqReloadFlag r; a12Low := a12Low r;
     a12LowCounter := a12LowCounter r; a12FilterPass := a12FilterPass r; a12History :=
     val; a12HistoryPos := a12HistoryPos r; m2CycleCount := m2CycleCount r;
     prgBankCount := prgBankCount r; chrBankCount := chrBankCount r; isSharpMMC3 :=
     isSharpMMC3 r |}.
Definition set_a12HistoryPos (val : _) (r : Mapper4) : Mapper4 :=
  {| data := data r; bankRegisters := bankRegisters r; bankSelect := bankSelect r;
     mirroringMode := mirroringMode r; prgRAMProtect := prgRAMProtect r; irqReloadValue
     := irqReloadValue r; irqCounter := irqCounter r; irqEnabled := irqEnabled r;
     irqPending := irqPending r; irqReloadFlag := irqReloadFlag r; a12Low := a12Low r;
     a12LowCounter := a12LowCounter r; a12FilterPass := a12FilterPass r; a12History :=
     a12History r; a12HistoryPos := val; m2CycleCount := m2CycleCount r; prgBankCount
     := prgBankCount r; chrBankCount := chrBankCount r; isSharpMMC3 := isSharpMMC3 r
     |}.
Definition set_m2CycleCount (val : _) (r : Mapper4) : Mapper4 :=
  {| data := data r; bankRegisters := bankRegisters r; bankSelect := bankSelect r;
     mirroringMode := mirroringMode r; prgRAMProtect := prgRAMProtect r; irqReloadValue
     := irqReloadValue r; irqCounter := irqCounter r; irqEnabled := irqEnabled r;
     irqPending := irqPending r; irqReloadFlag := irqReloadFlag r; a12Low := a12Low r;
     a12LowCounter := a12LowCounter r; a12FilterPass := a12FilterPass r; a12History :=
     a12History r; a12HistoryPos := a12HistoryPos r; m2CycleCount := val; prgBankCount
     := prgBankCount r; chrBankCount := chrBankCount r; isSharpMMC3 := isSharpMMC3 r
     |}.


(** [for i := 0; i < 6; i++] of [NewMapper4]: the initial CHR bank
    registers R0-R5. *)
Definition initCHRRegisters (chrBankCount : Z) (regs : gmap Z Z) : gmap Z Z :=
  fold_left
    (fun regs i =>
       if 0 <? chrBankCount then aset regs i (u8 (i mod chrBankCount))
       else aset regs i (u8 i))
    [0; 1; 2; 3; 4; 5] regs.

Definition NewMapper4 (d : CartridgeData) : Mapper4 :=
  let prgBankCount := u8 (len (PRGROM d) / 8192) in
  let chrBankCount :=
    if 0 <? len (CHRROM d) then u8 (len (CHRROM d) / 1024)
    else if 0 <? len (CHRRAM d) then u8 (len (CHRRAM d) / 1024)
    else 8 in
  let regs : gmap Z Z :=
    if 2 <=? prgBankCount
    then aset (aset ∅ 6 (u8 (prgBankCount - 2))) 7 (u8 (prgBankCount - 1))
    else ∅ in
  {| data := d;
     bankRegisters := initCHRRegisters chrBankCount regs;
     bankSelect := 0;
     mirroringMode := 0;
     prgRAMProtect := 0x80;
     irqReloadValue := 0;
     irqCounter := 0;
     irqEnabled := false;
     irqPending := false;
     irqReloadFlag := false;
     a12Low := true;
     a12LowCounter := 0;
     a12FilterPass := false;
     a12History := ∅;
     a12HistoryPos := 0;
     m2CycleCount := 0;
     prgBankCount := prgBankCount;
     chrBankCount := chrBankCount;
     isSharpMMC3 := true |}.

(** The 8 KiB PRG bank selected for [addr] in $8000-$FFFF, before the
    range clamp. *)
Definition prgBankFor (m : Mapper4) (addr : Z) : Z :=
  let prgMode := Z.land (Z.shiftr (bankSelect m) 6) 1 in
  if (0x8000 <=? addr) && (addr <=? 0x9FFF) then
    if prgMode =? 0 then aget (bankRegisters m) 6 else u8 (prgBankCount m - 2)
  else if (0xA000 <=? addr) && (addr <=? 0xBFFF) then
    aget (bankRegisters m) 7
  else if (0xC000 <=? addr) && (addr <=? 0xDFFF) then
    if prgMode =? 0 then u8 (prgBankCount m - 2) else aget (bankRegisters m) 6
  else if (0xE000 <=? addr) && (addr <=? 0xFFFF) then
    u8 (prgBankCount m - 1)
  else 0.

(** Go indexes [PRGRAM[addr-0x6000]] without a bounds check: the access
    aborts the program (run-time panic) when the slice is shorter.
    [ReadPRG] is the value read when [ReadPRG_panics] is [false]. *)
Definition ReadPRG_panics (m : Mapper4) (addr : Z) : bool :=
  (0x6000 <=? addr) && (addr <=? 0x7FFF) &&
  (0 <? len (PRGRAM (data m))) && nz (Z.land (prgRAMProtect m) 0x80) &&
  (len (PRGRAM (data m)) <=? addr - 0x6000).

Definition ReadPRG (m : Mapper4) (addr : Z) : Z :=
  if (0x6000 <=? addr) && (addr <=? 0x7FFF) then
    if (0 <? len (PRGRAM (data m))) && nz (Z.land (prgRAMProtect m) 0x80)
    then idx (PRGRAM (data m)) (addr - 0x6000)
    else 0
  else if (0x8000 <=? addr) && (addr <=? 0xFFFF) then
    let bank := prgBankFor m addr in
    let bank := if prgBankCount m <=? bank then u8 (prgBankCount m - 1) else bank in
    let offset := u32 (bank * 0x2000 + Z.land addr 0x1FFF) in
    if offset <? len (PRGROM (data m)) then idx (PRGROM (data m)) offset
    else 0
  else 0.

(** [WritePRG] aborts (run-time panic) on an out-of-range PRG-RAM index
    and on [value % prgBankCount] with a zero bank count; it is the new
    state when [WritePRG_panics] is [false]. *)
Definition WritePRG_panics (m : Mapper4) (addr value : Z) : bool :=
  ((0x6000 <=? addr) && (addr <=? 0x7FFF) &&
   (0 <? len (PRGRAM (data m))) && nz (Z.land (prgRAMProtect m) 0x80) &&
   (Z.land (prgRAMProtect m) 0x40 =? 0) &&
   (len (PRGRAM (data m)) <=? addr - 0x6000))
  || ((0x8000 <=? addr) && (Z.land addr 0xE001 =? 0x8001) &&
      (6 <=? Z.land (bankSelect m) 0x07) && (prgBankCount m =? 0)).

Definition WritePRG (m : Mapper4) (addr value : Z) : Mapper4 :=
  if (0x6000 <=? addr) && (addr <=? 0x7FFF) then
    if (0 <? len (PRGRAM (data m))) && nz (Z.land (prgRAMProtect m) 0x80)
       && (Z.land (prgRAMProtect m) 0x40 =? 0)
    then set_data (set_PRGRAM (upd (PRGRAM (data m)) (addr - 0x6000) value) (data m)) m
    else m
  else if 0x8000 <=? addr then
    let sel := Z.land addr 0xE001 in
    if sel =? 0x8000 then set_bankSelect value m
    else if sel =? 0x8001 then
      let regIndex := Z.land (bankSelect m) 0x07 in
      if regIndex <? 8 then
        if 6 <=? regIndex then
          set_bankRegisters (aset (bankRegisters m) regIndex (value mod prgBankCount m)) m
        else if 0 <? chrBankCount m then
          set_bankRegisters (aset (bankRegisters m) regIndex (value mod chrBankCount m)) m
        else
          set_bankRegisters (aset (bankRegisters m) regIndex value) m
      else m
    else if sel =? 0xA000 then set_mirroringMode (Z.land value 1) m
    else if sel =? 0xA001 then set_prgRAMProtect value m
    else if sel =? 0xC000 then set_irqReloadValue value m
    else if sel =? 0xC001 then set_irqCounter 0 (set_irqReloadFlag true m)
    else if sel =? 0xE000 then set_irqPending false (set_irqEnabled false m)
    else if sel =? 0xE001 then set_irqEnabled true m
    else m
  else m.

Definition calculateCHRBank (m : Mapper4) (addr : Z) : Z :=
  let chrMode := Z.land (Z.shiftr (bankSelect m) 7) 1 in
  if chrMode =? 0 then
    if addr <? 0x1000 then
      if addr <? 0x800 then
        u8 (Z.ldiff (aget (bankRegisters m) 0) 1 + u8 (addr / 0x400))
      else
        u8 (Z.ldiff (aget (bankRegisters m) 1) 1 + u8 ((addr - 0x800) / 0x400))
    else
      aget (bankRegisters m) (2 + (addr - 0x1000) / 0x400)
  else
    if addr <? 0x1000 then
      aget (bankRegisters m) (2 + addr / 0x400)
    else if addr <? 0x1800 then
      u8 (Z.ldiff (aget (bankRegisters m) 0) 1 + u8 ((addr - 0x1000) / 0x400))
    else
      u8 (Z.ldiff (aget (bankRegisters m) 1) 1 + u8 ((addr - 0x1800) / 0x400)).

Definition ReadCHR (m : Mapper4) (addr : Z) : Z :=
  if 0x2000 <=? addr then 0
  else
    let bank := calculateCHRBank m addr in
    let bank1 :=
      if (0 <? len (CHRROM (data m))) && (0 <? chrBankCount m)
      then bank mod chrBankCount m else bank in
    let offset1 := u32 (bank1 * 0x400 + Z.land addr 0x3FF) in
    if (0 <? len (CHRROM (data m))) && (offset1 <? len (CHRROM (data m))) then
      idx (CHRROM (data m)) offset1
    else if 0 <? len (CHRRAM (data m)) then
      let bank2 := if 0 <? chrBankCount m then bank1 mod chrBankCount m else bank1 in
      let offset2 := u32 (bank2 * 0x400 + Z.land addr 0x3FF) in
      if offset2 <? len (CHRRAM (data m)) then idx (CHRRAM (data m)) offset2
      else 0
    else 0.

Definition WriteCHR (m : Mapper4) (addr value : Z) : Mapper4 :=
  if 0x2000 <=? addr then m
  else if 0 <? len (CHRRAM (data m)) then
    let bank := calculateCHRBank m addr in
    let bank := if 0 <? chrBankCount m then bank mod chrBankCount m else bank in
    let offset := u32 (bank * 0x400 + Z.land addr 0x3FF) in
    if offset <? len (CHRRAM (data m)) then
      set_data (set_CHRRAM (upd (CHRRAM (data m)) offset value) (data m)) m
    else m
  else m.

(** [Step]: one clock of the IRQ counter ("called on A12 rising edge"). *)
Definition Step (m : Mapper4) : Mapper4 :=
  let m :=
    if irqReloadFlag m then
      set_irqReloadFlag false (set_irqCounter (irqReloadValue m) m)
    else if irqCounter m =? 0 then
      set_irqCounter (irqReloadValue m) m
    else
      set_irqCounter (u8 (irqCounter m - 1)) m in
  let shouldTriggerIRQ :=
    if isSharpMMC3 m then (irqCounter m =? 0) && irqEnabled m
    else (irqCounter m =? 0) && irqEnabled m && (0 <? irqReloadValue m) in
  if shouldTriggerIRQ then set_irqPending true m else m.

(** The first loop of [NotifyA12]: the number of low entries of the
    history buffer counted from index 0 up to the first high one. *)
Fixpoint consecutiveLowCount (hist : gmap Z bool) (i : Z) (n : nat) : Z :=
  match n with
  | O => 0
  | S n' => if negb (bget hist i) then 1 + consecutiveLowCount hist (i + 1) n' else 0
  end.

(** The second loop of [NotifyA12]: [for i := 1; i < 4; i++], over
    [prevPos = (a12HistoryPos - i + 8) % 8]. *)
Definition validTransition (hist : gmap Z bool) (pos : Z) : bool :=
  forallb (fun i => negb (bget hist ((pos - i + 8) mod 8))) [1; 2; 3].

Definition NotifyA12 (m : Mapper4) (chrAddr : Z) (renderingEnabled : bool) : Mapper4 :=
  if negb renderingEnabled then m
  else
    let a12High := nz (Z.land chrAddr 0x1000) in
    let m := set_m2CycleCount (m2CycleCount m + 1) m in
    let m := set_a12History (<[a12HistoryPos m := a12High]> (a12History m)) m in
    let m := set_a12HistoryPos ((a12HistoryPos m + 1) mod 8) m in
    let m :=
      if negb a12High then
        let m := set_a12LowCounter (a12LowCounter m + 1) m in
        if 6 <=? consecutiveLowCount (a12History m) 0 8
        then set_a12FilterPass true m else m
      else
        let m :=
          if a12Low m && a12FilterPass m then
            if validTransition (a12History m) (a12HistoryPos m) then Step m else m
          else m in
        set_a12FilterPass false (set_a12LowCounter 0 m) in
    set_a12Low (negb a12High) m.

Definition IsIRQPending (m : Mapper4) : bool := irqPending m.
Definition ClearIRQ (m : Mapper4) : Mapper4 := set_irqPending false m.
Definition GetMirroringMode (m : Mapper4) : Z := mirroringMode m.

#[global] Instance mapper : Mapper Mapper4 := {|
  Mapper.ReadPRG := ReadPRG;
  Mapper.WritePRG := WritePRG;
  Mapper.ReadCHR := ReadCHR;
  Mapper.WriteCHR := WriteCHR;
  Mapper.Step := Step;
  Mapper.IsIRQPending := IsIRQPending;
  Mapper.ClearIRQ := ClearIRQ;
  Mapper.GetMirroringMode := fun m => Some (GetMirroringMode m);
  Mapper.NotifyA12 := NotifyA12
|}.

End Mapper4.

(** *** Mappers 1, 2 and 3: state and constructors

    [NewMapper] builds these; their register files are given as the
    structs declare them.  Their bank switching is not used below. *)

Module Mapper1.
Import Mapper.
Record Mapper1 := {
  cartridge : CartridgeData;
  shiftRegister : Z;
  shiftCount : Z;
  control : Z;
  chrBank0 : Z;
  chrBank1 : Z;
  prgBank : Z;
  prgMode : Z;
  chrMode : Z;
  mirroring : Z
}.
Definition NewMapper1 (d : CartridgeData) : Mapper1 :=
  {| cartridge := d; shiftRegister := 0; shiftCount := 0; control := 0x0C;
     chrBank0 := 0; chrBank1 := 0; prgBank := 0;
     prgMode := 3; chrMode := 0; mirroring := 0 |}.
End Mapper1.

Module Mapper2.
Import Mapper.
Record Mapper2 := { cartridge : CartridgeData; prgBank : Z; prgBankCount : Z }.
Definition NewMapper2 (d : CartridgeData) : Mapper2 :=
  {| cartridge := d; prgBank := 0; prgBankCount := u8 (len (PRGROM d) / 16384) |}.
End Mapper2.

Module Mapper3.
Import Mapper.
Record Mapper3 := {
  cartridge : CartridgeData;
  chrBank : Z;
  chrBankCount : Z;
  busConflictMode : Z
}.
Definition NewMapper3 (d : CartridgeData) : Mapper3 :=
  {| cartridge := d; chrBank := 0;
     chrBankCount := if 0 <? len (CHRROM d) then u8 (len (CHRROM d) / 8192) else 0;
     busConflictMode := 1 |}.
End Mapper3.

(** *** mapper.go: [NewMapper] *)

(** The value behind the [Mapper] interface returned by [NewMapper]. *)
Inductive AnyMapper :=
| IsMapper0 (m : Mapper0.Mapper0)
| IsMapper1 (m : Mapper1.Mapper1)
| IsMapper2 (m : Mapper2.Mapper2)
| IsMapper3 (m : Mapper3.Mapper3)
| IsMapper4 (m : Mapper4.Mapper4).

(** [fmt.Errorf("unsupported mapper: %d", mapperNumber)]. *)
Inductive MapperError := UnsupportedMapper (mapperNumber : Z).

Definition NewMapper (mapperNumber : Z) (d : Mapper.CartridgeData)
  : AnyMapper + MapperError :=
  if mapperNumber =? 0 then inl (IsMapper0 (Mapper0.NewMapper0 d))
  else if mapperNumber =? 1 then inl (IsMapper1 (Mapper1.NewMapper1 d))
  else if mapperNumber =? 2 then inl (IsMapper2 (Mapper2.NewMapper2 d))
  else if mapperNumber =? 3 then inl (IsMapper3 (Mapper3.NewMapper3 d))
  else if mapperNumber =? 4 then inl (IsMapper4 (Mapper4.NewMapper4 d))
  else inr (UnsupportedMapper mapperNumber).

(** ** pkg/cartridge *)

Module Cartridge.
Import Mapper.

Record iNESHeader := {
  Magic : list Z;         (* [4]uint8 *)
  PRGROMSize : Z;
  CHRROMSize : Z;
  Flags6 : Z;
  Flags7 : Z;
  Flags8 : Z;
  Flags9 : Z;
  Flags10 : Z;
  Padding : list Z        (* [5]uint8 *)
}.

Inductive MirroringMode :=
| MirroringHorizontal
| MirroringVertical
| MirroringFourScreen
| MirroringSingleScreenA
| MirroringSingleScreenB.

(** [Cartridge].  The four slices are the ones handed to the mapper in
    [CartridgeData] (same backing arrays); after loading, every access
    goes through the mapper, whose copy is the live one.  [Mapper] is
    [None] for a nil interface. *)
Record Cartridge (M : Type) := {
  cPRGROM : list Z;
  cCHRROM : list Z;
  cPRGRAM : list Z;
  cCHRRAM : list Z;
  Header : iNESHeader;
  Mapper : option M;
  Mirroring : MirroringMode
}.
Arguments cPRGROM {M}.
Arguments cCHRROM {M}.
Arguments cPRGRAM {M}.
Arguments cCHRRAM {M}.
Arguments Header {M}.
Arguments Mapper {M}.
Arguments Mirroring {M}.

Definition set_Mapper {M} (val : option M) (c : Cartridge M) : Cartridge M :=
  {| cPRGROM := cPRGROM c; cCHRROM := cCHRROM c; cPRGRAM := cPRGRAM c;
     cCHRRAM := cCHRRAM c; Header := Header c; Mapper := val;
     Mirroring := Mirroring c |}.

Section Methods.
Context {M : Type} `{!Mapper.Mapper M}.

Definition ReadPRG (c : Cartridge M) (addr : Z) : Z :=
  match Mapper c with
  | Some m => Mapper.ReadPRG m addr
  | None => 0
  end.

Definition WritePRG (c : Cartridge M) (addr value : Z) : Cartridge M :=
  match Mapper c with
  | Some m => set_Mapper (Some (Mapper.WritePRG m addr value)) c
  | None => c
  end.

Definition ReadCHR (c : Cartridge M) (addr : Z) : Z :=
  match Mapper c with
  | Some m => Mapper.ReadCHR m addr
  | None => 0
  end.

Definition WriteCHR (c : Cartridge M) (addr value : Z) : Cartridge M :=
  match Mapper c with
  | Some m => set_Mapper (Some (Mapper.WriteCHR m addr value)) c
  | None => c
  end.

Definition Step (c : Cartridge M) : Cartridge M :=
  match Mapper c with
  | Some m => set_Mapper (Some (Mapper.Step m)) c
  | None => c
  end.

Definition IsIRQPending (c : Cartridge M) : bool :=
  match Mapper c with
  | Some m => Mapper.IsIRQPending m
  | None => false
  end.

Definition ClearIRQ (c : Cartridge M) : Cartridge M :=
  match Mapper c with
  | Some m => set_Mapper (Some (Mapper.ClearIRQ m)) c
  | None => c
  end.

Definition NotifyA12 (c : Cartridge M) (chrAddr : Z) (renderingEnabled : bool) : Cartridge M :=
  match Mapper c with
  | Some m => set_Mapper (Some (Mapper.NotifyA12 m chrAddr renderingEnabled)) c
  | None => c
  end.

(** [GetMirroring]: 0 is horizontal, 1 is vertical. *)
Definition GetMirroring (c : Cartridge M) : Z :=
  match match Mapper c with
        | Some m => Mapper.GetMirroringMode m
        | None => None
        end with
  | Some mode => mode
  | None =>
      match Mirroring c with
      | MirroringHorizontal => 0
      | MirroringVertical => 1
      | _ => 0
      end
  end.
End Methods.

(** *** Loading an iNES image *)

Inductive LoadError :=
| ErrReadHeader           (* "failed to read header" *)
| ErrInvalidMagic         (* "invalid iNES magic number" *)
| ErrReadTrainer          (* "failed to read trainer" *)
| ErrReadPRGROM           (* "failed to read PRG ROM" *)
| ErrReadCHRROM           (* "failed to read CHR ROM" *)
| ErrCreateMapper (e : MapperError).   (* "failed to create mapper" *)

(** [io.ReadFull] on a reader over a byte sequence: exactly [n] bytes, or
    an error when fewer are left.  The result is the buffer and the rest
    of the input. *)
Definition ReadFull (reader : list Z) (n : Z) : option (list Z * list Z) :=
  if n <=? len reader
  then Some (take (Z.to_nat n) reader, drop (Z.to_nat n) reader)
  else None.

Definition readHeader (reader : list Z) : option (iNESHeader * list Z) :=
  match ReadFull reader 16 with
  | None => None
  | Some (headerBytes, rest) =>
      Some ({| Magic := take 4 headerBytes;
               PRGROMSize := idx headerBytes 4;
               CHRROMSize := idx headerBytes 5;
               Flags6 := idx headerBytes 6;
               Flags7 := idx headerBytes 7;
               Flags8 := idx headerBytes 8;
               Flags9 := idx headerBytes 9;
               Flags10 := idx headerBytes 10;
               Padding := take 5 (drop 11 headerBytes) |}, rest)
  end.

(** ["NES\x1A"] *)
Definition magicNES : list Z := [0x4E; 0x45; 0x53; 0x1A].

Definition mapperNumberOf (h : iNESHeader) : Z :=
  Z.lor (Z.shiftr (Flags6 h) 4) (Z.land (Flags7 h) 0xF0).

Definition LoadFromReader (reader : list Z) : Cartridge AnyMapper + LoadError :=
  match readHeader reader with
  | None => inr ErrReadHeader
  | Some (header, reader) =>
  if negb (bool_decide (Magic header = magicNES)) then inr ErrInvalidMagic else
  match (if nz (Z.land (Flags6 header) 0x04)
         then option_map snd (ReadFull reader 512) else Some reader) with
  | None => inr ErrReadTrainer
  | Some reader =>
  let prgSize := PRGROMSize header * 16384 in
  match ReadFull reader prgSize with
  | None => inr ErrReadPRGROM
  | Some (prgrom, reader) =>
  let chrSize := CHRROMSize header * 8192 in
  match (if 0 <? chrSize
         then option_map (fun '(chrrom, _) => (chrrom, [])) (ReadFull reader chrSize)
         else
           let mapperNumber := mapperNumberOf header in
           let chrRAMSize := if mapperNumber =? 4 then 32768 else 8192 in
           Some ([], repeat 0 (Z.to_nat chrRAMSize))) with
  | None => inr ErrReadCHRROM
  | Some (chrrom, chrram) =>
  let prgram :=
    if nz (Z.land (Flags6 header) 0x02) then repeat 0 (Z.to_nat 32768) else [] in
  let mirroring :=
    if nz (Z.land (Flags6 header) 0x08) then MirroringFourScreen
    else if nz (Z.land (Flags6 header) 0x01) then MirroringVertical
    else MirroringHorizontal in
  let mapperNumber := mapperNumberOf header in
  let mapperData :=
    {| PRGROM := prgrom; CHRROM := chrrom; PRGRAM := prgram; CHRRAM := chrram |} in
  match NewMapper mapperNumber mapperData with
  | inr e => inr (ErrCreateMapper e)
  | inl m =>
      inl {| cPRGROM := prgrom; cCHRROM := chrrom; cPRGRAM := prgram;
             cCHRRAM := chrram; Header := header; Mapper := Some m;
             Mirroring := mirroring |}
  end end end end end.

End Cartridge.

(** ** pkg/input *)

Module Input.

Record Controller := {
  buttons : Z;
  strobe : bool;
  index : Z;
  ButtonA : bool;
  ButtonB : bool;
  ButtonSelect : bool;
  ButtonStart : bool;
  ButtonUp : bool;
  ButtonDown : bool;
  ButtonLeft : bool;
  ButtonRight : bool
}.

Definition set_buttons (val : _) (r : Controller) : Controller :=
  {| buttons := val; strobe := strobe r; index := index r; ButtonA := ButtonA r;
     ButtonB := ButtonB r; ButtonSelect := ButtonSelect r; ButtonStart := ButtonStart
     r; ButtonUp := ButtonUp r; ButtonDown := ButtonDown r; ButtonLeft := ButtonLeft r;
     ButtonRight := ButtonRight r |}.
Definition set_strobe (val : _) (r : Controller) : Controller :=
  {| buttons := buttons r; strobe := val; index := index r; ButtonA := ButtonA r;
     ButtonB := ButtonB r; ButtonSelect := ButtonSelect r; ButtonStart := ButtonStart
     r; ButtonUp := ButtonUp r; ButtonDown := ButtonDown r; ButtonLeft := ButtonLeft r;
     ButtonRight := ButtonRight r |}.
Definition set_index (val : _) (r : Controller) : Controller :=
  {| buttons := buttons r; strobe := strobe r; index := val; ButtonA := ButtonA r;
     ButtonB := ButtonB r; ButtonSelect := ButtonSelect r; ButtonStart := ButtonStart
     r; ButtonUp := ButtonUp r; ButtonDown := ButtonDown r; ButtonLeft := ButtonLeft r;
     ButtonRight := ButtonRight r |}.

Definition ButtonMaskA : Z := 1.
Definition ButtonMaskB : Z := 2.
Definition ButtonMaskSelect : Z := 4.
Definition ButtonMaskStart : Z := 8.
Definition ButtonMaskUp : Z := 16.
Definition ButtonMaskDown : Z := 32.
Definition ButtonMaskLeft : Z := 64.
Definition ButtonMaskRight : Z := 128.

Definition New : Controller :=
  {| buttons := 0; strobe := false; index := 0;
     ButtonA := false; ButtonB := false; ButtonSelect := false;
     ButtonStart := false; ButtonUp := false; ButtonDown := false;
     ButtonLeft := false; ButtonRight := false |}.

(** [SetButton]; [button] is a non-negative shift count. *)
Definition SetButton (c : Controller) (controller button : Z) (pressed : bool)
  : Controller :=
  if negb (controller =? 0) then c
  else
    let buttonMask := u8 (Z.shiftl 1 button) in
    let b := if pressed then Z.lor (buttons c) buttonMask
             else Z.ldiff (buttons c) buttonMask in
    {| buttons := b; strobe := strobe c; index := index c;
       ButtonA := nz (Z.land b ButtonMaskA);
       ButtonB := nz (Z.land b ButtonMaskB);
       ButtonSelect := nz (Z.land b ButtonMaskSelect);
       ButtonStart := nz (Z.land b ButtonMaskStart);
       ButtonUp := nz (Z.land b ButtonMaskUp);
       ButtonDown := nz (Z.land b ButtonMaskDown);
       ButtonLeft := nz (Z.land b ButtonMaskLeft);
       ButtonRight := nz (Z.land b ButtonMaskRight) |}.

Definition Read (c : Controller) : Z * Controller :=
  if 7 <? index c then (1, c)
  else
    let result := Z.land (Z.shiftr (buttons c) (index c)) 1 in
    (result, if negb (strobe c) then set_index (u8 (index c + 1)) c else c).

Definition Write (c : Controller) (value : Z) : Controller :=
  let c := set_strobe (nz (Z.land value 1)) c in
  if strobe c then set_index 0 c else c.

Definition GetButtons (c : Controller) : Z := buttons c.

End Input.

(** ** pkg/apu: the register read port

    Of the APU only [ReadRegister] is embedded, over the fields it reads;
    the bus of [Memory] is stated for any implementation of the APU
    interface. *)

Module APU.

Record APU := {
  Pulse1_Length_Value : Z;
  Pulse2_Length_Value : Z;
  Triangle_Length_Value : Z;
  Noise_Length_Value : Z;
  DMC_CurrentLength : Z;
  DMC_IRQEnabled : bool;
  FrameIRQ : bool
}.

Definition set_FrameIRQ (val : bool) (r : APU) : APU :=
  {| Pulse1_Length_Value := Pulse1_Length_Value r;
     Pulse2_Length_Value := Pulse2_Length_Value r;
     Triangle_Length_Value := Triangle_Length_Value r;
     Noise_Length_Value := Noise_Length_Value r;
     DMC_CurrentLength := DMC_CurrentLength r;
     DMC_IRQEnabled := DMC_IRQEnabled r;
     FrameIRQ := val |}.

Definition ReadRegister (a : APU) (addr : Z) : Z * APU :=
  if addr =? 0x4015 then
    let status := 0 in
    let status := if 0 <? Pulse1_Length_Value a then Z.lor status 0x01 else status in
    let status := if 0 <? Pulse2_Length_Value a then Z.lor status 0x02 else status in
    let status := if 0 <? Triangle_Length_Value a then Z.lor status 0x04 else status in
    let status := if 0 <? Noise_Length_Value a then Z.lor status 0x08 else status in
    let status := if 0 <? DMC_CurrentLength a then Z.lor status 0x10 else status in
    let status := if FrameIRQ a then Z.lor status 0x40 else status in
    let status :=
      if DMC_IRQEnabled a && (DMC_CurrentLength a =? 0)
      then Z.lor status 0x80 else status in
    (status, set_FrameIRQ false a)
  else (0, a).

End APU.

(** ** pkg/ppu *)

(** *** palette.go *)

Module Palette.

Record PaletteManager := {
  PaletteRAM : gmap Z Z;      (* [32]uint8 *)
  Emphasis : Z
}.

Definition NewPaletteManager : PaletteManager :=
  let ram : gmap Z Z :=
    fold_left (fun ram i => aset ram i 0x30) (seqZ 1 31) (aset ∅ 0 0x0F) in
  let ram := aset ram 0 0x0F in
  let ram := aset ram 1 0x30 in
  let ram := aset ram 2 0x10 in
  let ram := aset ram 3 0x00 in
  {| PaletteRAM := ram; Emphasis := 0 |}.

(** The backdrop aliasing shared by [ReadPalette] and [WritePalette]:
    $10, $14, $18, $1C mirror to $00, $04, $08, $0C. *)
Definition mirrorBackdrop (addr : Z) : Z :=
  let addr := Z.land addr 0x1F in
  if addr =? 0x10 then 0x00
  else if addr =? 0x14 then 0x04
  else if addr =? 0x18 then 0x08
  else if addr =? 0x1C then 0x0C
  else addr.

Definition ReadPalette (pm : PaletteManager) (addr : Z) : Z :=
  aget (PaletteRAM pm) (mirrorBackdrop addr).

Definition WritePalette (pm : PaletteManager) (addr value : Z) : PaletteManager :=
  {| PaletteRAM := aset (PaletteRAM pm) (mirrorBackdrop addr) (Z.land value 0x3F);
     Emphasis := Emphasis pm |}.

Definition SetEmphasis (pm : PaletteManager) (emphasis : Z) : PaletteManager :=
  {| PaletteRAM := PaletteRAM pm; Emphasis := Z.land emphasis 0xE0 |}.

End Palette.

(** *** ppu.go and renderer.go

    The frame buffers ([FrameBuffer], [PersistentFrameBuffer]) and the
    bookkeeping that only feeds them ([renderingOccurred],
    [lastRenderFrame]) are outputs that no register, flag or timing
    decision reads back; they are left out of the state, and with them the
    ARGB colour values.  The package-level [bgTileCache] is kept as a field.
    The cartridge is the object shared with the CPU bus: the functions take
    it as an argument (nil is [None]) and return it when they call a
    mutating method on it. *)

Module PPU.

Record SpriteInfo := {
  Y : Z;
  TileIndex : Z;
  Attributes : Z;
  X : Z;
  OAMIndex : Z
}.

Record BackgroundTile := {
  bgTileIndex : Z;
  bgAttributes : Z;
  PatternLo : Z;
  PatternHi : Z
}.

Record tileCache := {
  valid : bool;
  tileIndex : Z;
  attributes : Z;
  patternLo : Z;
  patternHi : Z;
  tileX : Z;
  tileY : Z
}.

Record PPU := {
  PPUCTRL : Z;
  PPUMASK : Z;
  PPUSTATUS : Z;
  OAMADDR : Z;
  v : Z;
  t : Z;
  x : Z;
  xTemp : Z;
  w : Z;
  VRAM : gmap Z Z;            (* [0x4000]uint8 *)
  OAM : gmap Z Z;             (* [256]uint8 *)
  Cycle : Z;
  Scanline : Z;
  Frame : Z;                  (* uint64 *)
  FrameComplete : bool;
  NMIRequested : bool;
  PaletteManager : Palette.PaletteManager;
  currentSprites : list SpriteInfo;
  readBuffer : Z;
  bgTileCache : tileCache
}.

Definition set_PPUCTRL (val : _) (r : PPU) : PPU :=
  {| PPUCTRL := val; PPUMASK := PPUMASK r; PPUSTATUS := PPUSTATUS r; OAMADDR :=
     OAMADDR r; v := v r; t := t r; x := x r; xTemp := xTemp r; w := w r; VRAM := VRAM
     r; OAM := OAM r; Cycle := Cycle r; Scanline := Scanline r; Frame := Frame r;
     FrameComplete := FrameComplete r; NMIRequested := NMIRequested r; PaletteManager
     := PaletteManager r; currentSprites := currentSprites r; readBuffer := readBuffer
     r; bgTileCache := bgTileCache r |}.
Definition set_PPUMASK (val : _) (r : PPU) : PPU :=
  {| PPUCTRL := PPUCTRL r; PPUMASK := val; PPUSTATUS := PPUSTATUS r; OAMADDR :=
     OAMADDR r; v := v r; t := t r; x := x r; xTemp := xTemp r; w := w r; VRAM := VRAM
     r; OAM := OAM r; Cycle := Cycle r; Scanline := Scanline r; Frame := Frame r;
     FrameComplete := FrameComplete r; NMIRequested := NMIRequested r; PaletteManager
     := PaletteManager r; currentSprites := currentSprites r; readBuffer := readBuffer
     r; bgTileCache := bgTileCache r |}.
Definition set_PPUSTATUS (val : _) (r : PPU) : PPU :=
  {| PPUCTRL := PPUCTRL r; PPUMASK := PPUMASK r; PPUSTATUS := val; OAMADDR :=
     OAMADDR r; v := v r; t := t r; x := x r; xTemp := xTemp r; w := w r; VRAM := VRAM
     r; OAM := OAM r; Cycle := Cycle r; Scanline := Scanline r; Frame := Frame r;
     FrameComplete := FrameComplete r; NMIRequested := NMIRequested r; PaletteManager
     := PaletteManager r; currentSprites := currentSprites r; readBuffer := readBuffer
     r; bgTileCache := bgTileCache r |}.
Definition set_OAMADDR (val : _) (r : PPU) : PPU :=
  {| PPUCTRL := PPUCTRL r; PPUMASK := PPUMASK r; PPUSTATUS := PPUSTATUS r; OAMADDR
     := val; v := v r; t := t r; x := x r; xTemp := xTemp r; w := w r; VRAM := VRAM r;
     OAM := OAM r; Cycle := Cycle r; Scanline := Scanline r; Frame := Frame r;
     FrameComplete := FrameComplete r; NMIRequested := NMIRequested r; PaletteManager
     := PaletteManager r; currentSprites := currentSprites r; readBuffer := readBuffer
     r; bgTileCache := bgTileCache r |}.
Definition set_v (val : _) (r : PPU) : PPU :=
  {| PPUCTRL := PPUCTRL r; PPUMASK := PPUMASK r; PPUSTATUS := PPUSTATUS r; OAMADDR
     := OAMADDR r; v := val; t := t r; x := x r; xTemp := xTemp r; w := w r; VRAM :=
     VRAM r; OAM := OAM r; Cycle := Cycle r; Scanline := Scanline r; Frame := Frame r;
     FrameComplete := FrameComplete r; NMIRequested := NMIRequested r; PaletteManager
     := PaletteManager r; currentSprites := currentSprites r; readBuffer := readBuffer
     r; bgTileCache := bgTileCache r |}.
Definition set_t (val : _) (r : PPU) : PPU :=
  {| PPUCTRL := PPUCTRL r; PPUMASK := PPUMASK r; PPUSTATUS := PPUSTATUS r; OAMADDR
     := OAMADDR r; v := v r; t := val; x := x r; xTemp := xTemp r; w := w r; VRAM :=
     VRAM r; OAM := OAM r; Cycle := Cycle r; Scanline := Scanline r; Frame := Frame r;
     FrameComplete := FrameComplete r; NMIRequested := NMIRequested r; PaletteManager
     := PaletteManager r; currentSprites := currentSprites r; readBuffer := readBuffer
     r; bgTileCache := bgTileCache r |}.
Definition set_x (val : _) (r : PPU) : PPU :=
  {| PPUCTRL := PPUCTRL r; PPUMASK := PPUMASK r; PPUSTATUS := PPUSTATUS r; OAMADDR
     := OAMADDR r; v := v r; t := t r; x := val; xTemp := xTemp r; w := w r; VRAM :=
     VRAM r; OAM := OAM r; Cycle := Cycle r; Scanline := Scanline r; Frame := Frame r;
     FrameComplete := FrameComplete r; NMIRequested := NMIRequested r; PaletteManager
     := PaletteManager r; currentSprites := currentSprites r; readBuffer := readBuffer
     r; bgTileCache := bgTileCache r |}.
Definition set_xTemp (val : _) (r : PPU) : PPU :=
  {| PPUCTRL := PPUCTRL r; PPUMASK := PPUMASK r; PPUSTATUS := PPUSTATUS r; OAMADDR
     := OAMADDR r; v := v r; t := t r; x := x r; xTemp := val; w := w r; VRAM := VRAM
     r; OAM := OAM r; Cycle := Cycle r; Scanline := Scanline r; Frame := Frame r;
     FrameComplete := FrameComplete r; NMIRequested := NMIRequested r; PaletteManager
     := PaletteManager r; currentSprites := currentSprites r; readBuffer := readBuffer
     r; bgTileCache := bgTileCache r |}.
Definition set_w (val : _) (r : PPU) : PPU :=
  {| PPUCTRL := PPUCTRL r; PPUMASK := PPUMASK r; PPUSTATUS := PPUSTATUS r; OAMADDR
     := OAMADDR r; v := v r; t := t r; x := x r; xTemp := xTemp r; w := val; VRAM :=
     VRAM r; OAM := OAM r; Cycle := Cycle r; Scanline := Scanline r; Frame := Frame r;
     FrameComplete := FrameComplete r; NMIRequested := NMIRequested r; PaletteManager
     := PaletteManager r; currentSprites := currentSprites r; readBuffer := readBuffer
     r; bgTileCache := bgTileCache r |}.
Definition set_VRAM (val : _) (r : PPU) : PPU :=
  {| PPUCTRL := PPUCTRL r; PPUMASK := PPUMASK r; PPUSTATUS := PPUSTATUS r; OAMADDR
     := OAMADDR r; v := v r; t := t r; x := x r; xTemp := xTemp r; w := w r; VRAM :=
     val; OAM := OAM r; Cycle := Cycle r; Scanline := Scanline r; Frame := Frame r;
     FrameComplete := FrameComplete r; NMIRequested := NMIRequested r; PaletteManager
     := PaletteManager r; currentSprites := currentSprites r; readBuffer := readBuffer
     r; bgTileCache := bgTileCache r |}.
Definition set_OAM (val : _) (r : PPU) : PPU :=
  {| PPUCTRL := PPUCTRL r; PPUMASK := PPUMASK r; PPUSTATUS := PPUSTATUS r; OAMADDR
     := OAMADDR r; v := v r; t := t r; x := x r; xTemp := xTemp r; w := w r; VRAM :=
     VRAM r; OAM := val; Cycle := Cycle r; Scanline := Scanline r; Frame := Frame r;
     FrameComplete := FrameComplete r; NMIRequested := NMIRequested r; PaletteManager
     := PaletteManager r; currentSprites := currentSprites r; readBuffer := readBuffer
     r; bgTileCache := bgTileCache r |}.
Definition set_Cycle (val : _) (r : PPU) : PPU :=
  {| PPUCTRL := PPUCTRL r; PPUMASK := PPUMASK r; PPUSTATUS := PPUSTATUS r; OAMADDR
     := OAMADDR r; v := v r; t := t r; x := x r; xTemp := xTemp r; w := w r; VRAM :=
     VRAM r; OAM := OAM r; Cycle := val; Scanline := Scanline r; Frame := Frame r;
     FrameComplete := FrameComplete r; NMIRequested := NMIRequested r; PaletteManager
     := PaletteManager r; currentSprites := currentSprites r; readBuffer := readBuffer
     r; bgTileCache := bgTileCache r |}.
Definition set_Scanline (val : _) (r : PPU) : PPU :=
  {| PPUCTRL := PPUCTRL r; PPUMASK := PPUMASK r; PPUSTATUS := PPUSTATUS r; OAMADDR
     := OAMADDR r; v := v r; t := t r; x := x r; xTemp := xTemp r; w := w r; VRAM :=
     VRAM r; OAM := OAM r; Cycle := Cycle r; Scanline := val; Frame := Frame r;
     FrameComplete := FrameComplete r; NMIRequested := NMIRequested r; PaletteManager
     := PaletteManager r; currentSprites := currentSprites r; readBuffer := readBuffer
     r; bgTileCache := bgTileCache r |}.
Definition set_Frame (val : _) (r : PPU) : PPU :=
  {| PPUCTRL := PPUCTRL r; PPUMASK := PPUMASK r; PPUSTATUS := PPUSTATUS r; OAMADDR
     := OAMADDR r; v := v r; t := t r; x := x r; xTemp := xTemp r; w := w r; VRAM :=
     VRAM r; OAM := OAM r; Cycle := Cycle r; Scanline := Scanline r; Frame := val;
     FrameComplete := FrameComplete r; NMIRequested := NMIRequested r; PaletteManager
     := PaletteManager r; currentSprites := currentSprites r; readBuffer := readBuffer
     r; bgTileCache := bgTileCache r |}.
Definition set_FrameComplete (val : _) (r : PPU) : PPU :=
  {| PPUCTRL := PPUCTRL r; PPUMASK := PPUMASK r; PPUSTATUS := PPUSTATUS r; OAMADDR
     := OAMADDR r; v := v r; t := t r; x := x r; xTemp := xTemp r; w := w r; VRAM :=
     VRAM r; OAM := OAM r; Cycle := Cycle r; Scanline := Scanline r; Frame := Frame r;
     FrameComplete := val; NMIRequested := NMIRequested r; PaletteManager :=
     PaletteManager r; currentSprites := currentSprites r; readBuffer := readBuffer r;
     bgTileCache := bgTileCache r |}.
Definition set_NMIRequested (val : _) (r : PPU) : PPU :=
  {| PPUCTRL := PPUCTRL r; PPUMASK := PPUMASK r; PPUSTATUS := PPUSTATUS r; OAMADDR
     := OAMADDR r; v := v r; t := t r; x := x r; xTemp := xTemp r; w := w r; VRAM :=
     VRAM r; OAM := OAM r; Cycle := Cycle r; Scanline := Scanline r; Frame := Frame r;
     FrameComplete := FrameComplete r; NMIRequested := val; PaletteManager :=
     PaletteManager r; currentSprites := currentSprites r; readBuffer := readBuffer r;
     bgTileCache := bgTileCache r |}.
Definition set_PaletteManager (val : _) (r : PPU) : PPU :=
  {| PPUCTRL := PPUCTRL r; PPUMASK := PPUMASK r; PPUSTATUS := PPUSTATUS r; OAMADDR
     := OAMADDR r; v := v r; t := t r; x := x r; xTemp := xTemp r; w := w r; VRAM :=
     VRAM r; OAM := OAM r; Cycle := Cycle r; Scanline := Scanline r; Frame := Frame r;
     FrameComplete := FrameComplete r; NMIRequested := NMIRequested r; PaletteManager
     := val; currentSprites := currentSprites r; readBuffer := readBuffer r;
     bgTileCache := bgTileCache r |}.
Definition set_currentSprites (val : _) (r : PPU) : PPU :=
  {| PPUCTRL := PPUCTRL r; PPUMASK := PPUMASK r; PPUSTATUS := PPUSTATUS r; OAMADDR
     := OAMADDR r; v := v r; t := t r; x := x r; xTemp := xTemp r; w := w r; VRAM :=
     VRAM r; OAM := OAM r; Cycle := Cycle r; Scanline := Scanline r; Frame := Frame r;
     FrameComplete := FrameComplete r; NMIRequested := NMIRequested r; PaletteManager
     := PaletteManager r; currentSprites := val; readBuffer := readBuffer r;
     bgTileCache := bgTileCache r |}.
Definition set_readBuffer (val : _) (r : PPU) : PPU :=
  {| PPUCTRL := PPUCTRL r; PPUMASK := PPUMASK r; PPUSTATUS := PPUSTATUS r; OAMADDR
     := OAMADDR r; v := v r; t := t r; x := x r; xTemp := xTemp r; w := w r; VRAM :=
     VRAM r; OAM := OAM r; Cycle := Cycle r; Scanline := Scanline r; Frame := Frame r;
     FrameComplete := FrameComplete r; NMIRequested := NMIRequested r; PaletteManager
     := PaletteManager r; currentSprites := currentSprites r; readBuffer := val;
     bgTileCache := bgTileCache r |}.
Definition set_bgTileCache (val : _) (r : PPU) : PPU :=
  {| PPUCTRL := PPUCTRL r; PPUMASK := PPUMASK r; PPUSTATUS := PPUSTATUS r; OAMADDR
     := OAMADDR r; v := v r; t := t r; x := x r; xTemp := xTemp r; w := w r; VRAM :=
     VRAM r; OAM := OAM r; Cycle := Cycle r; Scanline := Scanline r; Frame := Frame r;
     FrameComplete := FrameComplete r; NMIRequested := NMIRequested r; PaletteManager
     := PaletteManager r; currentSprites := currentSprites r; readBuffer := readBuffer
     r; bgTileCache := val |}.

Definition PPUCTRLNameTable : Z := 0x03.
Definition PPUCTRLIncrement : Z := 0x04.
Definition PPUCTRLSpriteTable : Z := 0x08.
Definition PPUCTRLBGTable : Z := 0x10.
Definition PPUCTRLSpriteSize : Z := 0x20.
Definition PPUCTRLMasterSlave : Z := 0x40.
Definition PPUCTRLNMIEnable : Z := 0x80.

Definition PPUMASKGreyscale : Z := 0x01.
Definition PPUMASKBGLeft : Z := 0x02.
Definition PPUMASKSpriteLeft : Z := 0x04.
Definition PPUMASKBGShow : Z := 0x08.
Definition PPUMASKSpriteShow : Z := 0x10.

Definition PPUSTATUSSprite0Hit : Z := 0x40.
Definition PPUSTATUSVBlank : Z := 0x80.

Definition SpriteFlipHorizontal : Z := 0x40.
Definition SpriteFlipVertical : Z := 0x80.
Definition SpritePriority : Z := 0x20.
Definition SpritePaletteMask : Z := 0x03.

Definition emptyCache : tileCache :=
  {| valid := false; tileIndex := 0; attributes := 0; patternLo := 0;
     patternHi := 0; tileX := 0; tileY := 0 |}.

Definition New : PPU :=
  {| PPUCTRL := 0; PPUMASK := 0; PPUSTATUS := 0; OAMADDR := 0;
     v := 0; t := 0; x := 0; xTemp := 0; w := 0;
     VRAM := ∅; OAM := ∅; Cycle := 0; Scanline := 0; Frame := 0;
     FrameComplete := false; NMIRequested := false;
     PaletteManager := Palette.NewPaletteManager;
     currentSprites := []; readBuffer := 0; bgTileCache := emptyCache |}.

Definition Reset (p : PPU) : PPU :=
  set_FrameComplete false (set_Scanline 0 (set_Cycle 0 (set_w 0 (set_x 0
    (set_t 0 (set_v 0 (set_OAMADDR 0 (set_PPUSTATUS 0 (set_PPUMASK 0
      (set_PPUCTRL 0 p)))))))))).

(** [(p.PPUMASK & (PPUMASKBGShow | PPUMASKSpriteShow)) != 0] *)
Definition renderingEnabled (p : PPU) : bool :=
  nz (Z.land (PPUMASK p) (Z.lor PPUMASKBGShow PPUMASKSpriteShow)).

Definition isVisibleScanline (p : PPU) : bool :=
  (0 <=? Scanline p) && (Scanline p <? 240).

Definition applyHorizontalMirroring (offset : Z) : Z :=
  if 0x800 <=? offset then u16 (offset - 0x400) else Z.land offset 0x7FF.

Definition applyVerticalMirroring (offset : Z) : Z :=
  Z.land offset 0x7FF.

Section WithCartridge.
Context {M : Type} `{!Mapper.Mapper M}.
Abbreviation Cart := (option (Cartridge.Cartridge M)).

Definition mirrorNameTableAddress (cart : Cart) (addr : Z) : Z :=
  let offset := u16 (addr - 0x2000) in
  match cart with
  | None => u16 (applyHorizontalMirroring offset + 0x2000)
  | Some c =>
      let mode := Cartridge.GetMirroring c in
      if mode =? 0 then u16 (applyHorizontalMirroring offset + 0x2000)
      else if mode =? 1 then u16 (applyVerticalMirroring offset + 0x2000)
      else addr
  end.

Definition readNameTable (p : PPU) (cart : Cart) (addr : Z) : Z :=
  aget (VRAM p) (mirrorNameTableAddress cart addr).

Definition writeNameTable (p : PPU) (cart : Cart) (addr value : Z) : PPU :=
  set_VRAM (aset (VRAM p) (mirrorNameTableAddress cart addr) value) p.

(** The A12 notification made by [readVRAM] and [writeVRAM] before a
    pattern-table access. *)
Definition notifyPattern (p : PPU) (c : Cartridge.Cartridge M) (addr : Z)
  : Cartridge.Cartridge M :=
  if renderingEnabled p && isVisibleScanline p
  then Cartridge.NotifyA12 c addr (renderingEnabled p)
  else c.

Definition readVRAM (p : PPU) (cart : Cart) (addr : Z) : Z * Cart :=
  let addr := addr mod 0x4000 in
  if addr <? 0x2000 then
    match cart with
    | Some c =>
        let c := notifyPattern p c addr in
        (Cartridge.ReadCHR c addr, Some c)
    | None => (0, cart)
    end
  else if addr <? 0x3F00 then (readNameTable p cart addr, cart)
  else if addr <? 0x4000 then
    (Palette.ReadPalette (PaletteManager p) (u8 (Z.land addr 0x1F)), cart)
  else (0, cart).

Definition writeVRAM (p : PPU) (cart : Cart) (addr value : Z) : PPU * Cart :=
  let addr := addr mod 0x4000 in
  if addr <? 0x2000 then
    match cart with
    | Some c =>
        let c := notifyPattern p c addr in
        (p, Some (Cartridge.WriteCHR c addr value))
    | None => (p, cart)
    end
  else if addr <? 0x3F00 then (writeNameTable p cart addr value, cart)
  else if addr <? 0x4000 then
    (set_PaletteManager
       (Palette.WritePalette (PaletteManager p) (u8 (Z.land addr 0x1F)) value) p,
     cart)
  else (p, cart).

(** [v += 32] or [v += 1] after a PPUDATA access. *)
Definition incrementV (p : PPU) : PPU :=
  if nz (Z.land (PPUCTRL p) PPUCTRLIncrement)
  then set_v (u16 (v p + 32)) p
  else set_v (u16 (v p + 1)) p.

Definition ReadRegister (p : PPU) (cart : Cart) (addr : Z) : Z * PPU * Cart :=
  if addr =? 0x2002 then
    let value := PPUSTATUS p in
    (value, set_w 0 (set_PPUSTATUS (Z.ldiff (PPUSTATUS p) PPUSTATUSVBlank) p), cart)
  else if addr =? 0x2004 then
    (aget (OAM p) (OAMADDR p), p, cart)
  else if addr =? 0x2007 then
    if 0x3F00 <=? v p then
      let '(value, cart) := readVRAM p cart (v p) in
      let '(buf, cart) := readVRAM p cart (u16 (v p - 0x1000)) in
      (value, incrementV (set_readBuffer buf p), cart)
    else
      let value := readBuffer p in
      let '(buf, cart) := readVRAM p cart (v p) in
      (value, incrementV (set_readBuffer buf p), cart)
  else (0, p, cart).

Definition WriteRegister (p : PPU) (cart : Cart) (addr value : Z) : PPU * Cart :=
  if addr =? 0x2000 then
    let p := set_PPUCTRL value p in
    (set_t (Z.lor (Z.land (t p) 0xF3FF) (u16 (Z.shiftl (Z.land value 0x03) 10))) p,
     cart)
  else if addr =? 0x2001 then (set_PPUMASK value p, cart)
  else if addr =? 0x2003 then (set_OAMADDR value p, cart)
  else if addr =? 0x2004 then
    (set_OAMADDR (u8 (OAMADDR p + 1)) (set_OAM (aset (OAM p) (OAMADDR p) value) p),
     cart)
  else if addr =? 0x2005 then
    if w p =? 0 then
      let p := set_t (Z.lor (Z.land (t p) 0xFFE0) (Z.shiftr value 3)) p in
      let p := set_xTemp (Z.land value 0x07) p in
      (set_w 1 p, cart)
    else
      let p :=
        set_t (Z.lor (Z.land (t p) 0x8FFF) (u16 (Z.shiftl (Z.land value 0x07) 12))) p in
      let p :=
        set_t (Z.lor (Z.land (t p) 0xFC1F) (u16 (Z.shiftl (Z.land value 0xF8) 2))) p in
      (set_w 0 p, cart)
  else if addr =? 0x2006 then
    if w p =? 0 then
      let p :=
        set_t (Z.lor (Z.land (t p) 0x80FF) (u16 (Z.shiftl (Z.land value 0x3F) 8))) p in
      (set_w 1 p, cart)
    else
      let p := set_t (Z.lor (Z.land (t p) 0xFF00) value) p in
      let p := set_v (t p) p in
      (set_w 0 p, cart)
  else if addr =? 0x2007 then
    let '(p, cart) := writeVRAM p cart (v p) value in
    (incrementV p, cart)
  else (p, cart).

(** **** renderer.go *)

Definition fetchBackgroundTileWithScroll (p : PPU) (cart : Cart)
    (tileX tileY pixelY : Z) : BackgroundTile * Cart :=
  let coarseX := Z.land (v p) 0x1F in
  let coarseY := Z.land (Z.shiftr (v p) 5) 0x1F in
  let scrolledTileX := coarseX + tileX in
  let fineY := Z.land (Z.shiftr (v p) 12) 0x07 in
  let effectiveTileY := if 8 <=? pixelY + fineY then tileY + 1 else tileY in
  let scrolledTileY := coarseY + effectiveTileY in
  let nameTableX := if 32 <=? scrolledTileX then 1 else 0 in
  let scrolledTileX := if 32 <=? scrolledTileX then scrolledTileX - 32 else scrolledTileX in
  let nameTableY := if 30 <=? scrolledTileY then 1 else 0 in
  let scrolledTileY := if 30 <=? scrolledTileY then scrolledTileY - 30 else scrolledTileY in
  let baseNTX := Z.land (Z.shiftr (v p) 10) 1 in
  let baseNTY := Z.land (Z.shiftr (v p) 11) 1 in
  let finalNTX := (baseNTX + nameTableX) mod 2 in
  let finalNTY := (baseNTY + nameTableY) mod 2 in
  let nameTableIndex := finalNTY * 2 + finalNTX in
  let nameTableBase := u16 (0x2000 + u16 (u16 nameTableIndex * 0x400)) in
  let nameTableAddr := u16 (nameTableBase + u16 (scrolledTileY * 32 + scrolledTileX)) in
  let '(tileIdx, cart) := readVRAM p cart nameTableAddr in
  let attrAddr :=
    u16 (nameTableBase + 0x3C0 + u16 (scrolledTileY / 4 * 8 + scrolledTileX / 4)) in
  let '(attrByte, cart) := readVRAM p cart attrAddr in
  let attrShift := Z.land scrolledTileY 2 * 2 + Z.land scrolledTileX 2 / 2 * 2 in
  let attrs := Z.land (Z.shiftr attrByte attrShift) 0x03 in
  let patternTableBase :=
    if nz (Z.land (PPUCTRL p) PPUCTRLBGTable) then 0x1000 else 0x0000 in
  let tileAddr := u16 (patternTableBase + u16 (tileIdx * 16)) in
  let adjustedPixelY := (pixelY + fineY) mod 8 in
  let tileRow := u16 adjustedPixelY in
  let patternLoAddr := u16 (tileAddr + tileRow) in
  let patternHiAddr := u16 (tileAddr + tileRow + 8) in
  let '(lo, cart) := readVRAM p cart patternLoAddr in
  let '(hi, cart) := readVRAM p cart patternHiAddr in
  ({| bgTileIndex := tileIdx; bgAttributes := attrs; PatternLo := lo; PatternHi := hi |},
   cart).

Definition getPixelColor (patternLo patternHi pixelX : Z) : Z :=
  let bitPos := 7 - pixelX in
  let lowBit := Z.land (Z.shiftr patternLo bitPos) 1 in
  let highBit := Z.land (Z.shiftr patternHi bitPos) 1 in
  Z.lor (u8 (Z.shiftl highBit 1)) lowBit.

Definition isBackgroundPixelOpaque (p : PPU) (cart : Cart) (px py : Z) : bool * Cart :=
  if Z.land (PPUMASK p) PPUMASKBGShow =? 0 then (false, cart)
  else if (px <? 8) && (Z.land (PPUMASK p) PPUMASKBGLeft =? 0) then (false, cart)
  else
    let fineX := x p in
    let adjustedX := px + fineX in
    let tX := adjustedX / 8 in
    let pixelX := adjustedX mod 8 in
    let tY := py / 8 in
    let pixelY := py mod 8 in
    let '(tile, cart) := fetchBackgroundTileWithScroll p cart tX tY pixelY in
    let colorIndex := getPixelColor (PatternLo tile) (PatternHi tile) pixelX in
    (nz colorIndex, cart).

(** [renderBackgroundPixelCached], as it acts on the tile cache and on the
    cartridge (the colour it returns only reaches the frame buffer). *)
Definition renderBackgroundPixelCached (p : PPU) (cart : Cart) (px py : Z)
  : PPU * Cart :=
  if Z.land (PPUMASK p) PPUMASKBGShow =? 0 then (p, cart)
  else if (px <? 8) && (Z.land (PPUMASK p) PPUMASKBGLeft =? 0) then (p, cart)
  else
    let fineX := x p in
    let adjustedX := px + fineX in
    let tX := adjustedX / 8 in
    let tY := py / 8 in
    let pixelY := py mod 8 in
    let c := bgTileCache p in
    if negb (valid c) || negb (tileX c =? tX) || negb (tileY c =? tY) then
      let '(tile, cart) := fetchBackgroundTileWithScroll p cart tX tY pixelY in
      (set_bgTileCache
         {| valid := true; tileIndex := bgTileIndex tile;
            attributes := bgAttributes tile; patternLo := PatternLo tile;
            patternHi := PatternHi tile; tileX := tX; tileY := tY |} p,
       cart)
    else (p, cart).

(** The OAM scan of [fetchSpriteData]: [i] is the next OAM entry, [n] the
    number of entries left, [sprites] the ones selected so far.  The result
    is the list and whether the scan stopped on the eighth sprite (where
    the overflow flag is set). *)
Fixpoint scanOAM (oam : gmap Z Z) (scanline spriteHeight : Z) (i : Z) (n : nat)
    (sprites : list SpriteInfo) : list SpriteInfo * bool :=
  match n with
  | O => (sprites, false)
  | S n' =>
      let spriteY := aget oam (i * 4) in
      if (spriteY <=? scanline) && (scanline <? spriteY + spriteHeight) then
        let sprite :=
          {| Y := aget oam (i * 4); TileIndex := aget oam (i * 4 + 1);
             Attributes := aget oam (i * 4 + 2); X := aget oam (i * 4 + 3);
             OAMIndex := i |} in
        let sprites := sprites ++ [sprite] in
        if 8 <=? Z.of_nat (length sprites) then (sprites, true)
        else scanOAM oam scanline spriteHeight (i + 1) n' sprites
      else scanOAM oam scanline spriteHeight (i + 1) n' sprites
  end.

Definition fetchSpriteData (p : PPU) (scanline : Z) : list SpriteInfo * PPU :=
  let spriteHeight := if nz (Z.land (PPUCTRL p) PPUCTRLSpriteSize) then 16 else 8 in
  let '(sprites, overflow) := scanOAM (OAM p) scanline spriteHeight 0 64 [] in
  (sprites, if overflow then set_PPUSTATUS (Z.lor (PPUSTATUS p) 0x20) p else p).

(** The loop of [renderSpritePixel] over the selected sprites.  The result
    is [(opaque, priority, sprite0Hit)], where [opaque] is
    [spriteColor&0xFF000000 != 0]: the colour of a sprite pixel with a
    non-zero colour index has alpha $FF, the transparent result has 0. *)
Fixpoint spriteLoop (p : PPU) (cart : Cart) (px py spriteHeight : Z)
    (sprites : list SpriteInfo) : (bool * bool * bool) * Cart :=
  match sprites with
  | [] => ((false, false, false), cart)
  | sprite :: rest =>
      let spriteX := X sprite in
      let spriteY := Y sprite in
      if (spriteX <=? px) && (px <? spriteX + 8) &&
         (spriteY <=? py) && (py <? spriteY + spriteHeight) then
        let pixelX := px - spriteX in
        let pixelY := py - spriteY in
        let pixelX :=
          if nz (Z.land (Attributes sprite) SpriteFlipHorizontal)
          then 7 - pixelX else pixelX in
        let pixelY :=
          if nz (Z.land (Attributes sprite) SpriteFlipVertical)
          then (spriteHeight - 1) - pixelY else pixelY in
        let patternTableBase :=
          if nz (Z.land (PPUCTRL p) PPUCTRLSpriteTable) then 0x1000 else 0x0000 in
        let tileAddr :=
          if spriteHeight =? 16 then
            let tIdx := Z.land (TileIndex sprite) 0xFE in
            let tIdx' := if 8 <=? pixelY then u8 (tIdx + 1) else tIdx in
            let pixelY' := if 8 <=? pixelY then pixelY - 8 else pixelY in
            let base := if nz (Z.land (TileIndex sprite) 1) then 0x1000 else 0x0000 in
            u16 (base + u16 (tIdx' * 16) + u16 pixelY')
          else
            u16 (patternTableBase + u16 (TileIndex sprite * 16) + u16 pixelY) in
        let '(lo, cart) := readVRAM p cart tileAddr in
        let '(hi, cart) := readVRAM p cart (u16 (tileAddr + 8)) in
        let colorIndex := getPixelColor lo hi pixelX in
        if nz colorIndex then
          let priority := Z.land (Attributes sprite) SpritePriority =? 0 in
          let sprite0Hit := OAMIndex sprite =? 0 in
          ((true, priority, sprite0Hit), cart)
        else spriteLoop p cart px py spriteHeight rest
      else spriteLoop p cart px py spriteHeight rest
  end.

Definition renderSpritePixel (p : PPU) (cart : Cart) (px py : Z)
    (sprites : list SpriteInfo) : (bool * bool * bool) * Cart :=
  if Z.land (PPUMASK p) PPUMASKSpriteShow =? 0 then ((false, false, false), cart)
  else if (px <? 8) && (Z.land (PPUMASK p) PPUMASKSpriteLeft =? 0)
  then ((false, false, false), cart)
  else
    let spriteHeight := if nz (Z.land (PPUCTRL p) PPUCTRLSpriteSize) then 16 else 8 in
    spriteLoop p cart px py spriteHeight sprites.

Definition renderPixel (p : PPU) (cart : Cart) : PPU * Cart :=
  if (Scanline p <? 0) || (240 <=? Scanline p) || (Cycle p <? 0) || (256 <=? Cycle p)
  then (p, cart)
  else
    let px := Cycle p in
    let py := Scanline p in
    if negb (renderingEnabled p) then (p, cart)
    else
      let '(p, cart) := renderBackgroundPixelCached p cart px py in
      let p :=
        if Cycle p =? 0 then
          let '(sprites, p) := fetchSpriteData p (Scanline p) in
          set_currentSprites sprites p
        else p in
      if Z.of_nat (length (currentSprites p)) =? 0 then (p, cart)
      else
        let '((opaque, _, sprite0Hit), cart) :=
          renderSpritePixel p cart px py (currentSprites p) in
        if opaque then
          if sprite0Hit && (Z.land (PPUSTATUS p) PPUSTATUSSprite0Hit =? 0) then
            let '(bgOpaque, cart) := isBackgroundPixelOpaque p cart px py in
            let spriteEnabled := nz (Z.land (PPUMASK p) PPUMASKSpriteShow) in
            let bgEnabled := nz (Z.land (PPUMASK p) PPUMASKBGShow) in
            let leftClipped :=
              (px <? 8) &&
              negb (Z.land (PPUMASK p) (Z.lor PPUMASKSpriteLeft PPUMASKBGLeft)
                    =? Z.lor PPUMASKSpriteLeft PPUMASKBGLeft) in
            if bgOpaque && spriteEnabled && bgEnabled && negb leftClipped
            then (set_PPUSTATUS (Z.lor (PPUSTATUS p) PPUSTATUSSprite0Hit) p, cart)
            else (p, cart)
          else (p, cart)
        else (p, cart).

(** **** ppu.go: the dot clock *)

Definition handleMMC3A12Timing (p : PPU) (cart : Cart) : Cart :=
  match cart with
  | None => cart
  | Some c =>
      if negb (renderingEnabled p) then cart
      else
        let cyc := Cycle p in
        let '(a12Addr, shouldNotify) :=
          if ((0 <=? cyc) && (cyc <=? 255)) || ((320 <=? cyc) && (cyc <=? 340)) then
            (if Z.shiftr (Z.land (PPUCTRL p) PPUCTRLBGTable) 4 =? 0
             then 0x0000 else 0x1000, true)
          else if (256 <=? cyc) && (cyc <=? 319) then
            (if Z.shiftr (Z.land (PPUCTRL p) PPUCTRLSpriteTable) 3 =? 0
             then 0x0000 else 0x1000, true)
          else (0, false) in
        if shouldNotify then
          let isTileFetchCycle :=
            (Z.rem cyc 8 =? 0) || (Z.rem cyc 8 =? 2) ||
            (Z.rem cyc 8 =? 4) || (Z.rem cyc 8 =? 6) in
          if isTileFetchCycle
          then Some (Cartridge.NotifyA12 c a12Addr (renderingEnabled p))
          else cart
        else cart
  end.

(** [Step]: one PPU dot. *)
Definition Step (p : PPU) (cart : Cart) : PPU * Cart :=
  let p :=
    set_PaletteManager
      (Palette.SetEmphasis (PaletteManager p) (Z.land (PPUMASK p) 0xE0)) p in
  let '(p, cart) :=
    if (0 <=? Scanline p) && (Scanline p <? 240) then
      let '(p, cart) := renderPixel p cart in
      (p, handleMMC3A12Timing p cart)
    else (p, cart) in
  let p := set_Cycle (Cycle p + 1) p in
  let '(p, cart) :=
    if 341 <=? Cycle p then
      let p := set_Cycle 0 p in
      let p := set_Scanline (Scanline p + 1) p in
      let cart :=
        match cart with
        | Some c =>
            if (0 <=? Scanline p) && (Scanline p <? 240)
            then Some (Cartridge.Step c) else cart
        | None => cart
        end in
      let p :=
        if Scanline p =? 241 then
          let p := set_PPUSTATUS (Z.lor (PPUSTATUS p) PPUSTATUSVBlank) p in
          let p := set_PPUSTATUS (Z.ldiff (PPUSTATUS p) PPUSTATUSSprite0Hit) p in
          if nz (Z.land (PPUCTRL p) PPUCTRLNMIEnable)
          then set_NMIRequested true p else p
        else p in
      let p :=
        if 261 <=? Scanline p then
          let p := set_Scanline (-1) p in
          let p := set_FrameComplete true p in
          let p := set_Frame ((Frame p + 1) mod 2 ^ 64) p in
          set_PPUSTATUS (Z.ldiff (PPUSTATUS p) PPUSTATUSVBlank) p
        else p in
      (p, cart)
    else (p, cart) in
  let p :=
    if Scanline p =? -1 then
      let p :=
        if (Cycle p =? 304) && renderingEnabled p
        then set_v (Z.lor (Z.land (v p) 0x841F) (Z.land (t p) 0x7BE0)) p else p in
      if (Cycle p =? 257) && renderingEnabled p
      then set_v (Z.lor (Z.land (v p) 0xFBE0) (Z.land (t p) 0x041F)) p else p
    else p in
  let p :=
    if (0 <=? Scanline p) && (Scanline p <? 240) then
      if (Cycle p =? 0) && renderingEnabled p then
        set_x (xTemp p) (set_v (Z.lor (Z.land (v p) 0xFBE0) (Z.land (t p) 0x041F)) p)
      else p
    else p in
  (p, cart).

Definition IsMapperIRQPending (cart : Cart) : bool :=
  match cart with
  | Some c => Cartridge.IsIRQPending c
  | None => false
  end.

Definition ClearMapperIRQ (cart : Cart) : Cart :=
  match cart with
  | Some c => Some (Cartridge.ClearIRQ c)
  | None => None
  end.

End WithCartridge.

End PPU.

(** ** pkg/memory: the CPU bus

    [Memory] reaches the PPU, the APU, the cartridge and the controller
    through interfaces.  The PPU, the cartridge and the controller are the
    ones above; the APU is any type [A] with the two methods of the
    interface.  The cartridge of the bus is the cartridge of the PPU (the
    same object, installed in both by [NES.LoadCartridge]); the objects are
    stored here, a nil interface being [None]. *)

Module Memory.

Record Memory (M A : Type) := {
  RAM : gmap Z Z;             (* [2048]uint8 *)
  HighMem : gmap Z Z;         (* [0xA000]uint8 *)
  PPU : option PPU.PPU;
  APU : option A;
  Cartridge : option (Cartridge.Cartridge M);
  Input : option Input.Controller
}.
Arguments RAM {M A}.
Arguments HighMem {M A}.
Arguments PPU {M A}.
Arguments APU {M A}.
Arguments Cartridge {M A}.
Arguments Input {M A}.

Section Bus.
Context {M : Type} `{!Mapper.Mapper M} {A : Type}.
Variable apuReadRegister : A -> Z -> Z * A.
Variable apuWriteRegister : A -> Z -> Z -> A.

Definition set_RAM (val : gmap Z Z) (m : Memory M A) : Memory M A :=
  {| RAM := val; HighMem := HighMem m; PPU := PPU m; APU := APU m;
     Cartridge := Cartridge m; Input := Input m |}.
Definition set_HighMem (val : gmap Z Z) (m : Memory M A) : Memory M A :=
  {| RAM := RAM m; HighMem := val; PPU := PPU m; APU := APU m;
     Cartridge := Cartridge m; Input := Input m |}.
Definition set_PPU (val : option PPU.PPU) (m : Memory M A) : Memory M A :=
  {| RAM := RAM m; HighMem := HighMem m; PPU := val; APU := APU m;
     Cartridge := Cartridge m; Input := Input m |}.
Definition set_APU (val : option A) (m : Memory M A) : Memory M A :=
  {| RAM := RAM m; HighMem := HighMem m; PPU := PPU m; APU := val;
     Cartridge := Cartridge m; Input := Input m |}.
Definition set_Cartridge (val : option (Cartridge.Cartridge M)) (m : Memory M A)
  : Memory M A :=
  {| RAM := RAM m; HighMem := HighMem m; PPU := PPU m; APU := APU m;
     Cartridge := val; Input := Input m |}.
Definition set_Input (val : option Input.Controller) (m : Memory M A) : Memory M A :=
  {| RAM := RAM m; HighMem := HighMem m; PPU := PPU m; APU := APU m;
     Cartridge := Cartridge m; Input := val |}.

Definition New : Memory M A :=
  {| RAM := ∅; HighMem := ∅; PPU := None; APU := None; Cartridge := None;
     Input := None |}.

Definition apuRead (m : Memory M A) (addr : Z) : Z * Memory M A :=
  match APU m with
  | Some a => let '(value, a) := apuReadRegister a addr in (value, set_APU (Some a) m)
  | None => (0, m)
  end.

Definition Read (m : Memory M A) (addr : Z) : Z * Memory M A :=
  if addr <? 0x2000 then (aget (RAM m) (Z.land addr 0x7FF), m)
  else if 0x6000 <=? addr then
    match Cartridge m with
    | Some c => (Cartridge.ReadPRG c addr, m)
    | None =>
        let index := u16 (addr - 0x6000) in
        if 0xA000 <=? index then (0, m) else (aget (HighMem m) index, m)
    end
  else if addr <? 0x4000 then
    match PPU m with
    | Some p =>
        let '(value, p, cart) :=
          PPU.ReadRegister p (Cartridge m) (u16 (0x2000 + Z.land addr 0x7)) in
        (value, set_Cartridge cart (set_PPU (Some p) m))
    | None => (0, m)
    end
  else if addr =? 0x4016 then
    match Input m with
    | Some c => let '(value, c) := Input.Read c in (value, set_Input (Some c) m)
    | None => (0, m)
    end
  else if addr =? 0x4017 then apuRead m addr
  else if addr <? 0x4020 then apuRead m addr
  else (0, m).

(** [m.PPU.WriteRegister(addr, value)] guarded by [m.PPU != nil]. *)
Definition ppuWrite (m : Memory M A) (addr value : Z) : Memory M A :=
  match PPU m with
  | Some p =>
      let '(p, cart) := PPU.WriteRegister p (Cartridge m) addr value in
      set_Cartridge cart (set_PPU (Some p) m)
  | None => m
  end.

(** The loop of [performOAMDMA]: [i] is the loop counter and [n] the
    number of iterations left. *)
Fixpoint dmaLoop (m : Memory M A) (baseAddr i : Z) (n : nat) : Memory M A :=
  match n with
  | O => m
  | S n' =>
      let '(value, m) := Read m (u16 (baseAddr + u16 i)) in
      let m := ppuWrite m 0x2004 value in
      dmaLoop m baseAddr (i + 1) n'
  end.

Definition performOAMDMA (m : Memory M A) (page : Z) : Memory M A :=
  let baseAddr := u16 (Z.shiftl page 8) in
  dmaLoop m baseAddr 0 256.

Definition Write (m : Memory M A) (addr value : Z) : Memory M A :=
  if addr <? 0x2000 then set_RAM (aset (RAM m) (addr mod 0x800) value) m
  else if addr <? 0x4000 then ppuWrite m (u16 (0x2000 + Z.land addr 0x7)) value
  else if addr =? 0x4014 then performOAMDMA m value
  else if addr =? 0x4016 then
    match Input m with
    | Some c => set_Input (Some (Input.Write c value)) m
    | None => m
    end
  else if addr <? 0x4020 then
    match APU m with
    | Some a => set_APU (Some (apuWriteRegister a addr value)) m
    | None => m
    end
  else if 0x6000 <=? addr then
    match Cartridge m with
    | Some c => set_Cartridge (Some (Cartridge.WritePRG c addr value)) m
    | None =>
        let index := u16 (addr - 0x6000) in
        if 0xA000 <=? index then m else set_HighMem (aset (HighMem m) index value) m
    end
  else m.

End Bus.

End Memory.

(** ** pkg/cpu *)

Module CPU.

Record CPU (M Apu : Type) := {
  A : Z;
  X : Z;
  Y : Z;
  SP : Z;
  PC : Z;
  P : Z;
  Memory : Memory.Memory M Apu;
  Cycles : Z;
  NMI : bool;
  IRQ : bool;
  lastPC : Z;
  stuckCounter : Z
}.
Arguments A {M Apu}.
Arguments X {M Apu}.
Arguments Y {M Apu}.
Arguments SP {M Apu}.
Arguments PC {M Apu}.
Arguments P {M Apu}.
Arguments Memory {M Apu}.
Arguments Cycles {M Apu}.
Arguments NMI {M Apu}.
Arguments IRQ {M Apu}.
Arguments lastPC {M Apu}.
Arguments stuckCounter {M Apu}.

Definition FlagCarry : Z := 1.
Definition FlagZero : Z := 2.
Definition FlagInterrupt : Z := 4.
Definition FlagDecimal : Z := 8.
Definition FlagBreak : Z := 16.
Definition FlagUnused : Z := 32.
Definition FlagOverflow : Z := 64.
Definition FlagNegative : Z := 128.

Inductive AddressingMode :=
| AddrImplied
| AddrAccumulator
| AddrImmediate
| AddrZeroPage
| AddrZeroPageX
| AddrZeroPageY
| AddrRelative
| AddrAbsolute
| AddrAbsoluteX
| AddrAbsoluteY
| AddrIndirect
| AddrIndexedIndirect
| AddrIndirectIndexed.

Section Core.
Context {M : Type} `{!Mapper.Mapper M} {Apu : Type}.
Variable apuReadRegister : Apu -> Z -> Z * Apu.
Variable apuWriteRegister : Apu -> Z -> Z -> Apu.

Definition set_A (val : _) (r : CPU M Apu) : CPU M Apu :=
  {| A := val; X := X r; Y := Y r; SP := SP r; PC := PC r; P := P r; Memory :=
     Memory r; Cycles := Cycles r; NMI := NMI r; IRQ := IRQ r; lastPC := lastPC r;
     stuckCounter := stuckCounter r |}.
Definition set_X (val : _) (r : CPU M Apu) : CPU M Apu :=
  {| A := A r; X := val; Y := Y r; SP := SP r; PC := PC r; P := P r; Memory :=
     Memory r; Cycles := Cycles r; NMI := NMI r; IRQ := IRQ r; lastPC := lastPC r;
     stuckCounter := stuckCounter r |}.
Definition set_Y (val : _) (r : CPU M Apu) : CPU M Apu :=
  {| A := A r; X := X r; Y := val; SP := SP r; PC := PC r; P := P r; Memory :=
     Memory r; Cycles := Cycles r; NMI := NMI r; IRQ := IRQ r; lastPC := lastPC r;
     stuckCounter := stuckCounter r |}.
Definition set_SP (val : _) (r : CPU M Apu) : CPU M Apu :=
  {| A := A r; X := X r; Y := Y r; SP := val; PC := PC r; P := P r; Memory := Memory
     r; Cycles := Cycles r; NMI := NMI r; IRQ := IRQ r; lastPC := lastPC r;
     stuckCounter := stuckCounter r |}.
Definition set_PC (val : _) (r : CPU M Apu) : CPU M Apu :=
  {| A := A r; X := X r; Y := Y r; SP := SP r; PC := val; P := P r; Memory := Memory
     r; Cycles := Cycles r; NMI := NMI r; IRQ := IRQ r; lastPC := lastPC r;
     stuckCounter := stuckCounter r |}.
Definition set_P (val : _) (r : CPU M Apu) : CPU M Apu :=
  {| A := A r; X := X r; Y := Y r; SP := SP r; PC := PC r; P := val; Memory :=
     Memory r; Cycles := Cycles r; NMI := NMI r; IRQ := IRQ r; lastPC := lastPC r;
     stuckCounter := stuckCounter r |}.
Definition set_Memory (val : _) (r : CPU M Apu) : CPU M Apu :=
  {| A := A r; X := X r; Y := Y r; SP := SP r; PC := PC r; P := P r; Memory := val;
     Cycles := Cycles r; NMI := NMI r; IRQ := IRQ r; lastPC := lastPC r; stuckCounter
     := stuckCounter r |}.
Definition set_Cycles (val : _) (r : CPU M Apu) : CPU M Apu :=
  {| A := A r; X := X r; Y := Y r; SP := SP r; PC := PC r; P := P r; Memory :=
     Memory r; Cycles := val; NMI := NMI r; IRQ := IRQ r; lastPC := lastPC r;
     stuckCounter := stuckCounter r |}.
Definition set_NMI (val : _) (r : CPU M Apu) : CPU M Apu :=
  {| A := A r; X := X r; Y := Y r; SP := SP r; PC := PC r; P := P r; Memory :=
     Memory r; Cycles := Cycles r; NMI := val; IRQ := IRQ r; lastPC := lastPC r;
     stuckCounter := stuckCounter r |}.
Definition set_IRQ (val : _) (r : CPU M Apu) : CPU M Apu :=
  {| A := A r; X := X r; Y := Y r; SP := SP r; PC := PC r; P := P r; Memory :=
     Memory r; Cycles := Cycles r; NMI := NMI r; IRQ := val; lastPC := lastPC r;
     stuckCounter := stuckCounter r |}.

Definition New (mem : Memory.Memory M Apu) : CPU M Apu :=
  {| A := 0; X := 0; Y := 0; SP := 0xFD; PC := 0;
     P := Z.lor FlagUnused FlagInterrupt; Memory := mem; Cycles := 0;
     NMI := false; IRQ := false; lastPC := 0; stuckCounter := 0 |}.

Definition getFlag (c : CPU M Apu) (flag : Z) : bool := nz (Z.land (P c) flag).

Definition setFlag (c : CPU M Apu) (flag : Z) (value : bool) : CPU M Apu :=
  if value then set_P (Z.lor (P c) flag) c else set_P (Z.ldiff (P c) flag) c.

Definition read (c : CPU M Apu) (addr : Z) : Z * CPU M Apu :=
  let '(value, mem) := Memory.Read apuReadRegister (Memory c) addr in
  (value, set_Memory mem c).

Definition write (c : CPU M Apu) (addr value : Z) : CPU M Apu :=
  set_Memory (Memory.Write apuReadRegister apuWriteRegister (Memory c) addr value) c.

Definition read16 (c : CPU M Apu) (addr : Z) : Z * CPU M Apu :=
  let '(lo, c) := read c addr in
  let '(hi, c) := read c (u16 (addr + 1)) in
  (Z.lor (u16 (Z.shiftl hi 8)) lo, c).

Definition push (c : CPU M Apu) (value : Z) : CPU M Apu :=
  let c := write c (Z.lor 0x100 (SP c)) value in
  set_SP (u8 (SP c - 1)) c.

Definition pop (c : CPU M Apu) : Z * CPU M Apu :=
  let c := set_SP (u8 (SP c + 1)) c in
  read c (Z.lor 0x100 (SP c)).

Definition push16 (c : CPU M Apu) (value : Z) : CPU M Apu :=
  let c := push c (u8 (Z.shiftr value 8)) in
  push c (u8 (Z.land value 0xFF)).

Definition pop16 (c : CPU M Apu) : Z * CPU M Apu :=
  let '(lo, c) := pop c in
  let '(hi, c) := pop c in
  (Z.lor (u16 (Z.shiftl hi 8)) lo, c).

Definition Reset (c : CPU M Apu) : CPU M Apu :=
  let c := set_A 0 c in
  let c := set_X 0 c in
  let c := set_Y 0 c in
  let c := set_SP 0xFD c in
  let c := set_P (Z.lor FlagUnused FlagInterrupt) c in
  let '(resetVector, c) := read16 c 0xFFFC in
  set_Cycles 0 (set_PC resetVector c).

Definition handleNMI (c : CPU M Apu) : CPU M Apu :=
  let c := push16 c (PC c) in
  let c := push c (P c) in
  let c := setFlag c FlagInterrupt true in
  let '(nmiVector, c) := read16 c 0xFFFA in
  set_PC nmiVector c.

Definition handleIRQ (c : CPU M Apu) : CPU M Apu :=
  let c := push16 c (PC c) in
  let c := push c (P c) in
  let c := setFlag c FlagInterrupt true in
  let '(vector, c) := read16 c 0xFFFE in
  set_PC vector c.

Definition TriggerNMI (c : CPU M Apu) : CPU M Apu := set_NMI true c.
Definition TriggerIRQ (c : CPU M Apu) : CPU M Apu := set_IRQ true c.

(** [int8(b)] of a byte. *)
Definition int8 (b : Z) : Z := if 128 <=? b then b - 256 else b.

(** The dummy read of the indexed modes on a page crossing. *)
Definition dummyRead (c : CPU M Apu) (base index : Z) (pageCrossed : bool)
  : CPU M Apu :=
  if pageCrossed then
    let dummyAddr := Z.lor (Z.land base 0xFF00) (Z.land (u16 (base + index)) 0xFF) in
    snd (read c dummyAddr)
  else c.

Definition getOperandAddress (c : CPU M Apu) (mode : AddressingMode)
  : Z * bool * CPU M Apu :=
  match mode with
  | AddrImplied => (0, false, c)
  | AddrAccumulator => (0, false, c)
  | AddrImmediate =>
      let addr := PC c in
      (addr, false, set_PC (u16 (PC c + 1)) c)
  | AddrZeroPage =>
      let '(b, c) := read c (PC c) in
      (b, false, set_PC (u16 (PC c + 1)) c)
  | AddrZeroPageX =>
      let '(b, c) := read c (PC c) in
      let addr := u8 (b + X c) in
      (Z.land addr 0xFF, false, set_PC (u16 (PC c + 1)) c)
  | AddrZeroPageY =>
      let '(b, c) := read c (PC c) in
      let addr := u8 (b + Y c) in
      (Z.land addr 0xFF, false, set_PC (u16 (PC c + 1)) c)
  | AddrRelative =>
      let '(b, c) := read c (PC c) in
      let offset := int8 b in
      let c := set_PC (u16 (PC c + 1)) c in
      let addr := u16 (PC c + offset) in
      (addr, negb (Z.land (PC c) 0xFF00 =? Z.land addr 0xFF00), c)
  | AddrAbsolute =>
      let '(addr, c) := read16 c (PC c) in
      (addr, false, set_PC (u16 (PC c + 2)) c)
  | AddrAbsoluteX =>
      let '(base, c) := read16 c (PC c) in
      let c := set_PC (u16 (PC c + 2)) c in
      let addr := u16 (base + X c) in
      let pageCrossed := negb (Z.land base 0xFF00 =? Z.land addr 0xFF00) in
      (addr, pageCrossed, dummyRead c base (X c) pageCrossed)
  | AddrAbsoluteY =>
      let '(base, c) := read16 c (PC c) in
      let c := set_PC (u16 (PC c + 2)) c in
      let addr := u16 (base + Y c) in
      let pageCrossed := negb (Z.land base 0xFF00 =? Z.land addr 0xFF00) in
      (addr, pageCrossed, dummyRead c base (Y c) pageCrossed)
  | AddrIndirect =>
      let '(ptr, c) := read16 c (PC c) in
      let c := set_PC (u16 (PC c + 2)) c in
      if Z.land ptr 0xFF =? 0xFF then
        let '(lo, c) := read c ptr in
        let '(hi, c) := read c (Z.land ptr 0xFF00) in
        (Z.lor (u16 (Z.shiftl hi 8)) lo, false, c)
      else
        let '(addr, c) := read16 c ptr in
        (addr, false, c)
  | AddrIndexedIndirect =>
      let '(base, c) := read c (PC c) in
      let c := set_PC (u16 (PC c + 1)) c in
      let ptr := Z.land (base + X c) 0xFF in
      let '(lo, c) := read c ptr in
      let '(hi, c) := read c (Z.land (ptr + 1) 0xFF) in
      (Z.lor (u16 (Z.shiftl hi 8)) lo, false, c)
  | AddrIndirectIndexed =>
      let '(base, c) := read c (PC c) in
      let c := set_PC (u16 (PC c + 1)) c in
      let '(lo, c) := read c base in
      let '(hi, c) := read c (Z.land (base + 1) 0xFF) in
      let baseAddr := Z.lor (u16 (Z.shiftl hi 8)) lo in
      let addr := u16 (baseAddr + Y c) in
      let pageCrossed := negb (Z.land baseAddr 0xFF00 =? Z.land addr 0xFF00) in
      (addr, pageCrossed, dummyRead c baseAddr (Y c) pageCrossed)
  end.

Definition getOperand (c : CPU M Apu) (mode : AddressingMode) : Z * bool * CPU M Apu :=
  match mode with
  | AddrAccumulator => (A c, false, c)
  | AddrImmediate =>
      let '(addr, _, c) := getOperandAddress c mode in
      let '(value, c) := read c addr in
      (value, false, c)
  | _ =>
      let '(addr, pageCrossed, c) := getOperandAddress c mode in
      let '(value, c) := read c addr in
      (value, pageCrossed, c)
  end.

Definition setZN (c : CPU M Apu) (value : Z) : CPU M Apu :=
  let c := setFlag c FlagZero (value =? 0) in
  setFlag c FlagNegative (nz (Z.land value 0x80)).

(** **** instructions.go

    [executeInstruction] is a switch over 237 opcodes with a default case.
    The cases embedded here are the loads, the stores, the register
    transfers, the flag instructions, the stack instructions, JMP absolute,
    RTI, BRK and the implied NOPs, together with the default case (the 19
    opcodes of [defaultOpcodes], which no case lists).  For an opcode
    handled by another case the result is [None]: that case is not part of
    this embedding. *)

Definition execLDA (c : CPU M Apu) (mode : AddressingMode) : Z * CPU M Apu :=
  let '(value, pageCrossed, c) := getOperand c mode in
  let c := set_A value c in
  let c := setZN c (A c) in
  let cycles :=
    match mode with
    | AddrImmediate => 2
    | AddrZeroPage => 3
    | AddrZeroPageX => 4
    | AddrAbsolute => 4
    | AddrAbsoluteX | AddrAbsoluteY => if pageCrossed then 5 else 4
    | AddrIndexedIndirect => 6
    | AddrIndirectIndexed => if pageCrossed then 6 else 5
    | _ => 2
    end in
  (cycles, c).

Definition execLDX (c : CPU M Apu) (mode : AddressingMode) : Z * CPU M Apu :=
  let '(value, pageCrossed, c) := getOperand c mode in
  let c := set_X value c in
  let c := setZN c (X c) in
  let cycles :=
    match mode with
    | AddrImmediate => 2
    | AddrZeroPage => 3
    | AddrZeroPageY => 4
    | AddrAbsolute => 4
    | AddrAbsoluteY => if pageCrossed then 5 else 4
    | _ => 2
    end in
  (cycles, c).

Definition getLoadCycles (mode : AddressingMode) : Z :=
  match mode with
  | AddrImmediate => 2
  | AddrZeroPage => 3
  | AddrZeroPageX | AddrZeroPageY => 4
  | AddrAbsolute => 4
  | AddrAbsoluteX | AddrAbsoluteY => 4
  | AddrIndexedIndirect => 6
  | AddrIndirectIndexed => 5
  | _ => 2
  end.

Definition execLDY (c : CPU M Apu) (mode : AddressingMode) : Z * CPU M Apu :=
  let '(value, pageCrossed, c) := getOperand c mode in
  let c := set_Y value c in
  let c := setZN c (Y c) in
  let cycles := getLoadCycles mode in
  let extra :=
    match mode with
    | AddrAbsoluteX | AddrIndirectIndexed => pageCrossed
    | _ => false
    end in
  (if extra then cycles + 1 else cycles, c).

Definition getStoreCycles (mode : AddressingMode) : Z :=
  match mode with
  | AddrZeroPage => 3
  | AddrZeroPageX | AddrZeroPageY => 4
  | AddrAbsolute => 4
  | AddrAbsoluteX | AddrAbsoluteY => 5
  | AddrIndexedIndirect => 6
  | AddrIndirectIndexed => 6
  | _ => 3
  end.

Definition execSTA (c : CPU M Apu) (mode : AddressingMode) : Z * CPU M Apu :=
  let '(addr, _, c) := getOperandAddress c mode in
  (getStoreCycles mode, write c addr (A c)).

Definition execSTX (c : CPU M Apu) (mode : AddressingMode) : Z * CPU M Apu :=
  let '(addr, _, c) := getOperandAddress c mode in
  (getStoreCycles mode, write c addr (X c)).

Definition execSTY (c : CPU M Apu) (mode : AddressingMode) : Z * CPU M Apu :=
  let '(addr, _, c) := getOperandAddress c mode in
  (getStoreCycles mode, write c addr (Y c)).

Definition execTAX (c : CPU M Apu) : Z * CPU M Apu :=
  let c := set_X (A c) c in (2, setZN c (X c)).
Definition execTXA (c : CPU M Apu) : Z * CPU M Apu :=
  let c := set_A (X c) c in (2, setZN c (A c)).
Definition execTAY (c : CPU M Apu) : Z * CPU M Apu :=
  let c := set_Y (A c) c in (2, setZN c (Y c)).
Definition execTYA (c : CPU M Apu) : Z * CPU M Apu :=
  let c := set_A (Y c) c in (2, setZN c (A c)).
Definition execTXS (c : CPU M Apu) : Z * CPU M Apu :=
  (2, set_SP (X c) c).
Definition execTSX (c : CPU M Apu) : Z * CPU M Apu :=
  let c := set_X (SP c) c in (2, setZN c (X c)).

Definition execCLC (c : CPU M Apu) : Z * CPU M Apu := (2, setFlag c FlagCarry false).
Definition execSEC (c : CPU M Apu) : Z * CPU M Apu := (2, setFlag c FlagCarry true).
Definition execCLI (c : CPU M Apu) : Z * CPU M Apu := (2, setFlag c FlagInterrupt false).
Definition execSEI (c : CPU M Apu) : Z * CPU M Apu := (2, setFlag c FlagInterrupt true).
Definition execCLV (c : CPU M Apu) : Z * CPU M Apu := (2, setFlag c FlagOverflow false).
Definition execCLD (c : CPU M Apu) : Z * CPU M Apu := (2, setFlag c FlagDecimal false).
Definition execSED (c : CPU M Apu) : Z * CPU M Apu := (2, setFlag c FlagDecimal true).

Definition execPHA (c : CPU M Apu) : Z * CPU M Apu := (3, push c (A c)).

Definition execPLA (c : CPU M Apu) : Z * CPU M Apu :=
  let '(value, c) := pop c in
  let c := set_A value c in
  (4, setZN c (A c)).

Definition execPHP (c : CPU M Apu) : Z * CPU M Apu :=
  (3, push c (Z.lor (P c) FlagBreak)).

Definition execPLP (c : CPU M Apu) : Z * CPU M Apu :=
  let '(value, c) := pop c in
  let c := set_P value c in
  let c := set_P (Z.lor (P c) FlagUnused) c in
  (4, set_P (Z.ldiff (P c) FlagBreak) c).

Definition execJMPAbsolute (c : CPU M Apu) : Z * CPU M Apu :=
  let '(low, c) := read c (PC c) in
  let c := set_PC (u16 (PC c + 1)) c in
  let '(high, c) := read c (PC c) in
  (3, set_PC (Z.lor (u16 (Z.shiftl high 8)) low) c).

Definition execRTI (c : CPU M Apu) : Z * CPU M Apu :=
  let '(value, c) := pop c in
  let c := set_P value c in
  let c := set_P (Z.lor (P c) FlagUnused) c in
  let c := set_P (Z.ldiff (P c) FlagBreak) c in
  let '(low, c) := pop c in
  let '(high, c) := pop c in
  (6, set_PC (Z.lor (u16 (Z.shiftl high 8)) low) c).

Definition execBRK (c : CPU M Apu) : Z * CPU M Apu :=
  let c := set_PC (u16 (PC c + 1)) c in
  let c := push16 c (PC c) in
  let c := push c (Z.lor (P c) FlagBreak) in
  let c := setFlag c FlagInterrupt true in
  let '(vector, c) := read16 c 0xFFFE in
  (7, set_PC vector c).

Definition execNOP (c : CPU M Apu) : Z * CPU M Apu := (2, c).

(** The opcodes that no case of the switch lists. *)
Definition defaultOpcodes : list Z :=
  [0x02; 0x12; 0x22; 0x32; 0x42; 0x52; 0x62; 0x72; 0x8B; 0x92; 0x93; 0x9B;
   0x9C; 0x9E; 0x9F; 0xB2; 0xBB; 0xD2; 0xF2].

Definition executeInstruction (c : CPU M Apu) (opcode : Z) : option (Z * CPU M Apu) :=
  match opcode with
  (* LDA *)
  | 0xA9 => Some (execLDA c AddrImmediate)
  | 0xA5 => Some (execLDA c AddrZeroPage)
  | 0xB5 => Some (execLDA c AddrZeroPageX)
  | 0xAD => Some (execLDA c AddrAbsolute)
  | 0xBD => Some (execLDA c AddrAbsoluteX)
  | 0xB9 => Some (execLDA c AddrAbsoluteY)
  | 0xA1 => Some (execLDA c AddrIndexedIndirect)
  | 0xB1 => Some (execLDA c AddrIndirectIndexed)
  (* LDX *)
  | 0xA2 => Some (execLDX c AddrImmediate)
  | 0xA6 => Some (execLDX c AddrZeroPage)
  | 0xB6 => Some (execLDX c AddrZeroPageY)
  | 0xAE => Some (execLDX c AddrAbsolute)
  | 0xBE => Some (execLDX c AddrAbsoluteY)
  (* LDY *)
  | 0xA0 => Some (execLDY c AddrImmediate)
  | 0xA4 => Some (execLDY c AddrZeroPage)
  | 0xB4 => Some (execLDY c AddrZeroPageX)
  | 0xAC => Some (execLDY c AddrAbsolute)
  | 0xBC => Some (execLDY c AddrAbsoluteX)
  (* STA *)
  | 0x85 => Some (execSTA c AddrZeroPage)
  | 0x95 => Some (execSTA c AddrZeroPageX)
  | 0x8D => Some (execSTA c AddrAbsolute)
  | 0x9D => Some (execSTA c AddrAbsoluteX)
  | 0x99 => Some (execSTA c AddrAbsoluteY)
  | 0x81 => Some (execSTA c AddrIndexedIndirect)
  | 0x91 => Some (execSTA c AddrIndirectIndexed)
  (* STX *)
  | 0x86 => Some (execSTX c AddrZeroPage)
  | 0x96 => Some (execSTX c AddrZeroPageY)
  | 0x8E => Some (execSTX c AddrAbsolute)
  (* STY *)
  | 0x84 => Some (execSTY c AddrZeroPage)
  | 0x94 => Some (execSTY c AddrZeroPageX)
  | 0x8C => Some (execSTY c AddrAbsolute)
  (* transfers *)
  | 0xAA => Some (execTAX c)
  | 0x8A => Some (execTXA c)
  | 0xA8 => Some (execTAY c)
  | 0x98 => Some (execTYA c)
  | 0x9A => Some (execTXS c)
  | 0xBA => Some (execTSX c)
  (* flags *)
  | 0x18 => Some (execCLC c)
  | 0x38 => Some (execSEC c)
  | 0x58 => Some (execCLI c)
  | 0x78 => Some (execSEI c)
  | 0xB8 => Some (execCLV c)
  | 0xD8 => Some (execCLD c)
  | 0xF8 => Some (execSED c)
  (* stack *)
  | 0x48 => Some (execPHA c)
  | 0x68 => Some (execPLA c)
  | 0x08 => Some (execPHP c)
  | 0x28 => Some (execPLP c)
  (* jumps and interrupts *)
  | 0x4C => Some (execJMPAbsolute c)
  | 0x40 => Some (execRTI c)
  | 0x00 => Some (execBRK c)
  (* NOP, official and implied undocumented *)
  | 0xEA | 0x1A | 0x3A | 0x5A | 0x7A | 0xDA | 0xFA => Some (execNOP c)
  | _ =>
      if bool_decide (opcode ∈ defaultOpcodes) then Some (2, c) else None
  end.

(** **** cpu.go: [Step] *)

Definition Step (c : CPU M Apu) : option (Z * CPU M Apu) :=
  if NMI c then
    let c := handleNMI c in
    Some (7, set_NMI false c)
  else
    let c :=
      if IRQ c && negb (getFlag c FlagInterrupt)
      then set_IRQ false c     (* c.handleIRQ() is commented out *)
      else c in
    let '(opcode, c) := read c (PC c) in
    let c := set_PC (u16 (PC c + 1)) c in
    match executeInstruction c opcode with
    | Some (cycles, c) => Some (cycles, set_Cycles (Cycles c + cycles) c)
    | None => None
    end.

End Core.

End CPU.

(** ** pkg/nes: the harness

    [NES] owns the CPU, the bus and the devices; here they are reached
    through the CPU's [Memory]. *)

Module NES.

Record NES (M Apu : Type) := {
  CPU : CPU.CPU M Apu;
  Cycles : Z;                 (* uint64 *)
  Frame : Z                   (* uint64 *)
}.
Arguments CPU {M Apu}.
Arguments Cycles {M Apu}.
Arguments Frame {M Apu}.

Section Harness.
Context {M : Type} `{!Mapper.Mapper M} {Apu : Type}.
Variable apuReadRegister : Apu -> Z -> Z * Apu.
Variable apuWriteRegister : Apu -> Z -> Z -> Apu.
Variable apuStep : Apu -> Apu.

(** The body of the PPU loop of [Step]: one dot, then the NMI and mapper
    IRQ hand-over to the CPU. *)
Definition ppuTick (c : CPU.CPU M Apu) : CPU.CPU M Apu :=
  let mem := CPU.Memory c in
  match Memory.PPU mem with
  | None => c
  | Some p =>
      let '(p, cart) := PPU.Step p (Memory.Cartridge mem) in
      let '(c, p) :=
        if PPU.NMIRequested p
        then (CPU.TriggerNMI c, PPU.set_NMIRequested false p)
        else (c, p) in
      let '(c, cart) :=
        if PPU.IsMapperIRQPending cart
        then (CPU.TriggerIRQ c, PPU.ClearMapperIRQ cart)
        else (c, cart) in
      CPU.set_Memory (Memory.set_Cartridge cart (Memory.set_PPU (Some p) mem)) c
  end.

Definition apuTick (c : CPU.CPU M Apu) : CPU.CPU M Apu :=
  let mem := CPU.Memory c in
  match Memory.APU mem with
  | None => c
  | Some a => CPU.set_Memory (Memory.set_APU (Some (apuStep a)) mem) c
  end.

Definition Step (n : NES M Apu) : option (NES M Apu) :=
  match CPU.Step apuReadRegister apuWriteRegister (CPU n) with
  | None => None
  | Some (cpuCycles, c) =>
      let c := Nat.iter (Z.to_nat (cpuCycles * 3)) ppuTick c in
      let c := Nat.iter (Z.to_nat cpuCycles) apuTick c in
      Some {| CPU := c; Cycles := (Cycles n + cpuCycles) mod 2 ^ 64; Frame := Frame n |}
  end.

End Harness.

End NES.

(** * Scenarios

    Event sequences and concrete machine states used to state and to
    exercise the properties below. *)

(** ** Bounded checks

    [allFrom P z n] tests [P] on the [n] integers from [z] upwards; it
    decides statements over a machine word by enumeration. *)

Fixpoint allFrom (P : Z -> bool) (z : Z) (n : nat) : bool :=
  match n with
  | O => true
  | S n' => P z && allFrom P (z + 1) n'
  end.

(** ** MMC3 interrupt counter *)

Module MMC3Scenario.

(** A clock of the IRQ counter or a CPU write to the mapper. *)
Inductive event :=
| Edge
| Wr (addr value : Z).

Definition apply (m : Mapper4.Mapper4) (e : event) : Mapper4.Mapper4 :=
  match e with
  | Edge => Mapper4.Step m
  | Wr addr value => Mapper4.WritePRG m addr value
  end.

Definition run (m : Mapper4.Mapper4) (es : list event) : Mapper4.Mapper4 :=
  fold_left apply es m.

(** [k] clocks of the IRQ counter. *)
Definition edges (k : nat) (m : Mapper4.Mapper4) : Mapper4.Mapper4 :=
  Nat.iter k Mapper4.Step m.

(** Latch [L] to $C000, reload through $C001, enable through $E001. *)
Definition arm (m : Mapper4.Mapper4) (L v1 v2 : Z) : Mapper4.Mapper4 :=
  Mapper4.WritePRG (Mapper4.WritePRG (Mapper4.WritePRG m 0xC000 L) 0xC001 v1) 0xE001 v2.

(** A write that decodes to the $E000 register (IRQ disable/acknowledge). *)
Definition isAck (e : event) : bool :=
  match e with
  | Edge => false
  | Wr addr _ => (0x8000 <=? addr) && (Z.land addr 0xE001 =? 0xE000)
  end.

(** A 32 KiB PRG-ROM, 8 KiB CHR-ROM cartridge, as in the mapper tests. *)
Definition testData : Mapper.CartridgeData :=
  {| Mapper.PRGROM := repeat 0 (Z.to_nat 32768); Mapper.CHRROM := repeat 0 (Z.to_nat 8192);
     Mapper.PRGRAM := []; Mapper.CHRRAM := [] |}.

Definition fresh : Mapper4.Mapper4 := Mapper4.NewMapper4 testData.

End MMC3Scenario.

(** ** Mapper 0 behind the CPU bus *)

Module NROMScenario.

(** Scenario C: a 16 KiB PRG bank with byte $42 at PRG[0]. *)
Definition prg16k : list Z := 0x42 :: repeat 0 (Z.to_nat 16383).

Definition data : Mapper.CartridgeData :=
  {| Mapper.PRGROM := prg16k; Mapper.CHRROM := 0x77 :: repeat 0 (Z.to_nat 8191);
     Mapper.PRGRAM := []; Mapper.CHRRAM := [] |}.

(** The same with 8 KiB of PRG-RAM behind $6000. *)
Definition dataWithRAM : Mapper.CartridgeData :=
  {| Mapper.PRGROM := prg16k; Mapper.CHRROM := 0x77 :: repeat 0 (Z.to_nat 8191);
     Mapper.PRGRAM := repeat 0 (Z.to_nat 8192); Mapper.CHRRAM := [] |}.

Definition header : Cartridge.iNESHeader :=
  {| Cartridge.Magic := Cartridge.magicNES; Cartridge.PRGROMSize := 1;
     Cartridge.CHRROMSize := 1; Cartridge.Flags6 := 0; Cartridge.Flags7 := 0;
     Cartridge.Flags8 := 0; Cartridge.Flags9 := 0; Cartridge.Flags10 := 0;
     Cartridge.Padding := [0; 0; 0; 0; 0] |}.

(** An NROM cartridge with horizontal mirroring in its header. *)
Definition cart : Cartridge.Cartridge Mapper0.Mapper0 :=
  {| Cartridge.cPRGROM := Mapper.PRGROM data; Cartridge.cCHRROM := Mapper.CHRROM data;
     Cartridge.cPRGRAM := []; Cartridge.cCHRRAM := [];
     Cartridge.Header := header;
     Cartridge.Mapper := Some (Mapper0.NewMapper0 data);
     Cartridge.Mirroring := Cartridge.MirroringHorizontal |}.

(** The bus of a console with this cartridge inserted and no APU attached. *)
Definition mem : Memory.Memory Mapper0.Mapper0 APU.APU :=
  {| Memory.RAM := ∅; Memory.HighMem := ∅; Memory.PPU := Some PPU.New;
     Memory.APU := None; Memory.Cartridge := Some cart;
     Memory.Input := Some Input.New |}.

End NROMScenario.

(** ** iNES images *)

Module LoaderScenario.

(** A header for one PRG bank, one CHR bank and the given flag bytes. *)
Definition headerBytes (flags6 flags7 : Z) : list Z :=
  [0x4E; 0x45; 0x53; 0x1A; 1; 1; flags6; flags7; 0; 0; 0; 0; 0; 0; 0; 0].

Definition image (flags6 flags7 : Z) : list Z :=
  headerBytes flags6 flags7 ++ repeat 0 (Z.to_nat (16384 + 8192)).

(** Mapper 5 (MMC5): low nibble 5 in Flags6. *)
Definition mmc5Image : list Z := image 0x50 0x00.

(** The header of [mmc5Image] and what follows it. *)
Definition mmc5Header : Cartridge.iNESHeader :=
  {| Cartridge.Magic := Cartridge.magicNES; Cartridge.PRGROMSize := 1;
     Cartridge.CHRROMSize := 1; Cartridge.Flags6 := 0x50; Cartridge.Flags7 := 0;
     Cartridge.Flags8 := 0; Cartridge.Flags9 := 0; Cartridge.Flags10 := 0;
     Cartridge.Padding := [0; 0; 0; 0; 0] |}.

Definition romBytes : list Z := repeat 0 (Z.to_nat (16384 + 8192)).

(** Mapper 66: low nibble 2 in Flags6, high nibble 4 in Flags7. *)
Definition mapper66Image : list Z := image 0x20 0x40.

(** Mapper 4 with vertical mirroring. *)
Definition mmc3Image : list Z := image 0x41 0x00.

End LoaderScenario.

(** ** PPU *)

Module PPUScenario.

(** The mirroring mode the PPU sees: the cartridge's, or horizontal (0)
    when no cartridge is attached. *)
Definition mirroringOf {M : Type} `{!Mapper.Mapper M}
    (cart : option (Cartridge.Cartridge M)) : Z :=
  match cart with
  | Some c => Cartridge.GetMirroring c
  | None => 0
  end.

(** The NROM cartridge with vertical mirroring in its header. *)
Definition verticalCart : Cartridge.Cartridge Mapper0.Mapper0 :=
  {| Cartridge.cPRGROM := Cartridge.cPRGROM NROMScenario.cart;
     Cartridge.cCHRROM := Cartridge.cCHRROM NROMScenario.cart;
     Cartridge.cPRGRAM := []; Cartridge.cCHRRAM := [];
     Cartridge.Header := Cartridge.Header NROMScenario.cart;
     Cartridge.Mapper := Cartridge.Mapper NROMScenario.cart;
     Cartridge.Mirroring := Cartridge.MirroringVertical |}.

(** Register writes, in order. *)
Fixpoint writes {M : Type} `{!Mapper.Mapper M} (p : PPU.PPU)
    (cart : option (Cartridge.Cartridge M)) (ws : list (Z * Z)) : PPU.PPU :=
  match ws with
  | [] => p
  | (addr, value) :: ws =>
      let '(p, cart) := PPU.WriteRegister p cart addr value in
      writes p cart ws
  end.

(** Scenario E: the scroll and address latch sequence. *)
Definition scenarioE : list (Z * Z) :=
  [(0x2000, 0x00); (0x2005, 0x7D); (0x2005, 0x5E); (0x2006, 0x3D); (0x2006, 0xF0)].


End PPUScenario.

(** ** PPU states for the register and timing scenarios *)

Module PPUStates.

(** The PPU after power-on and [Reset], with the NROM cartridge attached. *)
Definition cart : option (Cartridge.Cartridge Mapper0.Mapper0) :=
  Some NROMScenario.cart.

(** PPUADDR = $3F, $FF followed by one PPUDATA read: [v] has stepped from
    $3FFF to $4000. *)
Definition afterWrap : PPU.PPU * option (Cartridge.Cartridge Mapper0.Mapper0) :=
  let '(p, c) := PPU.WriteRegister PPU.New cart 0x2006 0x3F in
  let '(p, c) := PPU.WriteRegister p c 0x2006 0xFF in
  let '(_, p, c) := PPU.ReadRegister p c 0x2007 in
  (p, c).

(** End of scanline 240 with sprite-0-hit and sprite-overflow set and NMI
    enabled. *)
Definition endOfLine240 : PPU.PPU :=
  PPU.set_PPUCTRL 0x80 (PPU.set_PPUSTATUS 0x60
    (PPU.set_Scanline 240 (PPU.set_Cycle 340 PPU.New))).

(** End of scanline 260, in vertical blank, with sprite-overflow set. *)
Definition endOfLine260 : PPU.PPU :=
  PPU.set_PPUSTATUS 0xA0 (PPU.set_Scanline 260 (PPU.set_Cycle 340 PPU.New)).

(** End of scanline 10 with the background shown and a fine-X scroll of 5
    pending. *)
Definition endOfLine10 : PPU.PPU :=
  PPU.set_xTemp 5 (PPU.set_PPUMASK 0x08
    (PPU.set_Scanline 10 (PPU.set_Cycle 340 PPU.New))).

(** [n] dots. *)
Definition steps (n : nat) (p : PPU.PPU)
    (c : option (Cartridge.Cartridge Mapper0.Mapper0)) : PPU.PPU :=
  fst (Nat.iter n (fun pc => PPU.Step (fst pc) (snd pc)) (p, c)).

End PPUStates.

(** ** The PPU dot clock *)

Module PPUFrame.
Import PPU.

(** What rendering one pixel may do to the PPU state: the tile cache and the
    sprite list aside, it can only raise sprite-overflow ($20) and
    sprite-0-hit ($40) in PPUSTATUS. *)
Definition rendered (p p' : PPU) : Prop :=
  PPUCTRL p' = PPUCTRL p /\ PPUMASK p' = PPUMASK p /\ OAMADDR p' = OAMADDR p /\
  v p' = v p /\ t p' = t p /\ x p' = x p /\ xTemp p' = xTemp p /\ w p' = w p /\
  VRAM p' = VRAM p /\ OAM p' = OAM p /\ Cycle p' = Cycle p /\
  Scanline p' = Scanline p /\ Frame p' = Frame p /\
  FrameComplete p' = FrameComplete p /\ NMIRequested p' = NMIRequested p /\
  PaletteManager p' = PaletteManager p /\ readBuffer p' = readBuffer p /\
  exists k, (k = 0 \/ k = 0x20 \/ k = 0x40 \/ k = 0x60) /\
            PPUSTATUS p' = Z.lor (PPUSTATUS p) k.

(** The timing state: counters, flags and the registers that drive them. *)
Definition sameTiming (p p' : PPU) : Prop :=
  PPUCTRL p' = PPUCTRL p /\ PPUMASK p' = PPUMASK p /\ PPUSTATUS p' = PPUSTATUS p /\
  Cycle p' = Cycle p /\ Scanline p' = Scanline p /\ Frame p' = Frame p /\
  FrameComplete p' = FrameComplete p /\ NMIRequested p' = NMIRequested p /\
  t p' = t p /\ xTemp p' = xTemp p.

(** The pieces of [PPU.Step] after the rendering call, in the order of the
    source: [p.Scanline == 241], [p.Scanline >= 261], the pre-render scroll
    copies and the visible-scanline scroll copy. *)
Definition vblankStart (p : PPU) : PPU :=
  if Scanline p =? 241 then
    let p := set_PPUSTATUS (Z.lor (PPUSTATUS p) PPUSTATUSVBlank) p in
    let p := set_PPUSTATUS (Z.ldiff (PPUSTATUS p) PPUSTATUSSprite0Hit) p in
    if nz (Z.land (PPUCTRL p) PPUCTRLNMIEnable)
    then set_NMIRequested true p else p
  else p.

Definition frameEnd (p : PPU) : PPU :=
  if 261 <=? Scanline p then
    let p := set_Scanline (-1) p in
    let p := set_FrameComplete true p in
    let p := set_Frame ((Frame p + 1) mod 2 ^ 64) p in
    set_PPUSTATUS (Z.ldiff (PPUSTATUS p) PPUSTATUSVBlank) p
  else p.

Definition preRenderCopy (p : PPU) : PPU :=
  if Scanline p =? -1 then
    let p :=
      if (Cycle p =? 304) && renderingEnabled p
      then set_v (Z.lor (Z.land (v p) 0x841F) (Z.land (t p) 0x7BE0)) p else p in
    if (Cycle p =? 257) && renderingEnabled p
    then set_v (Z.lor (Z.land (v p) 0xFBE0) (Z.land (t p) 0x041F)) p else p
  else p.

Definition visibleCopy (p : PPU) : PPU :=
  if (0 <=? Scanline p) && (Scanline p <? 240) then
    if (Cycle p =? 0) && renderingEnabled p then
      set_x (xTemp p) (set_v (Z.lor (Z.land (v p) 0xFBE0) (Z.land (t p) 0x041F)) p)
    else p
  else p.

Section Clock.
Context {M : Type} `{!Mapper.Mapper M}.

(** The body of [if p.Cycle >= 341]. *)
Definition nextLine (p : PPU) (cart : option (Cartridge.Cartridge M))
  : PPU * option (Cartridge.Cartridge M) :=
  let p := set_Cycle 0 p in
  let p := set_Scanline (Scanline p + 1) p in
  let cart :=
    match cart with
    | Some c =>
        if (0 <=? Scanline p) && (Scanline p <? 240)
        then Some (Cartridge.Step c) else cart
    | None => cart
    end in
  (frameEnd (vblankStart p), cart).

(** [PPU.Step] from [p.Cycle++] on. *)
Definition stepClock (p : PPU) (cart : option (Cartridge.Cartridge M))
  : PPU * option (Cartridge.Cartridge M) :=
  let p := set_Cycle (Cycle p + 1) p in
  let '(p, cart) := if 341 <=? Cycle p then nextLine p cart else (p, cart) in
  (visibleCopy (preRenderCopy p), cart).

(** [PPU.Step] up to [p.Cycle++]: the emphasis bits and, on a visible
    scanline, the pixel and the A12 notification. *)
Definition stepRender (p : PPU) (cart : option (Cartridge.Cartridge M))
  : PPU * option (Cartridge.Cartridge M) :=
  let p :=
    set_PaletteManager
      (Palette.SetEmphasis (PaletteManager p) (Z.land (PPUMASK p) 0xE0)) p in
  if (0 <=? Scanline p) && (Scanline p <? 240) then
    let '(p, cart) := renderPixel p cart in
    (p, handleMMC3A12Timing p cart)
  else (p, cart).

End Clock.

End PPUFrame.

(** ** The CPU bus *)

Module BusScenario.

Section Reads.
Context {M : Type} `{!Mapper.Mapper M} {A : Type}.
Variable apuReadRegister : A -> Z -> Z * A.

(** [n] reads of the same address, in order. *)
Fixpoint reads (m : Memory.Memory M A) (addr : Z) (n : nat)
  : list Z * Memory.Memory M A :=
  match n with
  | O => ([], m)
  | S n' =>
      let '(value, m) := Memory.Read apuReadRegister m addr in
      let '(values, m) := reads m addr n' in
      (value :: values, m)
  end.

End Reads.

(** What the controller port returns on read [k] (from 0) after the strobe
    has been released, for button state [b]. *)
Definition serialBit (b k : Z) : Z :=
  if k <? 8 then Z.land (Z.shiftr b k) 1 else 1.

(** A console without an APU: the interface value is nil, so no APU object
    exists and its methods are never called. *)
Definition noAPURead (a : Empty_set) (addr : Z) : Z * Empty_set :=
  match a with end.
Definition noAPUWrite (a : Empty_set) (addr value : Z) : Empty_set :=
  match a with end.

(** A, Start and Right held on the controller. *)
Definition pad : Input.Controller :=
  Input.SetButton (Input.SetButton (Input.SetButton Input.New 0 0 true) 0 3 true)
    0 7 true.

(** The NROM console with the controller attached. *)
Definition console : Memory.Memory Mapper0.Mapper0 Empty_set :=
  {| Memory.RAM := ∅; Memory.HighMem := ∅; Memory.PPU := Some PPU.New;
     Memory.APU := None; Memory.Cartridge := Some NROMScenario.cart;
     Memory.Input := Some pad |}.

End BusScenario.

(** ** The CPU *)

Module CPUScenario.

(** RAM with [STA $4014] at $0010, [NOP] at $0020 and two marked bytes in
    page 2. *)
Definition ram : gmap Z Z :=
  aset (aset (aset (aset (aset (aset ∅ 0x10 0x8D) 0x11 0x14) 0x12 0x40)
    0x20 0xEA) 0x200 0xAA) 0x2FF 0xBB.

(** The test memory behind $6000-$FFFF with the IRQ/BRK vector set to
    $0500 and the NMI vector to $0600. *)
Definition highMem : gmap Z Z :=
  aset (aset (aset (aset ∅ 0x9FFE 0x00) 0x9FFF 0x05) 0x9FFA 0x00) 0x9FFB 0x06.

(** A console without cartridge and without APU, as in the CPU tests. *)
Definition console : Memory.Memory Mapper0.Mapper0 Empty_set :=
  {| Memory.RAM := ram; Memory.HighMem := highMem; Memory.PPU := Some PPU.New;
     Memory.APU := None; Memory.Cartridge := None;
     Memory.Input := Some Input.New |}.

(** About to execute [STA $4014] with [A = 2]. *)
Definition dmaCPU : CPU.CPU Mapper0.Mapper0 Empty_set :=
  CPU.set_A 2 (CPU.set_PC 0x10 (CPU.New console)).

(** About to execute [NOP] with the IRQ line asserted and the I flag
    clear. *)
Definition irqCPU : CPU.CPU Mapper0.Mapper0 Empty_set :=
  CPU.set_IRQ true (CPU.set_P CPU.FlagUnused (CPU.set_PC 0x20 (CPU.New console))).

(** The same with the NMI latch set instead. *)
Definition nmiCPU : CPU.CPU Mapper0.Mapper0 Empty_set :=
  CPU.set_NMI true (CPU.set_P CPU.FlagUnused (CPU.set_PC 0x20 (CPU.New console))).

(** About to execute [LDA #$80], stored at $0030. *)
Definition ldaCPU : CPU.CPU Mapper0.Mapper0 Empty_set :=
  CPU.set_PC 0x30
    (CPU.New
       {| Memory.RAM := aset (aset ram 0x30 0xA9) 0x31 0x80;
          Memory.HighMem := highMem; Memory.PPU := Some PPU.New;
          Memory.APU := None; Memory.Cartridge := None;
          Memory.Input := Some Input.New |}).

(** One instruction on this console. *)
Definition Step (c : CPU.CPU Mapper0.Mapper0 Empty_set)
  : option (Z * CPU.CPU Mapper0.Mapper0 Empty_set) :=
  CPU.Step BusScenario.noAPURead BusScenario.noAPUWrite c.

End CPUScenario.

(** ** Positions in the frame *)

Module PPUDots.
Import PPU.

(** The PPU is at a dot of the frame: scanlines -1 (pre-render) to 260,
    dots 0 to 340. *)
Definition inFrame (p : PPU) : Prop :=
  0 <= Cycle p <= 340 /\ -1 <= Scanline p <= 260.

(** The number of the dot within the frame, from the pre-render line. *)
Definition frameIndex (p : PPU) : Z := (Scanline p + 1) * 341 + Cycle p.

(** Dots per frame: 262 scanlines of 341 dots. *)
Definition dotsPerFrame : Z := 262 * 341.

Section Run.
Context {M : Type} `{!Mapper.Mapper M}.

(** [n] dots. *)
Fixpoint run (n : nat) (p : PPU) (cart : option (Cartridge.Cartridge M))
  : PPU * option (Cartridge.Cartridge M) :=
  match n with
  | O => (p, cart)
  | S n' => let '(p, cart) := Step p cart in run n' p cart
  end.

End Run.

End PPUDots.

(** * Properties *)

(** [lia] with the Euclidean division equations, for [mod] and [/] by
    constants. *)
Ltac Zify.zify_post_hook ::= Z.to_euclidean_division_equations.

(** ** Arrays and masks *)

Lemma u16_small (z : Z) : 0 <= z < 65536 -> u16 z = z.
Proof. intros H. unfold u16. lia. Qed.

Lemma u8_small (z : Z) : 0 <= z < 256 -> u8 z = z.
Proof. intros H. unfold u8. lia. Qed.

Lemma aget_aset_eq (a : gmap Z Z) (i v : Z) : aget (aset a i v) i = v.
Proof. unfold aget, aset. now rewrite lookup_insert_eq. Qed.

Lemma aget_aset_ne (a : gmap Z Z) (i j v : Z) :
  i <> j -> aget (aset a i v) j = aget a j.
Proof. intros H. unfold aget, aset. now rewrite lookup_insert_ne. Qed.

Lemma land_7FF (z : Z) : Z.land z 0x7FF = z mod 0x800.
Proof. change 0x7FF with (Z.ones 11). now rewrite Z.land_ones by lia. Qed.

Lemma mod_plus_multiple (k n q : Z) : 0 <= k < n -> (q * n + k) mod n = k.
Proof.
  intros H. rewrite Z.add_comm, Z.mod_add by lia. apply Z.mod_small. lia.
Qed.

(** ** Mapper 4: the scanline interrupt *)

Section MMC3Facts.
Import Mapper4 MMC3Scenario.

Lemma Step_keeps_pending m : irqPending m = true -> irqPending (Step m) = true.
Proof.
  intros H. unfold Step.
  destruct (irqReloadFlag m), (irqCounter m =? 0), (isSharpMMC3 m); cbn;
    repeat match goal with |- context [if ?b then _ else _] => destruct b end;
    cbn; auto.
Qed.


Lemma edges_keep_pending k m : irqPending m = true -> irqPending (edges k m) = true.
Proof.
  intros H. induction k as [|k IH]; cbn; [exact H|].
  now apply Step_keeps_pending.
Qed.

(** The fields that drive the counter, after the three arming writes. *)
Lemma arm_state m L v1 v2 :
  irqCounter (arm m L v1 v2) = 0 /\
  irqReloadFlag (arm m L v1 v2) = true /\
  irqReloadValue (arm m L v1 v2) = L /\
  irqEnabled (arm m L v1 v2) = true /\
  irqPending (arm m L v1 v2) = irqPending m /\
  isSharpMMC3 (arm m L v1 v2) = isSharpMMC3 m.
Proof.
  assert (E : arm m L v1 v2
              = set_irqEnabled true
                  (set_irqCounter 0 (set_irqReloadFlag true (set_irqReloadValue L m))))
    by reflexivity.
  rewrite E. repeat split.
Qed.

(** [Step], field by field. *)
Lemma Step_fields m :
  let c' := if irqReloadFlag m then irqReloadValue m
            else if irqCounter m =? 0 then irqReloadValue m
            else u8 (irqCounter m - 1) in
  let fire := if isSharpMMC3 m then (c' =? 0) && irqEnabled m
              else (c' =? 0) && irqEnabled m && (0 <? irqReloadValue m) in
  irqCounter (Step m) = c' /\ irqReloadFlag (Step m) = false /\
  irqReloadValue (Step m) = irqReloadValue m /\
  irqEnabled (Step m) = irqEnabled m /\
  isSharpMMC3 (Step m) = isSharpMMC3 m /\
  irqPending (Step m) = (fire || irqPending m).
Proof.
  unfold Step.
  destruct (irqReloadFlag m) eqn:Ef, (irqCounter m =? 0) eqn:Ec,
           (isSharpMMC3 m) eqn:Es; cbn; rewrite ?Es; cbn;
    repeat match goal with
           | |- context [if ?b then _ else _] => destruct b eqn:?
           end; cbn; rewrite ?Ef; auto 10.
Qed.

(** While the counter runs down: after [k+1] clocks, [k <= L], the counter
    holds [L - k] and the IRQ is pending exactly when it has reached 0. *)
Lemma edges_countdown (s : Mapper4) (L : Z) (k : nat) :
  0 <= L < 256 ->
  irqCounter s = 0 -> irqReloadFlag s = true -> irqReloadValue s = L ->
  irqEnabled s = true -> irqPending s = false -> isSharpMMC3 s = true ->
  Z.of_nat k <= L ->
  let s' := edges (S k) s in
  irqCounter s' = L - Z.of_nat k /\ irqReloadFlag s' = false /\
  irqReloadValue s' = L /\ irqEnabled s' = true /\ isSharpMMC3 s' = true /\
  irqPending s' = (Z.of_nat k =? L).
Proof.
  intros HL Hc Hf Hv He Hp Hs. induction k as [|k IH]; intros Hk s'.
  - subst s'. change (edges 1 s) with (Step s).
    destruct (Step_fields s) as (Sc & Sf & Sv & Se & Ss & Sp).
    rewrite Hf, Hs, He, Hv, Hp in *. rewrite Sc, Sf, Sv, Se, Ss, Sp.
    rewrite andb_true_r, orb_false_r. change (Z.of_nat 0) with 0.
    rewrite (Z.eqb_sym 0 L). repeat split; lia.
  - assert (Hk' : Z.of_nat k <= L) by lia.
    specialize (IH Hk'). cbn zeta in IH.
    destruct IH as (Ic & If & Iv & Ie & Is & Ip).
    subst s'. change (edges (S (S k)) s) with (Step (edges (S k) s)).
    set (r := edges (S k) s) in *.
    destruct (Step_fields r) as (Sc & Sf & Sv & Se & Ss & Sp).
    assert (E0 : (irqCounter r =? 0) = false) by (apply Z.eqb_neq; lia).
    assert (Ep : irqPending r = false) by (rewrite Ip; apply Z.eqb_neq; lia).
    rewrite If, Is, Ie, Iv, E0, Ic, Ep in *.
    assert (Eu : u8 (L - Z.of_nat k - 1) = L - Z.of_nat (S k)).
    { unfold u8. rewrite Z.mod_small; lia. }
    rewrite Eu in *. rewrite Sc, Sf, Sv, Se, Ss, Sp.
    rewrite andb_true_r, orb_false_r. repeat split; try lia.
    all: destruct (Z.eqb_spec (L - Z.of_nat (S k)) 0), (Z.eqb_spec (Z.of_nat (S k)) L);
      auto; lia.
Qed.

Lemma edges_add a b m : edges (a + b) m = edges a (edges b m).
Proof. unfold edges. apply Nat.iter_add. Qed.

Lemma WritePRG_ack_clears m addr value :
  0x8000 <= addr -> Z.land addr 0xE001 = 0xE000 ->
  irqPending (WritePRG m addr value) = false.
Proof.
  intros Ha Hs. unfold WritePRG.
  replace (0x6000 <=? addr) with true by (symmetry; apply Z.leb_le; lia).
  replace (addr <=? 0x7FFF) with false by (symmetry; apply Z.leb_gt; lia).
  replace (0x8000 <=? addr) with true by (symmetry; apply Z.leb_le; lia).
  rewrite Hs. cbn. reflexivity.
Qed.

Lemma WritePRG_keeps_pending m addr value :
  isAck (Wr addr value) = false ->
  irqPending (WritePRG m addr value) = irqPending m.
Proof.
  unfold isAck, WritePRG. intros H.
  destruct ((0x6000 <=? addr) && (addr <=? 0x7FFF)) eqn:E1.
  { match goal with |- context [if ?b then _ else _] => destruct b end; reflexivity. }
  destruct (0x8000 <=? addr) eqn:E2; [|reflexivity].
  rewrite andb_true_l in H. rewrite H.
  repeat match goal with
         | |- context [if ?b then _ else _] => destruct b
         end; reflexivity.
Qed.

Lemma run_keeps_pending es m :
  forallb (fun e => negb (isAck e)) es = true ->
  irqPending m = true -> irqPending (run m es) = true.
Proof.
  unfold run. revert m. induction es as [|e es IH]; intros m Hes Hp; [exact Hp|].
  cbn in Hes. apply andb_prop in Hes as [He Hes]. cbn [fold_left].
  apply IH; [exact Hes|].
  destruct e as [|addr value]; cbn [apply].
  - now apply Step_keeps_pending.
  - rewrite WritePRG_keeps_pending; [exact Hp|].
    now apply negb_true_iff in He.
Qed.

(** C2. After latch [L] is written to $C000, a reload is requested through
    $C001 and the IRQ is enabled through $E001, the mapper's IRQ is not
    pending after [k <= L] clocks of the counter (filtered A12 rising
    edges) and is pending after every [k >= L+1] clocks: it rises exactly
    on the [(L+1)]-th edge.  From then on it stays pending through any
    further edges and any register writes other than a write to $E000, and
    a write to $E000 clears it. *)
Theorem mmc3_irq_on_edge_L_plus_1 (m : Mapper4) (L v1 v2 : Z) :
  0 <= L < 256 -> irqPending m = false -> isSharpMMC3 m = true ->
  let s := arm m L v1 v2 in
  (forall k : nat, IsIRQPending (edges k s) = (L <? Z.of_nat k)) /\
  (forall (k : nat) (es : list event),
      L < Z.of_nat k -> forallb (fun e => negb (isAck e)) es = true ->
      IsIRQPending (run (edges k s) es) = true) /\
  (forall (k : nat) (es : list event) (addr value : Z),
      0x8000 <= addr -> Z.land addr 0xE001 = 0xE000 ->
      IsIRQPending (WritePRG (run (edges k s) es) addr value) = false).
Proof.
  intros HL Hp Hs s.
  destruct (arm_state m L v1 v2) as (Ac & Af & Av & Ae & Ap & As).
  fold s in Ac, Af, Av, Ae, Ap, As. rewrite Hp in Ap. rewrite Hs in As.
  assert (H1 : forall k : nat, IsIRQPending (edges k s) = (L <? Z.of_nat k)).
  { intros k. unfold IsIRQPending. destruct k as [|k].
    - change (irqPending s = (L <? 0)). rewrite Ap. symmetry. apply Z.ltb_ge. lia.
    - destruct (Z_le_gt_dec (Z.of_nat k) L) as [Hk|Hk].
      + destruct (edges_countdown s L k HL Ac Af Av Ae Ap As Hk)
          as (_ & _ & _ & _ & _ & Ep).
        rewrite Ep.
        destruct (Z.eqb_spec (Z.of_nat k) L), (Z.ltb_spec L (Z.of_nat (S k)));
          auto; lia.
      + (* beyond the (L+1)-th edge the flag is kept *)
        replace (S k) with ((S k - S (Z.to_nat L)) + S (Z.to_nat L))%nat by lia.
        rewrite edges_add.
        rewrite edges_keep_pending.
        * symmetry. apply Z.ltb_lt. lia.
        * destruct (edges_countdown s L (Z.to_nat L) HL Ac Af Av Ae Ap As)
            as (_ & _ & _ & _ & _ & Ep); [lia|].
          rewrite Ep. apply Z.eqb_eq. lia. }
  split; [exact H1|]. split.
  - intros k es Hk Hes. unfold IsIRQPending. apply run_keeps_pending; [exact Hes|].
    specialize (H1 k). unfold IsIRQPending in H1. rewrite H1. apply Z.ltb_lt. lia.
  - intros k es addr value Ha Hd. unfold IsIRQPending.
    now apply WritePRG_ack_clears.
Qed.

(** Scenario F of the specification: latch 3, five edges. *)
Lemma mmc3_irq_scenario_F :
  map (fun k => IsIRQPending (edges k (arm fresh 3 0 0))) [0; 1; 2; 3; 4; 5]%nat
    = [false; false; false; false; true; true] /\
  IsIRQPending (WritePRG (run (edges 5 (arm fresh 3 0 0)) []) 0xE000 0) = false.
Proof.
  destruct (mmc3_irq_on_edge_L_plus_1 fresh 3 0 0 ltac:(lia) eq_refl eq_refl)
    as (H1 & _ & H3).
  split.
  - cbn [map]. rewrite !H1. reflexivity.
  - apply H3; [lia|reflexivity].
Defined.

End MMC3Facts.

(** ** Mapper 0: PRG mirroring through the CPU bus *)

Section NROMFacts.
Context {A : Type} (apuReadRegister : A -> Z -> Z * A).

Lemma Mapper0_ReadPRG_16k (m0 : Mapper0.Mapper0) (k : Z) :
  len (Mapper.PRGROM (Mapper0.cartridge m0)) = 16384 ->
  0 <= k <= 0x3FFF ->
  Mapper0.ReadPRG m0 (0x8000 + k) = idx (Mapper.PRGROM (Mapper0.cartridge m0)) k /\
  Mapper0.ReadPRG m0 (0xC000 + k) = idx (Mapper.PRGROM (Mapper0.cartridge m0)) k.
Proof.
  intros Hlen Hk. unfold Mapper0.ReadPRG. rewrite Hlen. cbn [Z.eqb Pos.eqb].
  replace (0x8000 <=? 0x8000 + k) with true by (symmetry; apply Z.leb_le; lia).
  replace (0x8000 <=? 0xC000 + k) with true by (symmetry; apply Z.leb_le; lia).
  replace (u16 (0x8000 + k - 0x8000) mod 16384) with k.
  2:{ unfold u16. replace (0x8000 + k - 0x8000) with k by lia.
      rewrite (Z.mod_small k 65536) by lia. rewrite Z.mod_small; lia. }
  replace (u16 (0xC000 + k - 0x8000) mod 16384) with k.
  2:{ unfold u16. replace (0xC000 + k - 0x8000) with (k + 1 * 16384) by lia.
      rewrite (Z.mod_small (k + 1 * 16384) 65536) by lia.
      rewrite Z.mod_add by lia. rewrite Z.mod_small; lia. }
  replace (k <? 16384) with true by (symmetry; apply Z.ltb_lt; lia).
  split; reflexivity.
Qed.

(** C9. With Mapper 0 and a 16 KiB PRG-ROM, a CPU read of $8000+k and a CPU
    read of $C000+k, [0 <= k <= $3FFF], both return PRG-ROM byte [k] (and
    leave the machine unchanged): $C000-$FFFF mirrors $8000-$BFFF. *)
Theorem nrom128_prg_mirror (m : Memory.Memory Mapper0.Mapper0 A)
    (c : Cartridge.Cartridge Mapper0.Mapper0) (m0 : Mapper0.Mapper0) (k : Z) :
  Memory.Cartridge m = Some c ->
  Cartridge.Mapper c = Some m0 ->
  len (Mapper.PRGROM (Mapper0.cartridge m0)) = 16384 ->
  0 <= k <= 0x3FFF ->
  Memory.Read apuReadRegister m (0x8000 + k)
    = (idx (Mapper.PRGROM (Mapper0.cartridge m0)) k, m) /\
  Memory.Read apuReadRegister m (0xC000 + k)
    = Memory.Read apuReadRegister m (0x8000 + k).
Proof.
  intros Hc Hm Hlen Hk.
  destruct (Mapper0_ReadPRG_16k m0 k Hlen Hk) as [H8 HC].
  unfold Memory.Read. rewrite Hc.
  replace (0x8000 + k <? 0x2000) with false by (symmetry; apply Z.ltb_ge; lia).
  replace (0xC000 + k <? 0x2000) with false by (symmetry; apply Z.ltb_ge; lia).
  replace (0x6000 <=? 0x8000 + k) with true by (symmetry; apply Z.leb_le; lia).
  replace (0x6000 <=? 0xC000 + k) with true by (symmetry; apply Z.leb_le; lia).
  unfold Cartridge.ReadPRG. rewrite Hm. cbn [Mapper.ReadPRG Mapper0.mapper].
  rewrite H8, HC. split; reflexivity.
Qed.

End NROMFacts.

(** Scenario C: both $8000 and $C000 read $42. *)
Lemma nrom128_scenario_C :
  Memory.Read APU.ReadRegister NROMScenario.mem 0x8000 = (0x42, NROMScenario.mem) /\
  Memory.Read APU.ReadRegister NROMScenario.mem 0xC000 = (0x42, NROMScenario.mem).
Proof.
  destruct (nrom128_prg_mirror APU.ReadRegister NROMScenario.mem NROMScenario.cart
              (Mapper0.NewMapper0 NROMScenario.data) 0
              eq_refl eq_refl ltac:(vm_compute; reflexivity) ltac:(lia)) as [H8 HC].
  change (0x8000 + 0) with 0x8000 in *. change (0xC000 + 0) with 0xC000 in *.
  rewrite HC, H8. split; reflexivity.
Defined.

(** ** Loading: the mapper number and unsupported mappers *)

Section LoaderFacts.
Import Cartridge.

Lemma NewMapper_supported n d m :
  NewMapper n d = inl m -> In n [0; 1; 2; 3; 4].
Proof.
  unfold NewMapper.
  repeat match goal with
         | |- context [?a =? ?b] => destruct (Z.eqb_spec a b); [subst; cbn; auto 6|]
         end.
  discriminate.
Qed.

Lemma NewMapper_unsupported n d :
  ~ In n [0; 1; 2; 3; 4] -> NewMapper n d = inr (UnsupportedMapper n).
Proof.
  intros H. unfold NewMapper.
  repeat match goal with
         | |- context [?a =? ?b] =>
             destruct (Z.eqb_spec a b); [subst; exfalso; apply H; cbn; auto 6|]
         end.
  reflexivity.
Qed.

(** C10. For an input whose 16-byte header can be read, the loader takes
    the mapper number [(Flags6 >> 4) | (Flags7 & 0xF0)]: when it returns a
    cartridge, that number is one of 0..4 and the cartridge's mapper is the
    one [NewMapper] builds for it; when the number is outside {0,1,2,3,4}
    the loader returns an error and no cartridge. *)
Theorem load_mapper_number_and_rejection (reader : list Z)
    (header : iNESHeader) (rest : list Z) :
  readHeader reader = Some (header, rest) ->
  let n := Z.lor (Z.shiftr (Flags6 header) 4) (Z.land (Flags7 header) 0xF0) in
  match LoadFromReader reader with
  | inl cart =>
      In n [0; 1; 2; 3; 4] /\ Header cart = header /\
      exists d m, NewMapper n d = inl m /\ Mapper cart = Some m
  | inr _ => True
  end /\
  (~ In n [0; 1; 2; 3; 4] -> exists e, LoadFromReader reader = inr e).
Proof.
  intros Hh n.
  assert (En' : n = mapperNumberOf header) by reflexivity.
  clearbody n. subst n. set (n := mapperNumberOf header).
  unfold LoadFromReader. rewrite Hh. fold n.
  destruct (negb (bool_decide (Magic header = magicNES))).
  { split; [exact I|eauto]. }
  destruct (if nz (Z.land (Flags6 header) 4)
            then option_map snd (ReadFull rest 512) else Some rest) as [r1|].
  2:{ split; [exact I|eauto]. }
  destruct (ReadFull r1 (PRGROMSize header * 16384)) as [[prgrom r2]|].
  2:{ split; [exact I|eauto]. }
  match goal with
  | |- context [match ?e with Some _ => _ | None => inr ErrReadCHRROM end] =>
      destruct e as [[chrrom chrram]|]
  end.
  2:{ split; [exact I|eauto]. }
  match goal with
  | |- context [NewMapper n ?d] =>
      destruct (NewMapper n d) as [m|e] eqn:En
  end.
  - split.
    + split; [eapply NewMapper_supported; exact En|].
      split; [reflexivity|].
      eexists _, m. split; [exact En|reflexivity].
    + intros Hn. apply NewMapper_supported in En. contradiction.
  - split; [exact I|eauto].
Qed.

(** An image that names mapper 5 is rejected. *)
Lemma load_rejects_mmc5 :
  exists e, LoadFromReader LoaderScenario.mmc5Image = inr e.
Proof.
  refine (proj2 (load_mapper_number_and_rejection LoaderScenario.mmc5Image
                   LoaderScenario.mmc5Header LoaderScenario.romBytes _) _).
  - vm_cast_no_check
      (eq_refl (Some (LoaderScenario.mmc5Header, LoaderScenario.romBytes))).
  - change (~ In 5 [0; 1; 2; 3; 4]). cbn. intuition discriminate.
Defined.

Example load_mmc5_error :
  LoadFromReader LoaderScenario.mmc5Image
    = inr (ErrCreateMapper (UnsupportedMapper 5)).
Proof. vm_compute. reflexivity. Qed.

Example load_mapper66_error :
  LoadFromReader LoaderScenario.mapper66Image
    = inr (ErrCreateMapper (UnsupportedMapper 66)).
Proof. vm_compute. reflexivity. Qed.

Example load_mmc3_ok :
  match LoadFromReader LoaderScenario.mmc3Image with
  | inl cart =>
      match Mapper cart with
      | Some (IsMapper4 _) => Mirroring cart = MirroringVertical
      | _ => False
      end
  | inr _ => False
  end.
Proof. vm_compute. reflexivity. Qed.

End LoaderFacts.

(** ** PPU: nametable mirroring *)

Section MirroringFacts.
Context {M : Type} `{!Mapper.Mapper M}.
Import PPU PPUScenario.

(** The physical address under mode 0 ("horizontal"), as coded. *)
Lemma mirror_mode0 (cart : option (Cartridge.Cartridge M)) (a : Z) :
  mirroringOf cart = 0 -> 0x2000 <= a <= 0x2FFF ->
  mirrorNameTableAddress cart a = if 0x2800 <=? a then a - 0x400 else a.
Proof.
  intros Hm Ha. unfold mirrorNameTableAddress, mirroringOf in *.
  rewrite (u16_small (a - 0x2000)) by lia.
  assert (E : u16 (applyHorizontalMirroring (a - 0x2000) + 0x2000)
              = if 0x2800 <=? a then a - 0x400 else a).
  { unfold applyHorizontalMirroring.
    destruct (Z.leb_spec 0x800 (a - 0x2000)), (Z.leb_spec 0x2800 a); try lia.
    - rewrite (u16_small (a - 0x2000 - 0x400)) by lia. rewrite u16_small; lia.
    - rewrite land_7FF. rewrite u16_small; lia. }
  destruct cart as [c|]; [rewrite Hm; cbn [Z.eqb]|]; exact E.
Qed.

(** The physical address under mode 1 ("vertical"). *)
Lemma mirror_mode1 (cart : option (Cartridge.Cartridge M)) (a : Z) :
  mirroringOf cart = 1 -> 0x2000 <= a <= 0x2FFF ->
  mirrorNameTableAddress cart a = 0x2000 + (a - 0x2000) mod 0x800.
Proof.
  intros Hm Ha. unfold mirrorNameTableAddress, mirroringOf in *.
  destruct cart as [c|]; [|discriminate]. rewrite Hm.
  change (1 =? 0) with false. change (1 =? 1) with true. cbv iota.
  rewrite (u16_small (a - 0x2000)) by lia.
  unfold applyVerticalMirroring. rewrite land_7FF. rewrite u16_small; lia.
Qed.

(** Where the four logical nametables land under mode 0. *)
Lemma mirror_horizontal_table (cart : option (Cartridge.Cartridge M)) (k : Z) :
  mirroringOf cart = 0 -> 0 <= k <= 0x3FF ->
  mirrorNameTableAddress cart (0x2000 + k) = 0x2000 + k /\
  mirrorNameTableAddress cart (0x2400 + k) = 0x2400 + k /\
  mirrorNameTableAddress cart (0x2800 + k) = 0x2400 + k /\
  mirrorNameTableAddress cart (0x2C00 + k) = 0x2800 + k.
Proof.
  intros Hm Hk. rewrite !mirror_mode0 by (assumption || lia).
  repeat split;
    match goal with |- context [?a <=? ?b] => destruct (Z.leb_spec a b) end; lia.
Qed.

(** Where they land under mode 1. *)
Lemma mirror_vertical_table (cart : option (Cartridge.Cartridge M)) (k : Z) :
  mirroringOf cart = 1 -> 0 <= k <= 0x3FF ->
  mirrorNameTableAddress cart (0x2000 + k) = 0x2000 + k /\
  mirrorNameTableAddress cart (0x2400 + k) = 0x2400 + k /\
  mirrorNameTableAddress cart (0x2800 + k) = 0x2000 + k /\
  mirrorNameTableAddress cart (0x2C00 + k) = 0x2400 + k.
Proof.
  intros Hm Hk. rewrite !mirror_mode1 by (assumption || lia).
  repeat split; lia.
Qed.

(** Vertical mirroring folds as the specification says: a write to
    $2800+k is read back at $2000+k, and one to $2C00+k at $2400+k. *)
Lemma vertical_mirroring_folds (p : PPU) (cart : option (Cartridge.Cartridge M))
    (k value : Z) :
  mirroringOf cart = 1 -> 0 <= k <= 0x3FF ->
  readNameTable (writeNameTable p cart (0x2800 + k) value) cart (0x2000 + k) = value /\
  readNameTable (writeNameTable p cart (0x2C00 + k) value) cart (0x2400 + k) = value.
Proof.
  intros Hm Hk.
  destruct (mirror_vertical_table cart k Hm Hk) as (E0 & E1 & E2 & E3).
  unfold readNameTable, writeNameTable. cbn.
  rewrite E0, E1, E2, E3, !aget_aset_eq. split; reflexivity.
Qed.

(** Under mode 0 the code keeps $2000 and $2400 apart: a write to $2400+k
    is not seen at $2000+k (it is seen at $2800+k), and a write to $2C00+k
    is not seen at $2800+k. *)
Lemma horizontal_mirroring_as_coded (p : PPU) (cart : option (Cartridge.Cartridge M))
    (k value : Z) :
  mirroringOf cart = 0 -> 0 <= k <= 0x3FF ->
  readNameTable (writeNameTable p cart (0x2400 + k) value) cart (0x2000 + k)
    = readNameTable p cart (0x2000 + k) /\
  readNameTable (writeNameTable p cart (0x2400 + k) value) cart (0x2800 + k) = value /\
  readNameTable (writeNameTable p cart (0x2C00 + k) value) cart (0x2800 + k)
    = readNameTable p cart (0x2800 + k).
Proof.
  intros Hm Hk.
  destruct (mirror_horizontal_table cart k Hm Hk) as (E0 & E1 & E2 & E3).
  unfold readNameTable, writeNameTable. cbn.
  rewrite E0, E1, E2, E3, aget_aset_eq, !aget_aset_ne by lia.
  repeat split; reflexivity.
Qed.

End MirroringFacts.

(** C7, at the failing input: horizontal mirroring, [k = 0].  After $AB is
    written to $2400 a read of $2000 still returns 0, and after $CD is
    written to $2C00 a read of $2800 returns $AB (the byte written to
    $2400), not $CD. *)
Lemma horizontal_mirroring_2400_not_on_2000 :
  let cart := Some NROMScenario.cart in
  let p1 := fst (PPU.writeVRAM PPU.New cart 0x2400 0xAB) in
  let p2 := fst (PPU.writeVRAM p1 cart 0x2C00 0xCD) in
  Cartridge.GetMirroring NROMScenario.cart = 0 /\
  fst (PPU.readVRAM p1 cart 0x2400) = 0xAB /\
  fst (PPU.readVRAM p1 cart 0x2000) = 0 /\
  fst (PPU.readVRAM p2 cart 0x2C00) = 0xCD /\
  fst (PPU.readVRAM p2 cart 0x2800) = 0xAB.
Proof. vm_compute. repeat split; reflexivity. Qed.

(** The vertical half of C7 on the NROM cartridge. *)
Lemma vertical_mirroring_example :
  let cart := Some PPUScenario.verticalCart in
  PPU.readNameTable (PPU.writeNameTable PPU.New cart (0x2800 + 5) 0xAB) cart (0x2000 + 5)
    = 0xAB /\
  PPU.readNameTable (PPU.writeNameTable PPU.New cart (0x2C00 + 5) 0xAB) cart (0x2400 + 5)
    = 0xAB.
Proof.
  apply (vertical_mirroring_folds PPU.New (Some PPUScenario.verticalCart) 5 0xAB).
  - vm_compute. reflexivity.
  - lia.
Defined.

(** ** PPU: the register interface *)

Lemma allFrom_spec (P : Z -> bool) (n : nat) (z0 : Z) :
  allFrom P z0 n = true -> forall z, z0 <= z < z0 + Z.of_nat n -> P z = true.
Proof.
  revert z0. induction n as [|n IH]; intros z0 H z Hz; [lia|].
  cbn [allFrom] in H. apply andb_prop in H as [H0 H1].
  destruct (Z.eq_dec z z0) as [->|Hne]; [exact H0|].
  apply (IH (z0 + 1) H1). lia.
Qed.

(** Projections of the PPU state over its setters. *)
Ltac ppu_simpl :=
  cbn [fst snd PPU.PPUCTRL PPU.PPUMASK PPU.PPUSTATUS PPU.OAMADDR PPU.v PPU.t PPU.x
       PPU.xTemp PPU.w PPU.VRAM PPU.OAM PPU.Cycle PPU.Scanline PPU.Frame
       PPU.FrameComplete PPU.NMIRequested PPU.PaletteManager PPU.currentSprites
       PPU.readBuffer PPU.bgTileCache PPU.set_PPUCTRL PPU.set_PPUMASK
       PPU.set_PPUSTATUS PPU.set_OAMADDR PPU.set_v PPU.set_t PPU.set_x PPU.set_xTemp
       PPU.set_w PPU.set_VRAM PPU.set_OAM PPU.set_Cycle PPU.set_Scanline PPU.set_Frame
       PPU.set_FrameComplete PPU.set_NMIRequested PPU.set_PaletteManager
       PPU.set_currentSprites PPU.set_readBuffer PPU.set_bgTileCache].

Section RegisterFacts.
Context {M : Type} `{!Mapper.Mapper M}.
Import PPU PPUScenario.
Implicit Types (p : PPU) (cart : option (Cartridge.Cartridge M)).

Lemma WriteRegister_PPUCTRL p cart value :
  WriteRegister p cart 0x2000 value
  = (set_t (Z.lor (Z.land (t p) 0xF3FF) (u16 (Z.shiftl (Z.land value 0x03) 10)))
       (set_PPUCTRL value p), cart).
Proof. reflexivity. Qed.

Lemma WriteRegister_PPUSCROLL_first p cart value :
  w p = 0 ->
  WriteRegister p cart 0x2005 value
  = (set_w 1 (set_xTemp (Z.land value 0x07)
       (set_t (Z.lor (Z.land (t p) 0xFFE0) (Z.shiftr value 3)) p)), cart).
Proof. intros Hw. unfold WriteRegister. rewrite Hw. reflexivity. Qed.

Lemma WriteRegister_PPUSCROLL_second p cart value :
  w p <> 0 ->
  WriteRegister p cart 0x2005 value
  = (set_w 0
       (set_t (Z.lor (Z.land (Z.lor (Z.land (t p) 0x8FFF)
                                (u16 (Z.shiftl (Z.land value 0x07) 12))) 0xFC1F)
                 (u16 (Z.shiftl (Z.land value 0xF8) 2))) p), cart).
Proof.
  intros Hw. unfold WriteRegister. apply Z.eqb_neq in Hw. rewrite Hw. reflexivity.
Qed.

Lemma WriteRegister_PPUADDR_first p cart value :
  w p = 0 ->
  WriteRegister p cart 0x2006 value
  = (set_w 1 (set_t (Z.lor (Z.land (t p) 0x80FF)
                       (u16 (Z.shiftl (Z.land value 0x3F) 8))) p), cart).
Proof. intros Hw. unfold WriteRegister. rewrite Hw. reflexivity. Qed.

Lemma WriteRegister_PPUADDR_second p cart value :
  w p <> 0 ->
  WriteRegister p cart 0x2006 value
  = (set_w 0 (set_v (Z.lor (Z.land (t p) 0xFF00) value)
                (set_t (Z.lor (Z.land (t p) 0xFF00) value) p)), cart).
Proof.
  intros Hw. unfold WriteRegister. apply Z.eqb_neq in Hw. rewrite Hw. reflexivity.
Qed.

(** What the five writes of scenario E leave in [t], as a function of the
    initial [t]. *)
Lemma scenarioE_t (t0 : Z) :
  0 <= t0 < 0x8000 ->
  Z.lor (Z.land (Z.lor (Z.land (Z.lor (Z.land (Z.lor (Z.land (Z.lor (Z.land
    (Z.lor (Z.land t0 0xF3FF) (u16 (Z.shiftl (Z.land 0 3) 10))) 0xFFE0)
      (Z.shiftr 0x7D 3)) 0x8FFF) (u16 (Z.shiftl (Z.land 0x5E 7) 12))) 0xFC1F)
        (u16 (Z.shiftl (Z.land 0x5E 0xF8) 2))) 0x80FF)
          (u16 (Z.shiftl (Z.land 0x3D 0x3F) 8))) 0xFF00) 0xF0 = 0x3DF0.
Proof.
  intros Ht. apply Z.eqb_eq. revert t0 Ht.
  refine (allFrom_spec (fun t0 => _ =? _) (Z.to_nat 0x8000) 0 _).
  vm_compute. reflexivity.
Qed.

(** C4, as the code has it.  Starting from [w = 0] (and a 15-bit [t]), the
    writes PPUCTRL=$00, PPUSCROLL=$7D, PPUSCROLL=$5E, PPUADDR=$3D,
    PPUADDR=$F0 leave [t = $3DF0], [v = $3DF0], [w = 0] and the pending
    fine-X [xTemp = 5], with the [x] register unchanged: a first PPUSCROLL
    write loads the low three bits of the value into [xTemp], not into [x]. *)
Theorem scroll_latch_sequence p cart :
  w p = 0 -> 0 <= t p < 0x8000 ->
  let p' := writes p cart scenarioE in
  (t p' = 0x3DF0 /\ v p' = 0x3DF0 /\ w p' = 0 /\ xTemp p' = 5 /\ x p' = x p) /\
  (forall value,
     xTemp (fst (WriteRegister p cart 0x2005 value)) = Z.land value 0x07 /\
     x (fst (WriteRegister p cart 0x2005 value)) = x p).
Proof.
  intros Hw Ht. split.
  - unfold scenarioE. cbn [writes].
    rewrite WriteRegister_PPUCTRL. ppu_simpl.
    rewrite WriteRegister_PPUSCROLL_first by exact Hw. ppu_simpl.
    rewrite WriteRegister_PPUSCROLL_second by (ppu_simpl; discriminate). ppu_simpl.
    rewrite WriteRegister_PPUADDR_first by reflexivity. ppu_simpl.
    rewrite WriteRegister_PPUADDR_second by (ppu_simpl; discriminate). ppu_simpl.
    rewrite (scenarioE_t (t p) Ht). repeat split.
  - intros value. rewrite WriteRegister_PPUSCROLL_first by exact Hw.
    split; reflexivity.
Qed.

End RegisterFacts.

(** Scenario E from the power-on state. *)
Lemma scroll_latch_scenario_E :
  let p' := PPUScenario.writes PPU.New PPUStates.cart PPUScenario.scenarioE in
  PPU.t p' = 0x3DF0 /\ PPU.v p' = 0x3DF0 /\ PPU.w p' = 0 /\
  PPU.xTemp p' = 5 /\ PPU.x p' = PPU.x PPU.New.
Proof.
  apply (scroll_latch_sequence PPU.New PPUStates.cart); [reflexivity|].
  change (PPU.t PPU.New) with 0. lia.
Defined.

(** C4 as stated fails: after the five writes from the power-on state the
    [x] register is 0, not 5. *)
Lemma scroll_latch_x_is_not_5 :
  let p' := PPUScenario.writes PPU.New PPUStates.cart PPUScenario.scenarioE in
  PPU.x p' = 0 /\
  ~ (PPU.t p' = 0x3DF0 /\ PPU.v p' = 0x3DF0 /\ PPU.x p' = 5 /\ PPU.w p' = 0).
Proof.
  vm_compute. split; [reflexivity|]. intros (_ & _ & H & _). discriminate H.
Qed.

(** ** PPU: PPUDATA *)

Lemma land_1F (z : Z) : Z.land z 0x1F = z mod 32.
Proof. change 0x1F with (Z.ones 5). now rewrite Z.land_ones by lia. Qed.

Section PPUDATAFacts.
Context {M : Type} `{!Mapper.Mapper M}.
Import PPU PPUScenario.
Implicit Types (p : PPU) (cart : option (Cartridge.Cartridge M)).

Lemma readVRAM_nametable p cart addr :
  0x2000 <= addr < 0x3F00 ->
  readVRAM p cart addr = (readNameTable p cart addr, cart).
Proof.
  intros Ha. unfold readVRAM.
  replace (addr mod 0x4000) with addr by lia.
  destruct (Z.ltb_spec addr 0x2000); [lia|].
  destruct (Z.ltb_spec addr 0x3F00); [reflexivity|lia].
Qed.

Lemma readVRAM_palette p cart addr :
  0x3F00 <= addr < 0x4000 ->
  readVRAM p cart addr
  = (Palette.ReadPalette (PaletteManager p) (Z.land addr 0x1F), cart).
Proof.
  intros Ha. unfold readVRAM.
  replace (addr mod 0x4000) with addr by lia.
  destruct (Z.ltb_spec addr 0x2000); [lia|].
  destruct (Z.ltb_spec addr 0x3F00); [lia|].
  destruct (Z.ltb_spec addr 0x4000); [|lia].
  rewrite u8_small; [reflexivity|]. rewrite land_1F. lia.
Qed.

Lemma writeVRAM_palette p cart addr value :
  0x3F00 <= addr < 0x4000 ->
  writeVRAM p cart addr value
  = (set_PaletteManager
       (Palette.WritePalette (PaletteManager p) (Z.land addr 0x1F) value) p, cart).
Proof.
  intros Ha. unfold writeVRAM.
  replace (addr mod 0x4000) with addr by lia.
  destruct (Z.ltb_spec addr 0x2000); [lia|].
  destruct (Z.ltb_spec addr 0x3F00); [lia|].
  destruct (Z.ltb_spec addr 0x4000); [|lia].
  rewrite u8_small; [reflexivity|]. rewrite land_1F. lia.
Qed.

(** The post-increment of [v]: by 32 when PPUCTRL bit 2 is set, else by 1,
    in 16-bit arithmetic; nothing else changes. *)
Lemma incrementV_spec p :
  v (incrementV p)
    = u16 (v p + (if nz (Z.land (PPUCTRL p) 0x04) then 32 else 1)) /\
  readBuffer (incrementV p) = readBuffer p /\
  PaletteManager (incrementV p) = PaletteManager p /\
  VRAM (incrementV p) = VRAM p.
Proof.
  unfold incrementV, PPUCTRLIncrement.
  destruct (nz (Z.land (PPUCTRL p) 4)); repeat split.
Qed.


(** A PPUDATA read in $3F00-$3FFF returns the palette byte at once and
    refills the buffer from the nametable byte $1000 below. *)
Lemma ReadRegister_PPUDATA_palette p cart :
  0x3F00 <= v p < 0x4000 ->
  ReadRegister p cart 0x2007
  = (Palette.ReadPalette (PaletteManager p) (Z.land (v p) 0x1F),
     incrementV (set_readBuffer (readNameTable p cart (v p - 0x1000)) p),
     cart).
Proof.
  intros Hv. unfold ReadRegister.
  change (0x2007 =? 0x2002) with false. change (0x2007 =? 0x2004) with false.
  change (0x2007 =? 0x2007) with true. cbv iota.
  destruct (Z.leb_spec 0x3F00 (v p)); [|lia].
  rewrite readVRAM_palette by lia.
  rewrite (u16_small (v p - 0x1000)) by lia.
  rewrite readVRAM_nametable by lia. reflexivity.
Qed.

(** With [v] at $4000 or above the immediate path is taken as well,
    whatever the address selects after the 14-bit fold. *)
Lemma ReadRegister_PPUDATA_above_3FFF p cart :
  0x4000 <= v p ->
  fst (fst (ReadRegister p cart 0x2007)) = fst (readVRAM p cart (v p)).
Proof.
  intros Hv. unfold ReadRegister.
  change (0x2007 =? 0x2002) with false. change (0x2007 =? 0x2004) with false.
  change (0x2007 =? 0x2007) with true. cbv iota.
  destruct (Z.leb_spec 0x3F00 (v p)); [|lia].
  destruct (readVRAM p cart (v p)) as [value c1].
  destruct (readVRAM p c1 (u16 (v p - 0x1000))); reflexivity.
Qed.

Lemma WriteRegister_PPUDATA p cart value :
  WriteRegister p cart 0x2007 value
  = (incrementV (fst (writeVRAM p cart (v p) value)),
     snd (writeVRAM p cart (v p) value)).
Proof.
  unfold WriteRegister.
  change (0x2007 =? 0x2000) with false. change (0x2007 =? 0x2001) with false.
  change (0x2007 =? 0x2003) with false. change (0x2007 =? 0x2004) with false.
  change (0x2007 =? 0x2005) with false. change (0x2007 =? 0x2006) with false.
  change (0x2007 =? 0x2007) with true. cbv iota.
  destruct (writeVRAM p cart (v p) value); reflexivity.
Qed.

(** Palette addresses $3F10/$3F14/$3F18/$3F1C alias $3F00/$3F04/$3F08/$3F0C
    on the PPU bus, for reads and for writes. *)
Lemma palette_backdrop_alias p cart (k value : Z) :
  0 <= k <= 3 ->
  readVRAM p cart (0x3F10 + 4 * k) = readVRAM p cart (0x3F00 + 4 * k) /\
  writeVRAM p cart (0x3F10 + 4 * k) value = writeVRAM p cart (0x3F00 + 4 * k) value.
Proof.
  intros Hk. rewrite !readVRAM_palette, !writeVRAM_palette by lia.
  unfold Palette.ReadPalette, Palette.WritePalette.
  assert (E : Palette.mirrorBackdrop (Z.land (0x3F10 + 4 * k) 0x1F)
              = Palette.mirrorBackdrop (Z.land (0x3F00 + 4 * k) 0x1F)).
  { assert (Hc : k = 0 \/ k = 1 \/ k = 2 \/ k = 3) by lia.
    destruct Hc as [->|[->|[->| ->]]]; reflexivity. }
  rewrite E. split; reflexivity.
Qed.

End PPUDATAFacts.

(** C5, at the failing input.  PPUADDR = $3F, $FF and one PPUDATA read leave
    [v = $4000], which addresses pattern-table byte $0000 ($77 in this
    cartridge); the read buffer holds 0.  The next PPUDATA read returns $77
    at once instead of the buffer, and refills the buffer from the nametable
    ($3000) instead of from $0000. *)
Lemma ppudata_read_at_4000_is_unbuffered :
  let '(p, c) := PPUStates.afterWrap in
  let '(value, p', _) := PPU.ReadRegister p c 0x2007 in
  PPU.v p = 0x4000 /\ PPU.readBuffer p = 0 /\
  fst (PPU.readVRAM p c 0x0000) = 0x77 /\
  value = 0x77 /\ PPU.readBuffer p' = 0 /\ PPU.v p' = 0x4001.
Proof. vm_compute. repeat split; reflexivity. Qed.

(** ** PPU: the dot clock and the vertical-blank flags *)

Lemma nz_land_bit (z : Z) (n : Z) :
  0 <= n -> nz (Z.land z (2 ^ n)) = Z.testbit z n.
Proof.
  intros Hn. unfold nz. destruct (Z.testbit z n) eqn:Eb.
  - destruct (Z.eqb_spec (Z.land z (2 ^ n)) 0) as [E|]; [|reflexivity].
    assert (Hb : Z.testbit (Z.land z (2 ^ n)) n = true).
    { rewrite Z.land_spec, Eb, Z.pow2_bits_true by lia. reflexivity. }
    rewrite E, Z.bits_0 in Hb. discriminate.
  - destruct (Z.eqb_spec (Z.land z (2 ^ n)) 0) as [|Hne]; [reflexivity|].
    exfalso. apply Hne. apply Z.bits_inj'. intros m Hm.
    rewrite Z.land_spec, Z.bits_0, Z.pow2_bits_eqb by lia.
    destruct (Z.eqb_spec n m) as [->|]; [now rewrite Eb|apply andb_false_r].
Qed.

(** Case analysis on the conditionals of the goal. *)
Ltac split_ifs :=
  repeat (ppu_simpl;
          match goal with
          | |- context [if ?c then _ else _] => destruct c
          end);
  ppu_simpl.

(** Bits of constants. *)
Ltac eval_bits :=
  repeat match goal with
  | |- context [Z.testbit (Zpos ?a) (Zpos ?b)] =>
      let r := eval vm_compute in (Z.testbit (Zpos a) (Zpos b)) in
      change (Z.testbit (Zpos a) (Zpos b)) with r
  | |- context [Z.testbit Z0 (Zpos ?b)] =>
      change (Z.testbit Z0 (Zpos b)) with false
  end.

Section ClockFacts.
Context {M : Type} `{!Mapper.Mapper M}.
Import PPU PPUFrame.
Implicit Types (p : PPU) (cart : option (Cartridge.Cartridge M)).

Lemma Step_split p cart :
  Step p cart = stepClock (fst (stepRender p cart)) (snd (stepRender p cart)).
Proof.
  unfold Step, stepRender, stepClock, nextLine.
  set (p0 := set_PaletteManager _ p).
  destruct ((0 <=? Scanline p0) && (Scanline p0 <? 240)).
  - destruct (renderPixel p0 cart) as [p1 c1]. cbn [fst snd].
    destruct (341 <=? _); reflexivity.
  - cbn [fst snd]. destruct (341 <=? _); reflexivity.
Qed.

Lemma rendered_refl p : rendered p p.
Proof.
  unfold rendered. repeat (split; [reflexivity|]).
  exists 0. split; [now left|]. now rewrite Z.lor_0_r.
Qed.

Lemma rendered_trans p1 p2 p3 : rendered p1 p2 -> rendered p2 p3 -> rendered p1 p3.
Proof.
  unfold rendered.
  intros (A1&A2&A3&A4&A5&A6&A7&A8&A9&A10&A11&A12&A13&A14&A15&A16&A17&k1&Hk1&E1)
         (B1&B2&B3&B4&B5&B6&B7&B8&B9&B10&B11&B12&B13&B14&B15&B16&B17&k2&Hk2&E2).
  repeat (split; [congruence|]).
  exists (Z.lor k1 k2). split.
  - destruct Hk1 as [->|[->|[->| ->]]], Hk2 as [->|[->|[->| ->]]]; cbn; tauto.
  - rewrite E2, E1. now rewrite Z.lor_assoc.
Qed.

Lemma rendered_overflow p : rendered p (set_PPUSTATUS (Z.lor (PPUSTATUS p) 0x20) p).
Proof.
  unfold rendered. repeat (split; [reflexivity|]).
  exists 0x20. split; [tauto|reflexivity].
Qed.

Lemma rendered_sprite0Hit p :
  rendered p (set_PPUSTATUS (Z.lor (PPUSTATUS p) PPUSTATUSSprite0Hit) p).
Proof.
  unfold rendered. repeat (split; [reflexivity|]).
  exists 0x40. split; [tauto|reflexivity].
Qed.

(** The background renderer only refreshes the tile cache. *)
Lemma renderBackgroundPixelCached_rendered p cart px py :
  rendered p (fst (renderBackgroundPixelCached p cart px py)).
Proof.
  unfold renderBackgroundPixelCached.
  destruct (Z.land (PPUMASK p) PPUMASKBGShow =? 0); [apply rendered_refl|].
  destruct ((px <? 8) && (Z.land (PPUMASK p) PPUMASKBGLeft =? 0));
    [apply rendered_refl|].
  cbv zeta.
  destruct (negb (valid (bgTileCache p)) || _ || _); [|apply rendered_refl].
  destruct (fetchBackgroundTileWithScroll _ _ _ _ _) as [tile c1].
  exact (rendered_refl p).
Qed.

(** Sprite evaluation only raises the overflow flag. *)
Lemma fetchSpriteData_rendered p scanline :
  rendered p (snd (fetchSpriteData p scanline)).
Proof.
  unfold fetchSpriteData.
  destruct (scanOAM _ _ _ _ _ _) as [sprites [|]]; cbn [snd].
  - apply rendered_overflow.
  - apply rendered_refl.
Qed.

Lemma renderPixel_rendered p cart : rendered p (fst (renderPixel p cart)).
Proof.
  unfold renderPixel.
  destruct ((Scanline p <? 0) || _ || _ || _); [apply rendered_refl|].
  destruct (negb (renderingEnabled p)); [apply rendered_refl|].
  pose proof (renderBackgroundPixelCached_rendered p cart (Cycle p) (Scanline p)) as H1.
  destruct (renderBackgroundPixelCached p cart (Cycle p) (Scanline p)) as [p1 c1].
  cbn [fst] in H1. cbv zeta.
  set (p2 := if Cycle p1 =? 0 then _ else p1).
  assert (H2 : rendered p1 p2).
  { unfold p2. destruct (Cycle p1 =? 0); [|apply rendered_refl].
    pose proof (fetchSpriteData_rendered p1 (Scanline p1)) as Hf.
    destruct (fetchSpriteData p1 (Scanline p1)) as [sprites q]. cbn [snd] in Hf.
    eapply rendered_trans; [exact Hf|exact (rendered_refl q)]. }
  clearbody p2.
  assert (H3 : rendered p p2) by (eapply rendered_trans; eassumption).
  destruct (Z.of_nat (length (currentSprites p2)) =? 0); [exact H3|].
  destruct (renderSpritePixel p2 c1 (Cycle p) (Scanline p) (currentSprites p2))
    as [[[opaque pr] s0] c2].
  destruct opaque; [|exact H3].
  destruct (s0 && _); [|exact H3].
  destruct (isBackgroundPixelOpaque p2 c2 (Cycle p) (Scanline p)) as [bgOpaque c3].
  destruct (bgOpaque && _ && _ && _); [|exact H3].
  cbn [fst]. eapply rendered_trans; [exact H3|apply rendered_sprite0Hit].
Qed.

(** Before the dot counter moves, [PPU.Step] has changed nothing of the
    timing state: outside the visible scanlines nothing but the emphasis
    bits of the palette manager, on them the rendering state as well. *)
Lemma stepRender_rendered p cart :
  rendered
    (set_PaletteManager
       (Palette.SetEmphasis (PaletteManager p) (Z.land (PPUMASK p) 0xE0)) p)
    (fst (stepRender p cart)).
Proof.
  unfold stepRender. cbv zeta. set (p0 := set_PaletteManager _ p).
  destruct ((0 <=? Scanline p0) && (Scanline p0 <? 240)).
  - pose proof (renderPixel_rendered p0 cart) as Hr.
    destruct (renderPixel p0 cart) as [p1 c1]. exact Hr.
  - apply rendered_refl.
Qed.

Lemma stepRender_blank p cart :
  240 <= Scanline p \/ Scanline p < 0 ->
  stepRender p cart
  = (set_PaletteManager
       (Palette.SetEmphasis (PaletteManager p) (Z.land (PPUMASK p) 0xE0)) p, cart).
Proof.
  intros Hs. unfold stepRender. ppu_simpl.
  destruct (Z.leb_spec 0 (Scanline p)), (Z.ltb_spec (Scanline p) 240);
    try reflexivity; lia.
Qed.


Lemma sameTiming_refl p : sameTiming p p.
Proof. unfold sameTiming. repeat split. Qed.

(** The scroll copies touch [v] and [x] only. *)
Lemma preRenderCopy_sameTiming p : sameTiming p (preRenderCopy p).
Proof. unfold preRenderCopy. cbv zeta. split_ifs; unfold sameTiming; repeat split. Qed.

Lemma visibleCopy_sameTiming p : sameTiming p (visibleCopy p).
Proof. unfold visibleCopy. split_ifs; unfold sameTiming; repeat split. Qed.

Lemma copies_sameTiming p : sameTiming p (visibleCopy (preRenderCopy p)).
Proof.
  pose proof (preRenderCopy_sameTiming p) as A.
  pose proof (visibleCopy_sameTiming (preRenderCopy p)) as B.
  unfold sameTiming in *. intuition congruence.
Qed.


(** The dot clock on the timing state, for a PPU inside the frame. *)
Lemma stepClock_fields p cart :
  0 <= Cycle p <= 340 -> -1 <= Scanline p <= 260 ->
  let q := fst (stepClock p cart) in
  let atVBlankStart := (Scanline p =? 240) && (Cycle p =? 340) in
  let atFrameEnd := (Scanline p =? 260) && (Cycle p =? 340) in
  Cycle q = (if Cycle p =? 340 then 0 else Cycle p + 1) /\
  Scanline q = (if Cycle p =? 340
                then if Scanline p =? 260 then -1 else Scanline p + 1
                else Scanline p) /\
  PPUSTATUS q = (if atVBlankStart then Z.ldiff (Z.lor (PPUSTATUS p) 0x80) 0x40
                 else if atFrameEnd then Z.ldiff (PPUSTATUS p) 0x80
                 else PPUSTATUS p) /\
  NMIRequested q = atVBlankStart && nz (Z.land (PPUCTRL p) 0x80) || NMIRequested p /\
  FrameComplete q = atFrameEnd || FrameComplete p /\
  Frame q = (if atFrameEnd then (Frame p + 1) mod 2 ^ 64 else Frame p) /\
  PPUCTRL q = PPUCTRL p /\ PPUMASK q = PPUMASK p /\
  t q = t p /\ xTemp q = xTemp p.
Proof.
  intros Hc Hs. unfold stepClock. cbv zeta. ppu_simpl.
  destruct (Z.eqb_spec (Cycle p) 340) as [Ec|Ec].
  - rewrite Ec. change (341 <=? 340 + 1) with true. cbv iota.
    unfold nextLine. cbv zeta. ppu_simpl.
    match goal with |- context [visibleCopy (preRenderCopy ?r)] =>
      destruct (copies_sameTiming r) as (-> & -> & -> & -> & -> & -> & -> & -> & -> & ->)
    end.
    rewrite !andb_true_r.
    unfold frameEnd, vblankStart. cbv zeta.
    unfold PPUSTATUSVBlank, PPUSTATUSSprite0Hit, PPUCTRLNMIEnable.
    destruct (Z.eqb_spec (Scanline p) 240) as [E240|N240].
    + rewrite E240. ppu_simpl. change (240 + 1 =? 241) with true. cbv iota. ppu_simpl.
      destruct (nz (Z.land (PPUCTRL p) 0x80)); ppu_simpl;
        change (261 <=? 240 + 1) with false; cbv iota; ppu_simpl;
        change (240 =? 260) with false; cbv iota; repeat split.
    + destruct (Z.eqb_spec (Scanline p) 260) as [E260|N260].
      * rewrite E260. ppu_simpl. change (260 + 1 =? 241) with false.
        cbv iota. ppu_simpl. change (261 <=? 260 + 1) with true. cbv iota.
        ppu_simpl. repeat split.
      * ppu_simpl.
        destruct (Z.eqb_spec (Scanline p + 1) 241); [lia|]. ppu_simpl.
        destruct (Z.leb_spec 261 (Scanline p + 1)); [lia|]. repeat split.
  - destruct (Z.leb_spec 341 (Cycle p + 1)); [lia|]. cbv iota. ppu_simpl.
    match goal with |- context [visibleCopy (preRenderCopy ?r)] =>
      destruct (copies_sameTiming r) as (-> & -> & -> & -> & -> & -> & -> & -> & -> & ->)
    end.
    ppu_simpl. rewrite !andb_false_r. repeat split.
Qed.


(** One dot of [PPU.Step] on the timing state, for a PPU inside the frame:
    [k] is what rendering the pixel raised in PPUSTATUS. *)
Lemma PPU_Step_timing p cart :
  0 <= Cycle p <= 340 -> -1 <= Scanline p <= 260 ->
  let q := fst (Step p cart) in
  let atVBlankStart := (Scanline p =? 240) && (Cycle p =? 340) in
  let atFrameEnd := (Scanline p =? 260) && (Cycle p =? 340) in
  exists k, (k = 0 \/ k = 0x20 \/ k = 0x40 \/ k = 0x60) /\
  Cycle q = (if Cycle p =? 340 then 0 else Cycle p + 1) /\
  Scanline q = (if Cycle p =? 340
                then if Scanline p =? 260 then -1 else Scanline p + 1
                else Scanline p) /\
  PPUSTATUS q = (if atVBlankStart
                 then Z.ldiff (Z.lor (Z.lor (PPUSTATUS p) k) 0x80) 0x40
                 else if atFrameEnd then Z.ldiff (Z.lor (PPUSTATUS p) k) 0x80
                 else Z.lor (PPUSTATUS p) k) /\
  NMIRequested q = atVBlankStart && nz (Z.land (PPUCTRL p) 0x80) || NMIRequested p /\
  FrameComplete q = atFrameEnd || FrameComplete p /\
  Frame q = (if atFrameEnd then (Frame p + 1) mod 2 ^ 64 else Frame p) /\
  PPUCTRL q = PPUCTRL p /\ PPUMASK q = PPUMASK p /\
  t q = t p /\ xTemp q = xTemp p.
Proof.
  intros Hc Hs. rewrite Step_split.
  pose proof (stepRender_rendered p cart) as Hr.
  destruct (stepRender p cart) as [p1 c1]. cbn [fst snd] in *.
  revert Hr. unfold rendered. ppu_simpl.
  intros (R1&R2&_&_&R5&_&R7&_&_&_&R11&R12&R13&R14&R15&_&_&k&Hk&Rk).
  destruct (stepClock_fields p1 c1) as (F1&F2&F3&F4&F5&F6&F7&F8&F9&F10);
    [lia|lia|].
  rewrite R1, R2, R5, R7, R11, R12, R13, R14, R15, Rk in *.
  exists k. split; [exact Hk|]. repeat split; assumption.
Qed.

(** C3, as the code has it.  For a PPU inside the frame, one [Step]:
    - sets the vertical-blank flag exactly when it leaves dot 340 of
      scanline 240, that is on arrival at scanline 241, dot 0; on that step
      it clears sprite-0-hit and, if PPUCTRL bit 7 is set, raises
      [NMIRequested];
    - clears the vertical-blank flag exactly when it leaves dot 340 of
      scanline 260, arriving at dot 0 of the pre-render line (scanline -1);
    - otherwise leaves the vertical-blank flag and [NMIRequested] as they
      are, and never clears sprite-0-hit except at the start of vertical
      blank, nor sprite-overflow at all. *)
Theorem vblank_flag_timeline p cart :
  0 <= Cycle p <= 340 -> -1 <= Scanline p <= 260 ->
  let q := fst (Step p cart) in
  let atVBlankStart := (Scanline p =? 240) && (Cycle p =? 340) in
  let atFrameEnd := (Scanline p =? 260) && (Cycle p =? 340) in
  (atVBlankStart = true -> Scanline q = 241 /\ Cycle q = 0) /\
  (atFrameEnd = true -> Scanline q = -1 /\ Cycle q = 0) /\
  Z.testbit (PPUSTATUS q) 7
    = (if atVBlankStart then true
       else if atFrameEnd then false else Z.testbit (PPUSTATUS p) 7) /\
  NMIRequested q = atVBlankStart && Z.testbit (PPUCTRL p) 7 || NMIRequested p /\
  (atVBlankStart = true -> Z.testbit (PPUSTATUS q) 6 = false) /\
  (atVBlankStart = false ->
   Z.testbit (PPUSTATUS p) 6 = true -> Z.testbit (PPUSTATUS q) 6 = true) /\
  (Z.testbit (PPUSTATUS p) 5 = true -> Z.testbit (PPUSTATUS q) 5 = true).
Proof.
  intros Hc Hs.
  destruct (PPU_Step_timing p cart Hc Hs) as (k&Hk&F1&F2&F3&F4&_).
  cbv zeta in *. rewrite F1, F2, F3, F4. clear F1 F2 F3 F4.
  change 0x80 with (2 ^ 7). rewrite nz_land_bit by lia. change (2 ^ 7) with 0x80.
  destruct (Z.eqb_spec (Scanline p) 240) as [E240|N240];
    [rewrite E240; change (240 =? 260) with false|];
    destruct (Z.eqb_spec (Cycle p) 340) as [E340|N340];
    try destruct (Z.eqb_spec (Scanline p) 260) as [E260|N260];
    cbn [andb orb]; rewrite ?Z.ldiff_spec, ?Z.lor_spec;
    destruct Hk as [->|[->|[->| ->]]]; eval_bits;
    repeat split; try discriminate; try lia; intros;
    repeat match goal with Hb : Z.testbit _ _ = true |- _ => rewrite Hb end;
    repeat match goal with |- context [Z.testbit ?a ?b] => destruct (Z.testbit a b) end;
    reflexivity.
Qed.

End ClockFacts.

(** The start of vertical blank on the NROM console. *)
Lemma vblank_flag_at_241_dot_0 :
  let p := PPUStates.endOfLine240 in
  let q := fst (PPU.Step p PPUStates.cart) in
  let atVBlankStart := (PPU.Scanline p =? 240) && (PPU.Cycle p =? 340) in
  let atFrameEnd := (PPU.Scanline p =? 260) && (PPU.Cycle p =? 340) in
  (atVBlankStart = true -> PPU.Scanline q = 241 /\ PPU.Cycle q = 0) /\
  (atFrameEnd = true -> PPU.Scanline q = -1 /\ PPU.Cycle q = 0) /\
  Z.testbit (PPU.PPUSTATUS q) 7
    = (if atVBlankStart then true
       else if atFrameEnd then false else Z.testbit (PPU.PPUSTATUS p) 7) /\
  PPU.NMIRequested q
    = atVBlankStart && Z.testbit (PPU.PPUCTRL p) 7 || PPU.NMIRequested p /\
  (atVBlankStart = true -> Z.testbit (PPU.PPUSTATUS q) 6 = false) /\
  (atVBlankStart = false ->
   Z.testbit (PPU.PPUSTATUS p) 6 = true -> Z.testbit (PPU.PPUSTATUS q) 6 = true) /\
  (Z.testbit (PPU.PPUSTATUS p) 5 = true -> Z.testbit (PPU.PPUSTATUS q) 5 = true).
Proof.
  apply (vblank_flag_timeline PPUStates.endOfLine240 PPUStates.cart).
  - vm_compute. split; discriminate.
  - vm_compute. split; discriminate.
Defined.

(** C3 as stated fails.  The step that leaves scanline 240 arrives at
    scanline 241, dot 0 with the vertical-blank flag already set (and
    sprite-0-hit already cleared); the step that leaves scanline 260 clears
    the vertical-blank flag on arrival at dot 0 of the pre-render line, and
    leaves sprite-overflow set. *)
Lemma vblank_not_at_dot_1 :
  let q1 := PPUStates.steps 1 PPUStates.endOfLine240 PPUStates.cart in
  let q2 := PPUStates.steps 1 PPUStates.endOfLine260 PPUStates.cart in
  (PPU.Scanline q1 = 241 /\ PPU.Cycle q1 = 0 /\
   PPU.PPUSTATUS PPUStates.endOfLine240 = 0x60 /\ PPU.PPUSTATUS q1 = 0xA0 /\
   PPU.NMIRequested q1 = true) /\
  (PPU.Scanline q2 = -1 /\ PPU.Cycle q2 = 0 /\
   PPU.PPUSTATUS PPUStates.endOfLine260 = 0xA0 /\ PPU.PPUSTATUS q2 = 0x20).
Proof. vm_compute. repeat split; reflexivity. Qed.

(** ** The CPU bus: the controller port *)

Section ControllerFacts.
Context {M : Type} `{!Mapper.Mapper M} {A : Type}.
Variable apuReadRegister : A -> Z -> Z * A.
Variable apuWriteRegister : A -> Z -> Z -> A.
Import BusScenario.
Implicit Types (m : Memory.Memory M A) (c : Input.Controller).

Local Abbreviation Read := (Memory.Read apuReadRegister).
Local Abbreviation Write := (Memory.Write apuReadRegister apuWriteRegister).
Local Abbreviation reads := (BusScenario.reads apuReadRegister).

Lemma Write_4016 m c value :
  Memory.Input m = Some c ->
  Write m 0x4016 value = Memory.set_Input (Some (Input.Write c value)) m.
Proof. intros Hi. unfold Memory.Write. rewrite Hi. reflexivity. Qed.

Lemma Read_4016 m c :
  Memory.Input m = Some c ->
  Read m 0x4016
  = (fst (Input.Read c), Memory.set_Input (Some (snd (Input.Read c))) m).
Proof.
  intros Hi. unfold Memory.Read. rewrite Hi.
  change (0x4016 <? 0x2000) with false. change (0x6000 <=? 0x4016) with false.
  change (0x4016 <? 0x4000) with false. change (0x4016 =? 0x4016) with true.
  cbv iota. destruct (Input.Read c); reflexivity.
Qed.

(** A read of $4017 is answered by the APU (0 without one); the controller
    is not involved. *)
Lemma Read_4017 m :
  Read m 0x4017 = Memory.apuRead apuReadRegister m 0x4017 /\
  Memory.Input (snd (Read m 0x4017)) = Memory.Input m.
Proof.
  split; [reflexivity|].
  change (Read m 0x4017) with (Memory.apuRead apuReadRegister m 0x4017).
  unfold Memory.apuRead. destruct (Memory.APU m) as [a|]; [|reflexivity].
  destruct (apuReadRegister a 0x4017); reflexivity.
Qed.

(** While the strobe is held every read returns button A. *)
Lemma reads_strobing n m c :
  Memory.Input m = Some c -> Input.strobe c = true -> Input.index c = 0 ->
  fst (reads m 0x4016 n) = repeat (Z.land (Input.buttons c) 1) n.
Proof.
  revert m. induction n as [|n IH]; intros m Hi Hs Hx; [reflexivity|].
  cbn [BusScenario.reads repeat]. rewrite (Read_4016 m c Hi).
  unfold Input.Read. rewrite Hx, Hs. cbn [negb fst snd].
  change (7 <? 0) with false. cbv iota. cbn [fst snd].
  specialize (IH (Memory.set_Input (Some c) m) eq_refl Hs Hx).
  destruct (reads _ 0x4016 n) as [values m']. cbn [fst] in *.
  rewrite IH, Z.shiftr_0_r. reflexivity.
Qed.

Lemma serialBit_exhausted (b : Z) (n : nat) (k : Z) :
  8 <= k -> map (serialBit b) (seqZ k (Z.of_nat n)) = repeat 1 n.
Proof.
  revert k. induction n as [|n IH]; intros k Hk; [reflexivity|].
  rewrite seqZ_cons by lia. cbn [map repeat].
  replace (Z.pred (Z.of_nat (S n))) with (Z.of_nat n) by lia.
  rewrite IH by lia. unfold serialBit.
  destruct (Z.ltb_spec k 8); [lia|reflexivity].
Qed.

(** Once eight bits have been read every further read returns 1. *)
Lemma reads_exhausted n m c :
  Memory.Input m = Some c -> 7 < Input.index c ->
  fst (reads m 0x4016 n) = repeat 1 n.
Proof.
  revert m. induction n as [|n IH]; intros m Hi Hx; [reflexivity|].
  cbn [BusScenario.reads repeat]. rewrite (Read_4016 m c Hi).
  unfold Input.Read. destruct (Z.ltb_spec 7 (Input.index c)); [|lia].
  cbn [fst snd]. specialize (IH (Memory.set_Input (Some c) m) eq_refl Hx).
  destruct (reads _ 0x4016 n) as [values m']. cbn [fst] in *.
  now rewrite IH.
Qed.

(** With the strobe released, read [k] returns bit [k] of the button state
    for [k < 8] and 1 from then on. *)
Lemma reads_latched n m c :
  Memory.Input m = Some c -> Input.strobe c = false -> 0 <= Input.index c <= 8 ->
  fst (reads m 0x4016 n)
  = map (serialBit (Input.buttons c)) (seqZ (Input.index c) (Z.of_nat n)).
Proof.
  revert m c. induction n as [|n IH]; intros m c Hi Hs Hx; [reflexivity|].
  destruct (Z.ltb_spec 7 (Input.index c)) as [H7|H7].
  { rewrite serialBit_exhausted by lia. now apply reads_exhausted with c. }
  rewrite seqZ_cons by lia. cbn [BusScenario.reads map].
  rewrite (Read_4016 m c Hi).
  replace (Z.pred (Z.of_nat (S n))) with (Z.of_nat n) by lia.
  replace (Z.succ (Input.index c)) with (Input.index c + 1) by lia.
  unfold Input.Read. rewrite Hs. cbn [negb]. unfold serialBit at 1.
  destruct (Z.ltb_spec 7 (Input.index c)); [lia|].
  destruct (Z.ltb_spec (Input.index c) 8); [|lia]. cbn [fst snd].
  rewrite u8_small by lia.
  specialize (IH (Memory.set_Input (Some (Input.set_index (Input.index c + 1) c)) m)
                 (Input.set_index (Input.index c + 1) c) eq_refl Hs).
  cbn [Input.index Input.set_index Input.buttons] in IH.
  destruct (reads _ 0x4016 n) as [values m']. cbn [fst] in *.
  rewrite IH by lia. reflexivity.
Qed.

(** C8, as the code has it.  For the controller on $4016: a write with bit
    0 set starts strobing, during which every read of $4016 returns button
    A; after a write with bit 0 clear, read [k] of $4016 returns bit [k] of
    the button state (A, B, Select, Start, Up, Down, Left, Right) for
    [k < 8] and 1 from then on.  Reads of $4017 are answered by the APU and
    leave the controller as it is: there is no second controller. *)
Theorem controller_port_serial_read m c (v1 v0 : Z) :
  Memory.Input m = Some c -> Z.land v1 1 = 1 -> Z.land v0 1 = 0 ->
  let m1 := Write m 0x4016 v1 in
  let m2 := Write m1 0x4016 v0 in
  (forall n, fst (reads m1 0x4016 n) = repeat (Z.land (Input.buttons c) 1) n) /\
  (forall n, fst (reads m2 0x4016 n)
             = map (serialBit (Input.buttons c)) (seqZ 0 (Z.of_nat n))) /\
  (forall m', Read m' 0x4017 = Memory.apuRead apuReadRegister m' 0x4017 /\
              Memory.Input (snd (Read m' 0x4017)) = Memory.Input m').
Proof.
  intros Hi H1 H0. cbv zeta.
  rewrite (Write_4016 m c v1 Hi).
  rewrite (Write_4016 (Memory.set_Input (Some (Input.Write c v1)) m)
             (Input.Write c v1) v0 eq_refl).
  assert (E1 : Input.Write c v1 = Input.set_index 0 (Input.set_strobe true c)).
  { unfold Input.Write. rewrite H1. reflexivity. }
  assert (E0 : Input.Write (Input.Write c v1) v0
               = Input.set_strobe false (Input.set_index 0 (Input.set_strobe true c))).
  { rewrite E1. unfold Input.Write. rewrite H0. reflexivity. }
  rewrite E0, E1. split; [|split].
  - intros n. now rewrite (reads_strobing n (Memory.set_Input _ m) _ eq_refl).
  - intros n.
    rewrite (reads_latched n (Memory.set_Input _ (Memory.set_Input _ m)) _ eq_refl);
      [reflexivity|reflexivity|].
    cbn [Input.index Input.set_index Input.set_strobe]. lia.
  - intros m'. apply Read_4017.
Qed.

End ControllerFacts.

(** The repository's APU answers a read of $4017 with 0. *)
Lemma APU_ReadRegister_4017 (a : APU.APU) : fst (APU.ReadRegister a 0x4017) = 0.
Proof. reflexivity. Qed.

(** The controller port of the NROM console with A, Start and Right held. *)
Lemma controller_port_example :
  let m1 := Memory.Write BusScenario.noAPURead BusScenario.noAPUWrite
              BusScenario.console 0x4016 1 in
  let m2 := Memory.Write BusScenario.noAPURead BusScenario.noAPUWrite m1 0x4016 0 in
  (forall n, fst (BusScenario.reads BusScenario.noAPURead m1 0x4016 n)
             = repeat (Z.land (Input.buttons BusScenario.pad) 1) n) /\
  (forall n, fst (BusScenario.reads BusScenario.noAPURead m2 0x4016 n)
             = map (BusScenario.serialBit (Input.buttons BusScenario.pad))
                   (seqZ 0 (Z.of_nat n))) /\
  (forall m' : Memory.Memory Mapper0.Mapper0 Empty_set,
              Memory.Read BusScenario.noAPURead m' 0x4017
              = Memory.apuRead BusScenario.noAPURead m' 0x4017 /\
              Memory.Input (snd (Memory.Read BusScenario.noAPURead m' 0x4017))
              = Memory.Input m').
Proof.
  apply (controller_port_serial_read BusScenario.noAPURead BusScenario.noAPUWrite
           BusScenario.console BusScenario.pad 1 0); reflexivity.
Defined.

(** C8 as stated fails for $4017.  On the console with A, Start and Right
    held, after the strobe sequence ten reads of $4016 return the eight
    button bits and then 1, while ten reads of $4017 return 0 throughout;
    and with the repository's APU attached a read of $4017 returns 0
    whatever the state of the APU and of the controller. *)
Lemma port_4017_is_not_a_controller :
  let m1 := Memory.Write BusScenario.noAPURead BusScenario.noAPUWrite
              BusScenario.console 0x4016 1 in
  let m2 := Memory.Write BusScenario.noAPURead BusScenario.noAPUWrite m1 0x4016 0 in
  fst (BusScenario.reads BusScenario.noAPURead m2 0x4016 10)
    = [1; 0; 0; 1; 0; 0; 0; 1; 1; 1] /\
  fst (BusScenario.reads BusScenario.noAPURead m2 0x4017 10)
    = [0; 0; 0; 0; 0; 0; 0; 0; 0; 0] /\
  forall (m : Memory.Memory Mapper0.Mapper0 APU.APU),
    fst (Memory.Read APU.ReadRegister m 0x4017) = 0.
Proof.
  split; [vm_compute; reflexivity|]. split; [vm_compute; reflexivity|].
  intros m. change (Memory.Read APU.ReadRegister m 0x4017)
    with (Memory.apuRead APU.ReadRegister m 0x4017).
  unfold Memory.apuRead. destruct (Memory.APU m) as [a|]; reflexivity.
Qed.

(** ** The CPU bus: OAM DMA *)

Section DMAFacts.
Context {M : Type} `{!Mapper.Mapper M} {A : Type}.
Variable apuReadRegister : A -> Z -> Z * A.
Variable apuWriteRegister : A -> Z -> Z -> A.
Implicit Types (m : Memory.Memory M A) (p : PPU.PPU).

Local Abbreviation Read := (Memory.Read apuReadRegister).
Local Abbreviation Write := (Memory.Write apuReadRegister apuWriteRegister).

(** Reads of RAM and of cartridge space leave the machine as it is and
    depend on RAM, the cartridge and the test memory only. *)
Lemma Read_pure m addr :
  addr < 0x2000 \/ 0x6000 <= addr ->
  Read m addr = (fst (Read m addr), m) /\
  forall m', Memory.RAM m' = Memory.RAM m -> Memory.HighMem m' = Memory.HighMem m ->
             Memory.Cartridge m' = Memory.Cartridge m ->
             fst (Read m' addr) = fst (Read m addr).
Proof.
  intros Ha. unfold Memory.Read. split.
  - destruct (Z.ltb_spec addr 0x2000); [reflexivity|].
    destruct (Z.leb_spec 0x6000 addr); [|lia].
    destruct (Memory.Cartridge m); [reflexivity|].
    cbv zeta. destruct (0xA000 <=? _); reflexivity.
  - intros m' -> -> ->.
    destruct (Z.ltb_spec addr 0x2000); [reflexivity|].
    destruct (Z.leb_spec 0x6000 addr); [|lia].
    destruct (Memory.Cartridge m); [reflexivity|].
    cbv zeta. destruct (0xA000 <=? _); reflexivity.
Qed.

(** An OAMDATA write through the bus. *)
Lemma ppuWrite_OAMDATA m p value :
  Memory.PPU m = Some p ->
  Memory.ppuWrite m 0x2004 value
  = Memory.set_Cartridge (Memory.Cartridge m)
      (Memory.set_PPU
         (Some (PPU.set_OAMADDR (u8 (PPU.OAMADDR p + 1))
                  (PPU.set_OAM (aset (PPU.OAM p) (PPU.OAMADDR p) value) p))) m).
Proof. intros Hp. unfold Memory.ppuWrite. rewrite Hp. reflexivity. Qed.

Lemma dmaLoop_spec (base : Z) (n : nat) :
  forall m p i,
  Memory.PPU m = Some p -> 0 <= PPU.OAMADDR p < 256 ->
  0 <= i -> i + Z.of_nat n <= 256 ->
  0 <= base -> base + 256 <= 0x2000 \/ (0x6000 <= base /\ base + 256 <= 0x10000) ->
  exists p',
    Memory.PPU (Memory.dmaLoop apuReadRegister m base i n) = Some p' /\
    Memory.RAM (Memory.dmaLoop apuReadRegister m base i n) = Memory.RAM m /\
    Memory.HighMem (Memory.dmaLoop apuReadRegister m base i n) = Memory.HighMem m /\
    Memory.Cartridge (Memory.dmaLoop apuReadRegister m base i n) = Memory.Cartridge m /\
    PPU.OAMADDR p' = (PPU.OAMADDR p + Z.of_nat n) mod 256 /\
    (forall j, 0 <= j < Z.of_nat n ->
       aget (PPU.OAM p') ((PPU.OAMADDR p + j) mod 256) = fst (Read m (base + i + j))) /\
    (forall a, (forall j, 0 <= j < Z.of_nat n -> a <> (PPU.OAMADDR p + j) mod 256) ->
       aget (PPU.OAM p') a = aget (PPU.OAM p) a).
Proof.
  induction n as [|n IH]; intros m p i Hp Ho Hi Hn Hb Hpage.
  - exists p. cbn [Memory.dmaLoop]. repeat split; try assumption.
    + change (Z.of_nat 0) with 0. rewrite Z.add_0_r. symmetry. apply Z.mod_small. lia.
    + intros j Hj. lia.
  - cbn [Memory.dmaLoop].
    rewrite (u16_small i) by lia. rewrite (u16_small (base + i)) by lia.
    destruct (Read_pure m (base + i)) as [Er Hr]; [lia|].
    rewrite Er. rewrite (ppuWrite_OAMDATA m p _ Hp).
    set (value := fst (Read m (base + i))).
    set (p1 := PPU.set_OAMADDR _ _).
    set (m1 := Memory.set_Cartridge _ _).
    assert (Ho1 : PPU.OAMADDR p1 = (PPU.OAMADDR p + 1) mod 256) by reflexivity.
    destruct (IH m1 p1 (i + 1)) as (p' & E1 & E2 & E3 & E4 & E5 & E6 & E7);
      [reflexivity|rewrite Ho1; lia|lia|lia|lia|exact Hpage|].
    exists p'. rewrite E1, E2, E3, E4. repeat split.
    + rewrite E5, Ho1. lia.
    + intros j Hj. destruct (Z.eq_dec j 0) as [->|Hj0].
      * rewrite E7.
        -- rewrite Z.add_0_r, (Z.mod_small (PPU.OAMADDR p)) by lia.
           rewrite Z.add_0_r. apply aget_aset_eq.
        -- intros j' Hj'. rewrite Ho1. lia.
      * replace ((PPU.OAMADDR p + j) mod 256)
          with ((PPU.OAMADDR p1 + (j - 1)) mod 256) by (rewrite Ho1; lia).
        rewrite E6 by lia.
        destruct (Read_pure m (base + (i + 1) + (j - 1))) as [_ Hr']; [lia|].
        rewrite (Hr' m1) by reflexivity. f_equal. f_equal. lia.
    + intros a Ha. rewrite E7.
      * unfold p1. cbn [PPU.OAM PPU.set_OAMADDR PPU.set_OAM].
        apply aget_aset_ne. specialize (Ha 0 ltac:(lia)).
        rewrite Z.add_0_r, Z.mod_small in Ha by lia. congruence.
      * intros j Hj. rewrite Ho1. specialize (Ha (j + 1) ltac:(lia)).
        intros ->. apply Ha. lia.
Qed.


(** A write of page [V] to $4014, for a page of RAM or of cartridge space:
    byte [i] of the page lands in OAM at [OAMADDR + i] (modulo 256) and
    OAMADDR ends where it began. *)
Lemma Write_4014_transfer m p (V : Z) :
  Memory.PPU m = Some p -> 0 <= PPU.OAMADDR p < 256 ->
  0 <= V < 0x20 \/ 0x60 <= V < 0x100 ->
  exists p',
    Memory.PPU (Write m 0x4014 V) = Some p' /\
    PPU.OAMADDR p' = PPU.OAMADDR p /\
    forall i, 0 <= i < 256 ->
      aget (PPU.OAM p') ((PPU.OAMADDR p + i) mod 256) = fst (Read m (V * 256 + i)).
Proof.
  intros Hp Ho HV.
  change (Write m 0x4014 V) with (Memory.performOAMDMA apuReadRegister m V).
  unfold Memory.performOAMDMA. cbv zeta.
  rewrite Z.shiftl_mul_pow2 by lia. change (2 ^ 8) with 256.
  rewrite u16_small by lia.
  destruct (dmaLoop_spec (V * 256) 256 m p 0 Hp Ho) as (p' & E1 & _ & _ & _ & E5 & E6 & _);
    [lia|lia|lia|lia|].
  exists p'. split; [exact E1|]. split.
  - rewrite E5. change (Z.of_nat 256) with 256. lia.
  - intros i Hi. rewrite E6 by (change (Z.of_nat 256) with 256; lia).
    now rewrite Z.add_0_r.
Qed.

End DMAFacts.

(** ** The CPU: stores and OAM DMA *)

Section StoreFacts.
Context {M : Type} `{!Mapper.Mapper M} {A : Type}.
Variable apuReadRegister : A -> Z -> Z * A.
Variable apuWriteRegister : A -> Z -> Z -> A.
Implicit Types (c : CPU.CPU M A) (m : Memory.Memory M A) (p : PPU.PPU).

Local Abbreviation Read := (Memory.Read apuReadRegister).
Local Abbreviation Write := (Memory.Write apuReadRegister apuWriteRegister).
Local Abbreviation Step := (CPU.Step apuReadRegister apuWriteRegister).

(** STA absolute (opcode $8D) with side-effect-free fetches: the store is
    made through the bus and the instruction returns 4 cycles, whatever the
    address. *)
Lemma Step_STA_absolute c (lo hi : Z) :
  CPU.NMI c = false -> 0 <= CPU.PC c -> CPU.PC c + 2 < 0x10000 ->
  Read (CPU.Memory c) (CPU.PC c) = (0x8D, CPU.Memory c) ->
  Read (CPU.Memory c) (CPU.PC c + 1) = (lo, CPU.Memory c) ->
  Read (CPU.Memory c) (CPU.PC c + 2) = (hi, CPU.Memory c) ->
  exists c',
    Step c = Some (4, c') /\
    CPU.Memory c'
      = Write (CPU.Memory c) (Z.lor (u16 (Z.shiftl hi 8)) lo) (CPU.A c) /\
    CPU.PC c' = u16 (CPU.PC c + 3) /\ CPU.Cycles c' = CPU.Cycles c + 4 /\
    CPU.A c' = CPU.A c /\ CPU.SP c' = CPU.SP c /\ CPU.P c' = CPU.P c.
Proof.
  intros Hn H0 H2 R0 R1 R2. unfold CPU.Step. rewrite Hn.
  set (c0 := if CPU.IRQ c && _ then CPU.set_IRQ false c else c).
  assert (E : CPU.Memory c0 = CPU.Memory c /\ CPU.PC c0 = CPU.PC c /\
              CPU.A c0 = CPU.A c /\ CPU.SP c0 = CPU.SP c /\ CPU.P c0 = CPU.P c /\
              CPU.Cycles c0 = CPU.Cycles c).
  { unfold c0. destruct (CPU.IRQ c && _); repeat split. }
  clearbody c0. destruct E as (Em & Ep & Ea & Es & Ef & Ec).
  unfold CPU.read at 1. rewrite Em, Ep, R0.
  change (CPU.executeInstruction apuReadRegister apuWriteRegister ?x 0x8D)
    with (Some (CPU.execSTA apuReadRegister apuWriteRegister x CPU.AddrAbsolute)).
  unfold CPU.execSTA, CPU.getOperandAddress, CPU.read16, CPU.read.
  cbn [CPU.PC CPU.set_PC CPU.Memory CPU.set_Memory]. rewrite Ep.
  rewrite (u16_small (CPU.PC c + 1)) by lia. rewrite R1.
  cbn [CPU.PC CPU.set_PC CPU.Memory CPU.set_Memory].
  rewrite (u16_small (CPU.PC c + 1 + 1)) by lia.
  replace (CPU.PC c + 1 + 1) with (CPU.PC c + 2) by lia. rewrite R2.
  eexists. split; [reflexivity|].
  cbn [CPU.PC CPU.set_PC CPU.Memory CPU.set_Memory CPU.write CPU.A CPU.SP CPU.P
       CPU.Cycles CPU.set_Cycles CPU.getStoreCycles CPU.set_A].
  rewrite Ea, Es, Ef, Ec. repeat split. f_equal. lia.
Qed.


(** C6, as the code has it.  [STA $4014] with [A = V], for a page [V] of
    RAM or of cartridge space, copies the 256 bytes of the page into OAM
    from the current OAMADDR on (wrapping at 256) and leaves OAMADDR where
    it was; the instruction returns the 4 cycles of any STA absolute and
    the cycle counter advances by 4: there is no DMA stall. *)
Theorem oam_dma_without_stall c p (V : Z) :
  CPU.NMI c = false -> 0 <= CPU.PC c -> CPU.PC c + 2 < 0x10000 ->
  Read (CPU.Memory c) (CPU.PC c) = (0x8D, CPU.Memory c) ->
  Read (CPU.Memory c) (CPU.PC c + 1) = (0x14, CPU.Memory c) ->
  Read (CPU.Memory c) (CPU.PC c + 2) = (0x40, CPU.Memory c) ->
  Memory.PPU (CPU.Memory c) = Some p -> 0 <= PPU.OAMADDR p < 256 ->
  CPU.A c = V -> 0 <= V < 0x20 \/ 0x60 <= V < 0x100 ->
  exists c' p',
    Step c = Some (4, c') /\ CPU.Cycles c' = CPU.Cycles c + 4 /\
    Memory.PPU (CPU.Memory c') = Some p' /\
    PPU.OAMADDR p' = PPU.OAMADDR p /\
    forall i, 0 <= i < 256 ->
      aget (PPU.OAM p') ((PPU.OAMADDR p + i) mod 256)
      = fst (Read (CPU.Memory c) (V * 256 + i)).
Proof.
  intros Hn H0 H2 R0 R1 R2 Hp Ho Ha HV.
  destruct (Step_STA_absolute c 0x14 0x40 Hn H0 H2 R0 R1 R2)
    as (c' & Es & Em & _ & Ec & _).
  change (Z.lor (u16 (Z.shiftl 0x40 8)) 0x14) with 0x4014 in Em. rewrite Ha in Em.
  destruct (Write_4014_transfer apuReadRegister apuWriteRegister (CPU.Memory c) p V
              Hp Ho HV) as (p' & E1 & E2 & E3).
  exists c', p'. rewrite Em. repeat split; assumption.
Qed.

End StoreFacts.

(** [STA $4014] with [A = 2] on the test console. *)
Lemma oam_dma_example :
  exists c' p',
    CPUScenario.Step CPUScenario.dmaCPU = Some (4, c') /\
    CPU.Cycles c' = CPU.Cycles CPUScenario.dmaCPU + 4 /\
    Memory.PPU (CPU.Memory c') = Some p' /\
    PPU.OAMADDR p' = PPU.OAMADDR PPU.New /\
    forall i, 0 <= i < 256 ->
      aget (PPU.OAM p') ((PPU.OAMADDR PPU.New + i) mod 256)
      = fst (Memory.Read BusScenario.noAPURead (CPU.Memory CPUScenario.dmaCPU)
               (2 * 256 + i)).
Proof.
  apply (oam_dma_without_stall BusScenario.noAPURead BusScenario.noAPUWrite
           CPUScenario.dmaCPU PPU.New 2); try reflexivity.
  - vm_compute. discriminate.
  - vm_compute. split; [discriminate|reflexivity].
  - left. lia.
Defined.

(** C6 as stated fails: [STA $4014] returns 4 cycles, neither 513 nor 514,
    and the cycle counter stands at 4 after it, while the page has been
    copied. *)
Lemma oam_dma_returns_4_cycles :
  match CPUScenario.Step CPUScenario.dmaCPU with
  | Some (cycles, c') =>
      cycles = 4 /\ cycles <> 513 /\ cycles <> 514 /\ CPU.Cycles c' = 4 /\
      match Memory.PPU (CPU.Memory c') with
      | Some p' => aget (PPU.OAM p') 0 = 0xAA /\ aget (PPU.OAM p') 255 = 0xBB
      | None => False
      end
  | None => False
  end.
Proof. vm_compute. repeat split; discriminate. Qed.

(** ** The CPU: interrupts *)

Section InterruptFacts.
Context {M : Type} `{!Mapper.Mapper M} {A : Type}.
Variable apuReadRegister : A -> Z -> Z * A.
Variable apuWriteRegister : A -> Z -> Z -> A.
Implicit Types (c : CPU.CPU M A).

Local Abbreviation Step := (CPU.Step apuReadRegister apuWriteRegister).

(** With the NMI latch clear, an asserted IRQ line with the I flag clear is
    only cleared: [Step] goes on to execute the instruction at [PC] as it
    would with the line low. *)
Lemma Step_drops_IRQ c :
  CPU.NMI c = false -> CPU.IRQ c = true ->
  CPU.getFlag c CPU.FlagInterrupt = false ->
  Step c = Step (CPU.set_IRQ false c).
Proof.
  intros Hn Hi Hf. unfold CPU.Step.
  cbn [CPU.NMI CPU.IRQ CPU.set_IRQ]. rewrite Hn, Hi, Hf. reflexivity.
Qed.

End InterruptFacts.

(** C1, at the failing input: the IRQ line asserted, the I flag clear, a
    NOP at [PC = $0020] and the IRQ vector set to $0500.  [Step] returns
    the 2 cycles of the NOP with [PC = $0021], the stack pointer and the
    flags untouched and the IRQ line cleared; the interrupt sequence (three
    pushes, I set, [PC = $0500], 7 cycles) does not take place. *)
Lemma irq_is_cleared_not_serviced :
  let c := CPUScenario.irqCPU in
  CPU.NMI c = false /\ CPU.IRQ c = true /\
  CPU.getFlag c CPU.FlagInterrupt = false /\
  fst (CPU.read16 BusScenario.noAPURead c 0xFFFE) = 0x0500 /\
  match CPUScenario.Step c with
  | Some (cycles, c') =>
      cycles = 2 /\ CPU.PC c' = 0x0021 /\ CPU.SP c' = CPU.SP c /\
      CPU.P c' = CPU.P c /\ CPU.IRQ c' = false /\
      CPU.Memory c' = CPU.Memory c
  | None => False
  end.
Proof. vm_compute. repeat split; reflexivity. Qed.
(** * Further properties *)

(** ** Mapper 4 *)

(** Projections of the mapper state over its setters. *)
Ltac m4_simpl :=
  cbn [Mapper4.data Mapper4.bankRegisters Mapper4.bankSelect Mapper4.mirroringMode
       Mapper4.prgRAMProtect Mapper4.irqReloadValue Mapper4.irqCounter
       Mapper4.irqEnabled Mapper4.irqPending Mapper4.irqReloadFlag Mapper4.a12Low
       Mapper4.a12LowCounter Mapper4.a12FilterPass Mapper4.a12History
       Mapper4.a12HistoryPos Mapper4.m2CycleCount Mapper4.prgBankCount
       Mapper4.chrBankCount Mapper4.isSharpMMC3
       Mapper4.set_data Mapper4.set_bankRegisters Mapper4.set_bankSelect
       Mapper4.set_mirroringMode Mapper4.set_prgRAMProtect Mapper4.set_irqReloadValue
       Mapper4.set_irqCounter Mapper4.set_irqEnabled Mapper4.set_irqPending
       Mapper4.set_irqReloadFlag Mapper4.set_a12Low Mapper4.set_a12LowCounter
       Mapper4.set_a12FilterPass Mapper4.set_a12History Mapper4.set_a12HistoryPos
       Mapper4.set_m2CycleCount].

Section MMC3More.
Import Mapper4.
Implicit Types (m : Mapper4).

(** The sample just stored is the first one the rising-edge check looks
    at, so the check never succeeds on a high sample. *)
Lemma validTransition_after_high (hist : gmap Z bool) (pos : Z) :
  0 <= pos < 8 ->
  validTransition (<[pos := true]> hist) ((pos + 1) mod 8) = false.
Proof.
  intros Hp. unfold validTransition. cbn [forallb].
  replace (((pos + 1) mod 8 - 1 + 8) mod 8) with pos by lia.
  unfold bget. now rewrite lookup_insert_eq.
Qed.

(** [NotifyA12] never clocks the IRQ counter: whatever the address and the
    history, the counter, the reload flag and the pending flag are left as
    they were (the counter is clocked by [Step] only, from the PPU's
    scanline counter). *)
Theorem NotifyA12_never_clocks_counter m (chrAddr : Z) (rendering : bool) :
  0 <= a12HistoryPos m < 8 ->
  let m' := NotifyA12 m chrAddr rendering in
  irqCounter m' = irqCounter m /\ irqReloadFlag m' = irqReloadFlag m /\
  irqPending m' = irqPending m /\ irqEnabled m' = irqEnabled m /\
  0 <= a12HistoryPos m' < 8.
Proof.
  intros Hp. unfold NotifyA12. destruct rendering; cbn [negb]; [|tauto].
  cbv zeta. m4_simpl.
  destruct (nz (Z.land chrAddr 0x1000)); cbn [negb].
  - rewrite (validTransition_after_high _ _ Hp).
    destruct (a12Low m && a12FilterPass m); m4_simpl; repeat split; lia.
  - destruct (6 <=? consecutiveLowCount _ 0 8); m4_simpl; repeat split; lia.
Qed.

End MMC3More.

Lemma NotifyA12_fresh_mapper :
  let m := MMC3Scenario.fresh in
  let m' := Mapper4.NotifyA12 m 0x1000 true in
  Mapper4.irqCounter m' = Mapper4.irqCounter m /\
  Mapper4.irqReloadFlag m' = Mapper4.irqReloadFlag m /\
  Mapper4.irqPending m' = Mapper4.irqPending m /\
  Mapper4.irqEnabled m' = Mapper4.irqEnabled m /\
  0 <= Mapper4.a12HistoryPos m' < 8.
Proof.
  apply (NotifyA12_never_clocks_counter MMC3Scenario.fresh 0x1000 true).
  vm_compute. split; [discriminate|reflexivity].
Defined.
Lemma land_1FFF (z : Z) : Z.land z 0x1FFF = z mod 0x2000.
Proof. change 0x1FFF with (Z.ones 13). now rewrite Z.land_ones by lia. Qed.

Section MMC3Banks.
Import Mapper4.
Implicit Types (m : Mapper4).

(** Reading PRG-ROM through a bank that is in range. *)
Lemma ReadPRG_bank m (addr bank : Z) :
  0x8000 <= addr <= 0xFFFF ->
  prgBankFor m addr = bank -> 0 <= bank < prgBankCount m ->
  len (Mapper.PRGROM (data m)) = prgBankCount m * 0x2000 ->
  prgBankCount m <= 255 ->
  ReadPRG m addr = idx (Mapper.PRGROM (data m)) (bank * 0x2000 + addr mod 0x2000).
Proof.
  intros Ha Hb Hr Hl Hc. unfold ReadPRG.
  destruct (Z.leb_spec 0x6000 addr); [|lia].
  destruct (Z.leb_spec addr 0x7FFF); [lia|]. cbn [andb].
  destruct (Z.leb_spec 0x8000 addr); [|lia].
  destruct (Z.leb_spec addr 0xFFFF); [|lia]. cbn [andb]. cbv zeta.
  rewrite Hb. destruct (Z.leb_spec (prgBankCount m) bank); [lia|].
  rewrite land_1FFF. unfold u32. rewrite Z.mod_small by lia.
  rewrite Hl. destruct (Z.ltb_spec (bank * 0x2000 + addr mod 0x2000)
                          (prgBankCount m * 0x2000)); [reflexivity|lia].
Qed.

(** $E000-$FFFF is fixed to the last 8 KiB bank of the PRG-ROM, whatever
    the bank registers and the bank-select register hold, and no register
    write changes what is read there. *)
Theorem mmc3_last_bank_fixed m (k : Z) :
  1 <= prgBankCount m <= 255 ->
  len (Mapper.PRGROM (data m)) = prgBankCount m * 0x2000 ->
  0 <= k < 0x2000 ->
  ReadPRG m (0xE000 + k)
    = idx (Mapper.PRGROM (data m)) ((prgBankCount m - 1) * 0x2000 + k) /\
  forall addr value,
    0x8000 <= addr ->
    ReadPRG (WritePRG m addr value) (0xE000 + k) = ReadPRG m (0xE000 + k).
Proof.
  intros Hc Hl Hk.
  assert (Hfix : forall m', prgBankCount m' = prgBankCount m -> data m' = data m ->
            ReadPRG m' (0xE000 + k)
            = idx (Mapper.PRGROM (data m)) ((prgBankCount m - 1) * 0x2000 + k)).
  { intros m' Ec Ed.
    rewrite (ReadPRG_bank m' (0xE000 + k) (prgBankCount m - 1)); rewrite ?Ec, ?Ed;
      try lia; try assumption.
    - f_equal. lia.
    - unfold prgBankFor. cbv zeta.
      destruct (Z.leb_spec 0x8000 (0xE000 + k)), (Z.leb_spec (0xE000 + k) 0x9FFF);
        try lia; cbn [andb].
      destruct (Z.leb_spec 0xA000 (0xE000 + k)), (Z.leb_spec (0xE000 + k) 0xBFFF);
        try lia; cbn [andb].
      destruct (Z.leb_spec 0xC000 (0xE000 + k)), (Z.leb_spec (0xE000 + k) 0xDFFF);
        try lia; cbn [andb].
      destruct (Z.leb_spec 0xE000 (0xE000 + k)), (Z.leb_spec (0xE000 + k) 0xFFFF);
        try lia; cbn [andb].
      rewrite Ec. apply u8_small. lia. }
  split; [apply Hfix; reflexivity|].
  intros addr value Ha. rewrite (Hfix m eq_refl eq_refl).
  apply Hfix; unfold WritePRG;
    (destruct (Z.leb_spec 0x6000 addr); [|lia]);
    (destruct (Z.leb_spec addr 0x7FFF); [lia|]); cbn [andb];
    (destruct (Z.leb_spec 0x8000 addr); [|lia]); cbv zeta;
    repeat match goal with |- context [if ?c then _ else _] => destruct c end;
    reflexivity.
Qed.

(** Bit 6 of the bank-select register swaps the roles of $8000-$9FFF and
    $C000-$DFFF: what was read in one window before the bit is set is read
    in the other one after. *)
Theorem mmc3_prg_mode_swaps_windows m (value k : Z) :
  Z.land (Z.shiftr (bankSelect m) 6) 1 = 0 ->
  Z.land (Z.shiftr value 6) 1 = 1 ->
  0 <= k < 0x2000 ->
  let m' := WritePRG m 0x8000 value in
  ReadPRG m' (0x8000 + k) = ReadPRG m (0xC000 + k) /\
  ReadPRG m' (0xC000 + k) = ReadPRG m (0x8000 + k).
Proof.
  intros H0 H1 Hk.
  change (WritePRG m 0x8000 value) with (set_bankSelect value m). cbv zeta.
  assert (E8 : Z.land (0x8000 + k) 0x1FFF = k) by (rewrite land_1FFF; lia).
  assert (EC : Z.land (0xC000 + k) 0x1FFF = k) by (rewrite land_1FFF; lia).
  unfold ReadPRG, prgBankFor. m4_simpl. rewrite H0, H1, E8, EC.
  change (1 =? 0) with false. change (0 =? 0) with true.
  destruct (Z.leb_spec 0x6000 (0x8000 + k)), (Z.leb_spec (0x8000 + k) 0x7FFF);
    try lia; cbn [andb].
  destruct (Z.leb_spec 0x6000 (0xC000 + k)), (Z.leb_spec (0xC000 + k) 0x7FFF);
    try lia; cbn [andb].
  destruct (Z.leb_spec 0x8000 (0x8000 + k)), (Z.leb_spec (0x8000 + k) 0xFFFF);
    try lia; cbn [andb].
  destruct (Z.leb_spec 0x8000 (0xC000 + k)), (Z.leb_spec (0xC000 + k) 0xFFFF);
    try lia; cbn [andb].
  destruct (Z.leb_spec (0x8000 + k) 0x9FFF); [|lia]. cbn [andb].
  destruct (Z.leb_spec (0xC000 + k) 0x9FFF); [lia|]. cbn [andb].
  destruct (Z.leb_spec 0xA000 (0xC000 + k)), (Z.leb_spec (0xC000 + k) 0xBFFF);
    try lia; cbn [andb].
  destruct (Z.leb_spec 0xC000 (0xC000 + k)), (Z.leb_spec (0xC000 + k) 0xDFFF);
    try lia; cbn [andb].
  split; reflexivity.
Qed.

End MMC3Banks.

Lemma mmc3_last_bank_example :
  let m := MMC3Scenario.fresh in
  Mapper4.ReadPRG m (0xE000 + 0)
    = idx (Mapper.PRGROM (Mapper4.data m)) ((Mapper4.prgBankCount m - 1) * 0x2000 + 0) /\
  forall addr value,
    0x8000 <= addr ->
    Mapper4.ReadPRG (Mapper4.WritePRG m addr value) (0xE000 + 0)
    = Mapper4.ReadPRG m (0xE000 + 0).
Proof.
  apply (mmc3_last_bank_fixed MMC3Scenario.fresh 0).
  - vm_compute. split; discriminate.
  - vm_compute. reflexivity.
  - lia.
Defined.

Lemma mmc3_prg_mode_example :
  let m' := Mapper4.WritePRG MMC3Scenario.fresh 0x8000 0x40 in
  Mapper4.ReadPRG m' (0x8000 + 0) = Mapper4.ReadPRG MMC3Scenario.fresh (0xC000 + 0) /\
  Mapper4.ReadPRG m' (0xC000 + 0) = Mapper4.ReadPRG MMC3Scenario.fresh (0x8000 + 0).
Proof.
  apply (mmc3_prg_mode_swaps_windows MMC3Scenario.fresh 0x40 0); [reflexivity|reflexivity|lia].
Defined.
(** ** Mapper 0 *)

Section NROMMore.
Import Mapper0.
Implicit Types (m : Mapper0).

Lemma idx_upd_eq (l : list Z) (i value : Z) :
  0 <= i < len l -> idx (upd l i value) i = value.
Proof.
  intros Hi. unfold idx, upd, len in *.
  rewrite list_lookup_insert_eq by lia. reflexivity.
Qed.

Lemma len_upd (l : list Z) (i value : Z) : len (upd l i value) = len l.
Proof. unfold len, upd. now rewrite length_insert. Qed.

(** A write into PRG-RAM ($6000-$7FFF, inside the RAM present) is read
    back; PRG-ROM cannot be written: a write at $8000 or above leaves the
    mapper as it is. *)
Theorem nrom_ram_reads_back_rom_is_read_only m (addr value : Z) :
  0x6000 <= addr < 0x8000 ->
  addr - 0x6000 < len (Mapper.PRGRAM (cartridge m)) ->
  ReadPRG (WritePRG m addr value) addr = value /\
  forall addr' value', 0x8000 <= addr' -> WritePRG m addr' value' = m.
Proof.
  intros Ha Hl. split.
  - unfold WritePRG, ReadPRG.
    destruct (Z.leb_spec 0x6000 addr); [|lia].
    destruct (Z.ltb_spec addr 0x8000); [|lia].
    destruct (Z.ltb_spec 0 (len (Mapper.PRGRAM (cartridge m)))); [|lia].
    cbn [andb]. cbv zeta. rewrite (u16_small (addr - 0x6000)) by lia.
    destruct (Z.ltb_spec (addr - 0x6000) (len (Mapper.PRGRAM (cartridge m)))); [|lia].
    cbn [cartridge Mapper.PRGRAM Mapper.set_PRGRAM].
    destruct (Z.leb_spec 0x8000 addr); [lia|]. rewrite len_upd.
    destruct (Z.ltb_spec 0 (len (Mapper.PRGRAM (cartridge m)))); [|lia].
    cbn [andb].
    destruct (Z.ltb_spec (addr - 0x6000) (len (Mapper.PRGRAM (cartridge m)))); [|lia].
    apply idx_upd_eq. lia.
  - intros addr' value' H8. unfold WritePRG.
    destruct (Z.ltb_spec addr' 0x8000); [lia|]. now rewrite andb_false_r.
Qed.

End NROMMore.

Lemma nrom_ram_example :
  let m := Mapper0.NewMapper0 NROMScenario.dataWithRAM in
  Mapper0.ReadPRG (Mapper0.WritePRG m 0x6010 0x5A) 0x6010 = 0x5A /\
  forall addr' value', 0x8000 <= addr' -> Mapper0.WritePRG m addr' value' = m.
Proof.
  apply (nrom_ram_reads_back_rom_is_read_only
           (Mapper0.NewMapper0 NROMScenario.dataWithRAM) 0x6010 0x5A).
  - lia.
  - vm_compute. reflexivity.
Defined.

(** ** Loading: malformed images *)

(** An input shorter than the 16-byte header, or one that does not begin
    with "NES" $1A, is rejected before anything else is read. *)
Theorem load_rejects_malformed_header (reader : list Z) :
  (len reader < 16 -> Cartridge.LoadFromReader reader = inr Cartridge.ErrReadHeader) /\
  (16 <= len reader -> take 4 reader <> Cartridge.magicNES ->
   Cartridge.LoadFromReader reader = inr Cartridge.ErrInvalidMagic).
Proof.
  split.
  - intros Hl. unfold Cartridge.LoadFromReader, Cartridge.readHeader, Cartridge.ReadFull.
    destruct (Z.leb_spec 16 (len reader)); [lia|reflexivity].
  - intros Hl Hm.
    unfold Cartridge.LoadFromReader, Cartridge.readHeader, Cartridge.ReadFull.
    destruct (Z.leb_spec 16 (len reader)); [|lia].
    cbn [Cartridge.Magic]. rewrite take_take.
    change (4 `min` Z.to_nat 16)%nat with 4%nat.
    rewrite bool_decide_eq_false_2 by exact Hm. reflexivity.
Qed.

(** ** The controller *)

Lemma land_shiftr_bit (z k : Z) :
  0 <= k -> Z.land (Z.shiftr z k) 1 = Z.b2z (Z.testbit z k).
Proof.
  intros Hk. rewrite Z.testbit_spec' by lia. rewrite Z.shiftr_div_pow2 by lia.
  change 1 with (Z.ones 1). rewrite Z.land_ones by lia. reflexivity.
Qed.

Section ControllerMore.
Import Input.
Implicit Types (c : Controller).

(** [SetButton] ignores every controller but 0; on controller 0, pressing
    button [b] makes read [b] of the serial port return 1 and releasing it
    makes it return 0, the other buttons staying as they are. *)
Theorem SetButton_sets_the_serial_bit c (b : Z) (pressed : bool) :
  0 <= b <= 7 ->
  (forall n, n <> 0 -> SetButton c n b pressed = c) /\
  BusScenario.serialBit (buttons (SetButton c 0 b pressed)) b
    = (if pressed then 1 else 0) /\
  (forall k, 0 <= k -> k <> b ->
     Z.testbit (buttons (SetButton c 0 b pressed)) k = Z.testbit (buttons c) k).
Proof.
  intros Hb. split; [|split].
  - intros n Hn. unfold SetButton.
    destruct (Z.eqb_spec n 0); [contradiction|reflexivity].
  - unfold SetButton, BusScenario.serialBit. change (0 =? 0) with true.
    cbn [negb buttons]. destruct (Z.ltb_spec b 8); [|lia].
    rewrite Z.shiftl_1_l, u8_small by (split; [lia|]; change 256 with (2 ^ 8);
      apply Z.pow_lt_mono_r; lia).
    rewrite land_shiftr_bit by lia.
    destruct pressed.
    + rewrite Z.lor_spec, Z.pow2_bits_true by lia. now rewrite orb_true_r.
    + rewrite Z.ldiff_spec, Z.pow2_bits_true by lia. now rewrite andb_false_r.
  - intros k Hk Hne. unfold SetButton. change (0 =? 0) with true.
    cbn [negb buttons].
    rewrite Z.shiftl_1_l, u8_small by (split; [lia|]; change 256 with (2 ^ 8);
      apply Z.pow_lt_mono_r; lia).
    destruct pressed.
    + rewrite Z.lor_spec, Z.pow2_bits_false by lia. apply orb_false_r.
    + rewrite Z.ldiff_spec, Z.pow2_bits_false by lia. apply andb_true_r.
Qed.

End ControllerMore.

Lemma SetButton_example :
  (forall n, n <> 0 -> Input.SetButton Input.New n 3 true = Input.New) /\
  BusScenario.serialBit (Input.buttons (Input.SetButton Input.New 0 3 true)) 3
    = (if true then 1 else 0) /\
  (forall k, 0 <= k -> k <> 3 ->
     Z.testbit (Input.buttons (Input.SetButton Input.New 0 3 true)) k
     = Z.testbit (Input.buttons Input.New) k).
Proof. apply (SetButton_sets_the_serial_bit Input.New 3 true). lia. Defined.

Lemma load_rejects_short_and_unmarked_input :
  Cartridge.LoadFromReader [0x4E; 0x45; 0x53] = inr Cartridge.ErrReadHeader /\
  Cartridge.LoadFromReader (0x4E :: 0x45 :: 0x53 :: repeat 0 13)
    = inr Cartridge.ErrInvalidMagic.
Proof.
  split.
  - apply (proj1 (load_rejects_malformed_header [0x4E; 0x45; 0x53])).
    vm_compute. reflexivity.
  - apply (proj2 (load_rejects_malformed_header (0x4E :: 0x45 :: 0x53 :: repeat 0 13))).
    + vm_compute. discriminate.
    + vm_compute. discriminate.
Defined.
(** ** The APU read port *)

(** Only $4015 is readable: a read of any other APU address returns 0 and
    leaves the APU as it is; a read of $4015 reports the frame interrupt in
    bit 6 and acknowledges it. *)
Theorem APU_only_status_is_readable (a : APU.APU) (addr : Z) :
  (addr <> 0x4015 -> APU.ReadRegister a addr = (0, a)) /\
  Z.testbit (fst (APU.ReadRegister a 0x4015)) 6 = APU.FrameIRQ a /\
  APU.FrameIRQ (snd (APU.ReadRegister a 0x4015)) = false.
Proof.
  split; [|split].
  - intros Hne. unfold APU.ReadRegister.
    destruct (Z.eqb_spec addr 0x4015); [contradiction|reflexivity].
  - unfold APU.ReadRegister. change (0x4015 =? 0x4015) with true. cbv iota zeta.
    cbn [fst].
    destruct (0 <? APU.Pulse1_Length_Value a), (0 <? APU.Pulse2_Length_Value a),
      (0 <? APU.Triangle_Length_Value a), (0 <? APU.Noise_Length_Value a),
      (0 <? APU.DMC_CurrentLength a), (APU.FrameIRQ a),
      (APU.DMC_IRQEnabled a && (APU.DMC_CurrentLength a =? 0)); reflexivity.
  - reflexivity.
Qed.

(** ** The palette *)

Section PaletteMore.
Import Palette.

Lemma mirrorBackdrop_idem (addr : Z) :
  mirrorBackdrop (mirrorBackdrop addr) = mirrorBackdrop addr.
Proof.
  unfold mirrorBackdrop. cbv zeta. rewrite !land_1F.
  assert (H : 0 <= addr mod 32 < 32) by lia.
  assert (C : exists n : nat, (n < 32)%nat /\ addr mod 32 = Z.of_nat n).
  { exists (Z.to_nat (addr mod 32)). lia. }
  destruct C as (n & Hn & ->).
  do 32 (destruct n as [|n]; [reflexivity|]). lia.
Qed.

(** A palette write is read back with its low six bits, at the address
    written and at its backdrop alias; entries that do not share the
    physical cell are left alone. *)
Theorem palette_write_reads_back_six_bits (pm : PaletteManager) (addr value : Z) :
  ReadPalette (WritePalette pm addr value) addr = Z.land value 0x3F /\
  ReadPalette (WritePalette pm addr value) (mirrorBackdrop addr) = Z.land value 0x3F /\
  forall addr', mirrorBackdrop addr' <> mirrorBackdrop addr ->
    ReadPalette (WritePalette pm addr value) addr' = ReadPalette pm addr'.
Proof.
  unfold ReadPalette, WritePalette. cbn [PaletteRAM]. repeat split.
  - apply aget_aset_eq.
  - rewrite mirrorBackdrop_idem. apply aget_aset_eq.
  - intros addr' Hne. apply aget_aset_ne. congruence.
Qed.

End PaletteMore.
(** ** PPU registers *)

Lemma land_3F (z : Z) : Z.land z 0x3F = z mod 64.
Proof. change 0x3F with (Z.ones 6). now rewrite Z.land_ones by lia. Qed.

(** The address assembled by two PPUADDR writes, bit by bit. *)
Lemma ppuaddr_pair_bits (t0 hi lo : Z) :
  0 <= t0 < 0x8000 -> 0 <= lo < 256 ->
  Z.lor (Z.land (Z.lor (Z.land t0 0x80FF) (u16 (Z.shiftl (Z.land hi 0x3F) 8))) 0xFF00) lo
  = (hi mod 64) * 256 + lo.
Proof.
  intros Ht Hl. rewrite land_3F.
  rewrite Z.shiftl_mul_pow2 by lia. change (2 ^ 8) with 256.
  rewrite u16_small by lia.
  set (h := hi mod 64). assert (Hh : 0 <= h < 64) by (unfold h; lia). clearbody h.
  assert (E1 : Z.land (Z.lor (Z.land t0 0x80FF) (h * 256)) 0xFF00 = h * 256).
  { rewrite Z.land_lor_distr_l, <- Z.land_assoc.
    change (Z.land 0x80FF 0xFF00) with (2 ^ 15).
    assert (E0 : Z.land t0 (2 ^ 15) = 0).
    { apply Z.bits_inj'. intros n Hn. rewrite Z.land_spec, Z.bits_0, Z.pow2_bits_eqb by lia.
      destruct (Z.eqb_spec 15 n) as [<-|]; [|apply andb_false_r].
      rewrite (Z.bits_above_log2 t0 15); [reflexivity|lia|].
      destruct (Z.eq_dec t0 0) as [->|]; [reflexivity|].
      apply Z.log2_lt_pow2; lia. }
    rewrite E0, Z.lor_0_l.
    replace (h * 256) with (Z.shiftl h 8) by (rewrite Z.shiftl_mul_pow2; lia).
    change 0xFF00 with (Z.shiftl 0xFF 8). rewrite <- Z.shiftl_land. f_equal.
    change 0xFF with (Z.ones 8). rewrite Z.land_ones by lia. lia. }
  rewrite E1.
  assert (N : Z.land (Z.shiftl h 8) lo = 0).
  { apply Z.bits_inj'. intros n Hn. rewrite Z.land_spec, Z.bits_0.
    destruct (Z.lt_ge_cases n 8).
    + rewrite Z.shiftl_spec_low by lia. reflexivity.
    + rewrite (Z.bits_above_log2 lo n); [apply andb_false_r|lia|].
      destruct (Z.eq_dec lo 0) as [->|]; [simpl; lia|].
      apply Z.lt_le_trans with 8; [|lia]. apply Z.log2_lt_pow2; lia. }
  replace (h * 256) with (Z.shiftl h 8) by (rewrite Z.shiftl_mul_pow2; lia).
  rewrite <- Z.lxor_lor by exact N. symmetry. apply Z.add_nocarry_lxor. exact N.
Qed.

Lemma land_7 (z : Z) : Z.land z 0x7 = z mod 8.
Proof. change 0x7 with (Z.ones 3). now rewrite Z.land_ones by lia. Qed.

Section RegisterMore.
Context {M : Type} `{!Mapper.Mapper M}.
Import PPU PPUScenario.
Implicit Types (p : PPU) (cart : option (Cartridge.Cartridge M)).

(** A read of PPUSTATUS returns the status, clears the vertical-blank flag
    only and resets the write latch: whatever state the latch was in, the
    next two PPUADDR writes are taken as high byte, low byte and leave the
    14-bit address [(hi mod 64) * 256 + lo] in both [v] and [t]. *)
Theorem status_read_resets_address_latch p cart (hi lo : Z) :
  0 <= t p < 0x8000 -> 0 <= lo < 256 ->
  let value := fst (fst (ReadRegister p cart 0x2002)) in
  let p1 := snd (fst (ReadRegister p cart 0x2002)) in
  let p3 := writes p1 cart [(0x2006, hi); (0x2006, lo)] in
  value = PPUSTATUS p /\ PPUSTATUS p1 = Z.ldiff (PPUSTATUS p) 0x80 /\ w p1 = 0 /\
  v p3 = (hi mod 64) * 256 + lo /\ t p3 = v p3 /\ w p3 = 0.
Proof.
  intros Ht Hl. cbv zeta.
  change (ReadRegister p cart 0x2002)
    with (PPUSTATUS p, set_w 0 (set_PPUSTATUS (Z.ldiff (PPUSTATUS p) PPUSTATUSVBlank) p),
          cart).
  cbn [fst snd writes].
  rewrite WriteRegister_PPUADDR_first by reflexivity.
  rewrite WriteRegister_PPUADDR_second by (ppu_simpl; discriminate).
  ppu_simpl. rewrite (ppuaddr_pair_bits (t p) hi lo Ht Hl). repeat split.
Qed.

(** The OAM port: OAMADDR selects the cell, an OAMDATA write stores there
    and steps OAMADDR by one modulo 256, an OAMDATA read returns the cell
    under OAMADDR without stepping. *)
Theorem oamdata_write_steps_read_does_not p cart (a value : Z) :
  0 <= a < 256 ->
  let p1 := fst (WriteRegister p cart 0x2003 a) in
  let p2 := fst (WriteRegister p1 cart 0x2004 value) in
  let p3 := fst (WriteRegister p2 cart 0x2003 a) in
  aget (OAM p2) a = value /\ OAMADDR p2 = (a + 1) mod 256 /\
  fst (fst (ReadRegister p3 cart 0x2004)) = value /\
  OAMADDR (snd (fst (ReadRegister p3 cart 0x2004))) = a.
Proof.
  intros Ha. cbv zeta.
  change (WriteRegister p cart 0x2003 a) with (set_OAMADDR a p, cart). cbn [fst].
  change (WriteRegister (set_OAMADDR a p) cart 0x2004 value)
    with (set_OAMADDR (u8 (a + 1)) (set_OAM (aset (OAM p) a value) (set_OAMADDR a p)),
          cart).
  cbn [fst].
  set (p2 := set_OAMADDR (u8 (a + 1)) _).
  change (WriteRegister p2 cart 0x2003 a) with (set_OAMADDR a p2, cart). cbn [fst].
  change (ReadRegister (set_OAMADDR a p2) cart 0x2004)
    with (aget (OAM p2) a, set_OAMADDR a p2, cart).
  unfold p2. ppu_simpl. rewrite aget_aset_eq. repeat split.
Qed.

End RegisterMore.

Lemma status_read_then_address_example :
  let p := PPUStates.endOfLine260 in
  let cart := PPUStates.cart in
  let value := fst (fst (PPU.ReadRegister p cart 0x2002)) in
  let p1 := snd (fst (PPU.ReadRegister p cart 0x2002)) in
  let p3 := PPUScenario.writes p1 cart [(0x2006, 0x23); (0x2006, 0xC0)] in
  value = PPU.PPUSTATUS p /\ PPU.PPUSTATUS p1 = Z.ldiff (PPU.PPUSTATUS p) 0x80 /\
  PPU.w p1 = 0 /\
  PPU.v p3 = (0x23 mod 64) * 256 + 0xC0 /\ PPU.t p3 = PPU.v p3 /\ PPU.w p3 = 0.
Proof.
  apply (status_read_resets_address_latch PPUStates.endOfLine260 PPUStates.cart
           0x23 0xC0).
  - vm_compute. split; [discriminate|reflexivity].
  - lia.
Defined.

Lemma oamdata_example :
  let p := PPU.New in
  let cart := PPUStates.cart in
  let p1 := fst (PPU.WriteRegister p cart 0x2003 0xFF) in
  let p2 := fst (PPU.WriteRegister p1 cart 0x2004 0x50) in
  let p3 := fst (PPU.WriteRegister p2 cart 0x2003 0xFF) in
  aget (PPU.OAM p2) 0xFF = 0x50 /\ PPU.OAMADDR p2 = (0xFF + 1) mod 256 /\
  fst (fst (PPU.ReadRegister p3 cart 0x2004)) = 0x50 /\
  PPU.OAMADDR (snd (fst (PPU.ReadRegister p3 cart 0x2004))) = 0xFF.
Proof.
  apply (oamdata_write_steps_read_does_not PPU.New PPUStates.cart 0xFF 0x50). lia.
Defined.

(** ** The CPU bus: mirrors *)

Section BusMore.
Context {M : Type} `{!Mapper.Mapper M} {A : Type}.
Variable apuReadRegister : A -> Z -> Z * A.
Variable apuWriteRegister : A -> Z -> Z -> A.
Implicit Types (m : Memory.Memory M A).

Local Abbreviation Read := (Memory.Read apuReadRegister).
Local Abbreviation Write := (Memory.Write apuReadRegister apuWriteRegister).

(** The 2 KiB of RAM are mirrored every $0800 up to $1FFF: a byte written
    at [addr] is read back at every address congruent to it modulo $0800,
    and the other cells are left alone. *)
Theorem ram_is_mirrored_every_0800 m (addr addr' value : Z) :
  0 <= addr < 0x2000 -> 0 <= addr' < 0x2000 ->
  let m' := Write m addr value in
  (addr' mod 0x800 = addr mod 0x800 -> Read m' addr' = (value, m')) /\
  (addr' mod 0x800 <> addr mod 0x800 -> fst (Read m' addr') = fst (Read m addr')).
Proof.
  intros Ha Ha'. cbv zeta. unfold Memory.Write, Memory.Read.
  destruct (Z.ltb_spec addr 0x2000); [|lia].
  destruct (Z.ltb_spec addr' 0x2000); [|lia].
  cbn [Memory.RAM Memory.set_RAM fst]. rewrite land_7FF. split.
  - intros ->. now rewrite aget_aset_eq.
  - intros Hne. rewrite aget_aset_ne by congruence. reflexivity.
Qed.

(** The eight PPU registers are mirrored every 8 bytes from $2000 to
    $3FFF, for writes and for reads. *)
Theorem ppu_registers_are_mirrored_every_8 m (addr value : Z) :
  0x2000 <= addr < 0x4000 ->
  Write m addr value = Write m (0x2000 + addr mod 8) value /\
  Read m addr = Read m (0x2000 + addr mod 8).
Proof.
  intros Ha. unfold Memory.Write, Memory.Read.
  destruct (Z.ltb_spec addr 0x2000); [lia|].
  destruct (Z.ltb_spec addr 0x4000); [|lia].
  destruct (Z.leb_spec 0x6000 addr); [lia|].
  destruct (Z.ltb_spec (0x2000 + addr mod 8) 0x2000); [lia|].
  destruct (Z.ltb_spec (0x2000 + addr mod 8) 0x4000); [|lia].
  destruct (Z.leb_spec 0x6000 (0x2000 + addr mod 8)); [lia|].
  rewrite !land_7. replace ((0x2000 + addr mod 8) mod 8) with (addr mod 8) by lia.
  split; reflexivity.
Qed.

End BusMore.

Lemma ram_mirror_example :
  let m' := Memory.Write BusScenario.noAPURead BusScenario.noAPUWrite
              BusScenario.console 0x0042 0x99 in
  (0x1842 mod 0x800 = 0x0042 mod 0x800 ->
   Memory.Read BusScenario.noAPURead m' 0x1842 = (0x99, m')) /\
  (0x1842 mod 0x800 <> 0x0042 mod 0x800 ->
   fst (Memory.Read BusScenario.noAPURead m' 0x1842)
   = fst (Memory.Read BusScenario.noAPURead BusScenario.console 0x1842)).
Proof.
  apply (ram_is_mirrored_every_0800 BusScenario.noAPURead BusScenario.noAPUWrite
           BusScenario.console 0x0042 0x1842 0x99); lia.
Defined.

Lemma ppu_register_mirror_example :
  Memory.Write BusScenario.noAPURead BusScenario.noAPUWrite BusScenario.console
    0x3FFE 0x21
  = Memory.Write BusScenario.noAPURead BusScenario.noAPUWrite BusScenario.console
      (0x2000 + 0x3FFE mod 8) 0x21 /\
  Memory.Read BusScenario.noAPURead BusScenario.console 0x3FFE
  = Memory.Read BusScenario.noAPURead BusScenario.console (0x2000 + 0x3FFE mod 8).
Proof.
  apply (ppu_registers_are_mirrored_every_8 BusScenario.noAPURead
           BusScenario.noAPUWrite BusScenario.console 0x3FFE 0x21). lia.
Defined.
(** ** The CPU: the stack and the NMI sequence *)

Lemma lor_100 (s : Z) : 0 <= s < 256 -> Z.lor 0x100 s = 0x100 + s.
Proof.
  intros Hs. apply Z.eqb_eq. revert s Hs.
  refine (allFrom_spec (fun s => Z.lor 0x100 s =? 0x100 + s) (Z.to_nat 256) 0 _).
  vm_compute. reflexivity.
Qed.

Section StackFacts.
Context {M : Type} `{!Mapper.Mapper M} {A : Type}.
Variable apuReadRegister : A -> Z -> Z * A.
Variable apuWriteRegister : A -> Z -> Z -> A.
Implicit Types (c : CPU.CPU M A) (m : Memory.Memory M A).

Local Abbreviation Read := (Memory.Read apuReadRegister).
Local Abbreviation Write := (Memory.Write apuReadRegister apuWriteRegister).
Local Abbreviation push := (CPU.push apuReadRegister apuWriteRegister).
Local Abbreviation pop := (CPU.pop apuReadRegister).
Local Abbreviation Step := (CPU.Step apuReadRegister apuWriteRegister).

(** A push stores in page 1 of RAM and steps the stack pointer down. *)
Lemma push_RAM c (value : Z) :
  0 <= CPU.SP c < 256 ->
  push c value
  = CPU.set_SP (u8 (CPU.SP c - 1))
      (CPU.set_Memory
         (Memory.set_RAM (aset (Memory.RAM (CPU.Memory c)) (0x100 + CPU.SP c) value)
            (CPU.Memory c)) c).
Proof.
  intros Hs. unfold CPU.push, CPU.write. cbv zeta.
  cbn [CPU.SP CPU.set_Memory CPU.Memory].
  rewrite lor_100 by exact Hs. unfold Memory.Write.
  destruct (Z.ltb_spec (0x100 + CPU.SP c) 0x2000); [|lia].
  rewrite (Z.mod_small (0x100 + CPU.SP c) 0x800) by lia. reflexivity.
Qed.

(** What is read at or above $6000 does not depend on RAM. *)
Lemma Read_high m (ram : gmap Z Z) (addr : Z) :
  0x6000 <= addr ->
  Read (Memory.set_RAM ram m) addr = (fst (Read m addr), Memory.set_RAM ram m).
Proof.
  intros Ha. unfold Memory.Read.
  destruct (Z.ltb_spec addr 0x2000); [lia|].
  destruct (Z.leb_spec 0x6000 addr); [|lia].
  cbn [Memory.Cartridge Memory.set_RAM Memory.HighMem].
  destruct (Memory.Cartridge m); [reflexivity|].
  cbv zeta. destruct (0xA000 <=? _); reflexivity.
Qed.

(** Push then pop returns the byte pushed and restores the stack pointer;
    the registers are untouched. *)
Theorem push_then_pop_returns_the_byte c (value : Z) :
  0 <= CPU.SP c < 256 ->
  let c' := snd (pop (push c value)) in
  fst (pop (push c value)) = value /\ CPU.SP c' = CPU.SP c /\
  CPU.PC c' = CPU.PC c /\ CPU.A c' = CPU.A c /\ CPU.P c' = CPU.P c.
Proof.
  intros Hs. cbv zeta. rewrite (push_RAM c value Hs).
  unfold CPU.pop, CPU.read. cbv zeta.
  cbn [CPU.SP CPU.set_SP CPU.Memory CPU.set_Memory].
  assert (E : u8 (u8 (CPU.SP c - 1) + 1) = CPU.SP c) by (unfold u8; lia).
  rewrite E, lor_100 by exact Hs. unfold Memory.Read.
  destruct (Z.ltb_spec (0x100 + CPU.SP c) 0x2000); [|lia].
  cbn [Memory.RAM Memory.set_RAM fst snd CPU.SP CPU.PC CPU.A CPU.P CPU.set_Memory
       CPU.set_SP].
  rewrite land_7FF, (Z.mod_small (0x100 + CPU.SP c)) by lia.
  rewrite aget_aset_eq. repeat split.
Qed.

(** The NMI sequence.  With the NMI latch set, [Step] fetches no
    instruction: it pushes [PC] high, [PC] low and [P], sets I, loads [PC]
    from the vector at $FFFA/$FFFB, clears the latch and returns 7. *)
Theorem nmi_is_serviced c :
  CPU.NMI c = true -> 2 <= CPU.SP c < 256 ->
  exists c',
    Step c = Some (7, c') /\
    CPU.NMI c' = false /\ CPU.SP c' = u8 (CPU.SP c - 3) /\
    CPU.P c' = Z.lor (CPU.P c) 0x04 /\
    CPU.PC c'
      = Z.lor (u16 (Z.shiftl (fst (Read (CPU.Memory c) 0xFFFB)) 8))
          (fst (Read (CPU.Memory c) 0xFFFA)) /\
    aget (Memory.RAM (CPU.Memory c')) (0x100 + CPU.SP c)
      = u8 (Z.shiftr (CPU.PC c) 8) /\
    aget (Memory.RAM (CPU.Memory c')) (0x100 + CPU.SP c - 1)
      = u8 (Z.land (CPU.PC c) 0xFF) /\
    aget (Memory.RAM (CPU.Memory c')) (0x100 + CPU.SP c - 2) = CPU.P c /\
    CPU.Cycles c' = CPU.Cycles c.
Proof.
  intros Hn Hs. unfold CPU.Step. rewrite Hn.
  unfold CPU.handleNMI, CPU.push16. cbv zeta.
  rewrite (push_RAM c _) by lia.
  set (c1 := CPU.set_SP _ _).
  assert (S1 : CPU.SP c1 = CPU.SP c - 1) by (unfold c1, u8; cbn [CPU.SP CPU.set_SP]; lia).
  rewrite (push_RAM c1 _) by lia.
  set (c2 := CPU.set_SP _ _).
  assert (S2 : CPU.SP c2 = CPU.SP c - 2)
    by (unfold c2; cbn [CPU.SP CPU.set_SP]; rewrite S1; unfold u8; lia).
  rewrite (push_RAM c2 _) by lia.
  set (c3 := CPU.set_SP _ _).
  assert (S3 : CPU.SP c3 = u8 (CPU.SP c - 3)).
  { unfold c3. cbn [CPU.SP CPU.set_SP]. rewrite S2. f_equal. lia. }
  unfold CPU.setFlag, CPU.read16, CPU.read. cbv iota.
  set (ram3 := aset (aset (aset (Memory.RAM (CPU.Memory c)) (0x100 + CPU.SP c)
                              (u8 (Z.shiftr (CPU.PC c) 8)))
                        (0x100 + CPU.SP c1) (u8 (Z.land (CPU.PC c) 0xFF)))
                  (0x100 + CPU.SP c2) (CPU.P c)).
  assert (Em : CPU.Memory (CPU.set_P (Z.lor (CPU.P c3) CPU.FlagInterrupt) c3)
               = Memory.set_RAM ram3 (CPU.Memory c)) by reflexivity.
  rewrite Em. rewrite (Read_high (CPU.Memory c) ram3 0xFFFA) by lia.
  cbn [CPU.Memory CPU.set_Memory].
  change (u16 (0xFFFA + 1)) with 0xFFFB.
  rewrite (Read_high (CPU.Memory c) ram3 0xFFFB) by lia.
  eexists. split; [reflexivity|].
  cbn [CPU.NMI CPU.set_NMI CPU.SP CPU.set_SP CPU.set_PC CPU.set_Memory CPU.set_P CPU.P
       CPU.PC CPU.Memory Memory.RAM Memory.set_RAM CPU.Cycles].
  split; [reflexivity|]. split; [exact S3|].
  split; [reflexivity|]. split; [reflexivity|].
  unfold ram3. rewrite S1, S2.
  replace (0x100 + CPU.SP c - 1) with (0x100 + (CPU.SP c - 1)) by lia.
  replace (0x100 + CPU.SP c - 2) with (0x100 + (CPU.SP c - 2)) by lia.
  split; [|split; [|split]].
  - rewrite !aget_aset_ne by lia. apply aget_aset_eq.
  - rewrite aget_aset_ne by lia. apply aget_aset_eq.
  - apply aget_aset_eq.
  - reflexivity.
Qed.

End StackFacts.

Lemma push_pop_example :
  let c' := snd (CPU.pop BusScenario.noAPURead
                   (CPU.push BusScenario.noAPURead BusScenario.noAPUWrite
                      CPUScenario.dmaCPU 0x5A)) in
  fst (CPU.pop BusScenario.noAPURead
         (CPU.push BusScenario.noAPURead BusScenario.noAPUWrite
            CPUScenario.dmaCPU 0x5A)) = 0x5A /\
  CPU.SP c' = CPU.SP CPUScenario.dmaCPU /\ CPU.PC c' = CPU.PC CPUScenario.dmaCPU /\
  CPU.A c' = CPU.A CPUScenario.dmaCPU /\ CPU.P c' = CPU.P CPUScenario.dmaCPU.
Proof.
  apply (push_then_pop_returns_the_byte BusScenario.noAPURead BusScenario.noAPUWrite
           CPUScenario.dmaCPU 0x5A).
  vm_compute. split; [discriminate|reflexivity].
Defined.

Lemma nmi_example :
  exists c',
    CPU.Step BusScenario.noAPURead BusScenario.noAPUWrite CPUScenario.nmiCPU
      = Some (7, c') /\
    CPU.NMI c' = false /\ CPU.SP c' = u8 (CPU.SP CPUScenario.nmiCPU - 3) /\
    CPU.P c' = Z.lor (CPU.P CPUScenario.nmiCPU) 0x04 /\
    CPU.PC c'
      = Z.lor (u16 (Z.shiftl (fst (Memory.Read BusScenario.noAPURead
                                     (CPU.Memory CPUScenario.nmiCPU) 0xFFFB)) 8))
          (fst (Memory.Read BusScenario.noAPURead
                  (CPU.Memory CPUScenario.nmiCPU) 0xFFFA)) /\
    aget (Memory.RAM (CPU.Memory c')) (0x100 + CPU.SP CPUScenario.nmiCPU)
      = u8 (Z.shiftr (CPU.PC CPUScenario.nmiCPU) 8) /\
    aget (Memory.RAM (CPU.Memory c')) (0x100 + CPU.SP CPUScenario.nmiCPU - 1)
      = u8 (Z.land (CPU.PC CPUScenario.nmiCPU) 0xFF) /\
    aget (Memory.RAM (CPU.Memory c')) (0x100 + CPU.SP CPUScenario.nmiCPU - 2)
      = CPU.P CPUScenario.nmiCPU /\
    CPU.Cycles c' = CPU.Cycles CPUScenario.nmiCPU.
Proof.
  apply (nmi_is_serviced BusScenario.noAPURead BusScenario.noAPUWrite
           CPUScenario.nmiCPU).
  - reflexivity.
  - vm_compute. split; [discriminate|reflexivity].
Defined.

(** The IRQ line of [CPUScenario.irqCPU] is dropped. *)
Lemma irq_dropped_example :
  CPU.Step BusScenario.noAPURead BusScenario.noAPUWrite CPUScenario.irqCPU
  = CPU.Step BusScenario.noAPURead BusScenario.noAPUWrite
      (CPU.set_IRQ false CPUScenario.irqCPU).
Proof.
  apply (Step_drops_IRQ BusScenario.noAPURead BusScenario.noAPUWrite
           CPUScenario.irqCPU); reflexivity.
Defined.

(** ** The CPU: instructions *)

Section InstructionFacts.
Context {M : Type} `{!Mapper.Mapper M} {A : Type}.
Variable apuReadRegister : A -> Z -> Z * A.
Variable apuWriteRegister : A -> Z -> Z -> A.
Implicit Types (c : CPU.CPU M A).

Local Abbreviation Read := (Memory.Read apuReadRegister).
Local Abbreviation Step := (CPU.Step apuReadRegister apuWriteRegister).


(** [setFlag] on a one-bit mask writes that bit of [P] and no other. *)
Lemma setFlag_bit c (n k : Z) (b : bool) :
  0 <= n -> 0 <= k ->
  Z.testbit (CPU.P (CPU.setFlag c (2 ^ n) b)) k
  = if k =? n then b else Z.testbit (CPU.P c) k.
Proof.
  intros Hn Hk. unfold CPU.setFlag.
  destruct b; cbn [CPU.P CPU.set_P];
    rewrite ?Z.lor_spec, ?Z.ldiff_spec, Z.pow2_bits_eqb by lia;
    destruct (Z.eqb_spec n k), (Z.eqb_spec k n); try lia; cbn [negb];
    rewrite ?orb_true_r, ?orb_false_r, ?andb_true_r, ?andb_false_r; reflexivity.
Qed.

(** The flags set by [setZN]: Z exactly for a zero value, N exactly for a
    value with bit 7 set; the other flags are kept. *)
Lemma setZN_flags c (value : Z) :
  let c' := CPU.setZN c value in
  CPU.getFlag c' CPU.FlagZero = (value =? 0) /\
  CPU.getFlag c' CPU.FlagNegative = Z.testbit value 7 /\
  (forall k, 0 <= k -> k <> 1 -> k <> 7 ->
     Z.testbit (CPU.P c') k = Z.testbit (CPU.P c) k) /\
  CPU.A c' = CPU.A c /\ CPU.PC c' = CPU.PC c /\ CPU.SP c' = CPU.SP c /\
  CPU.Memory c' = CPU.Memory c /\ CPU.Cycles c' = CPU.Cycles c.
Proof.
  cbv zeta. unfold CPU.setZN, CPU.getFlag. cbv zeta.
  change CPU.FlagZero with (2 ^ 1). change CPU.FlagNegative with (2 ^ 7).
  change 0x80 with (2 ^ 7).
  rewrite !nz_land_bit by lia. rewrite !setFlag_bit by lia.
  change (1 =? 7) with false. change (1 =? 1) with true. change (7 =? 7) with true.
  cbv iota. split; [reflexivity|]. split; [reflexivity|]. split.
  - intros k Hk H1 H7. rewrite !setFlag_bit by lia.
    destruct (Z.eqb_spec k 7), (Z.eqb_spec k 1); try lia. reflexivity.
  - unfold CPU.setFlag.
    destruct (value =? 0), (Z.testbit value 7); repeat split.
Qed.

(** LDA immediate (opcode $A9) with side-effect-free fetches: the operand
    is loaded into A, Z and N follow the value, and the instruction takes
    2 cycles and 2 bytes. *)
Theorem lda_immediate_loads_and_sets_flags c (value : Z) :
  CPU.NMI c = false -> 0 <= CPU.PC c -> CPU.PC c + 1 < 0x10000 ->
  Read (CPU.Memory c) (CPU.PC c) = (0xA9, CPU.Memory c) ->
  Read (CPU.Memory c) (CPU.PC c + 1) = (value, CPU.Memory c) ->
  exists c',
    Step c = Some (2, c') /\ CPU.A c' = value /\
    CPU.getFlag c' CPU.FlagZero = (value =? 0) /\
    CPU.getFlag c' CPU.FlagNegative = Z.testbit value 7 /\
    CPU.PC c' = u16 (CPU.PC c + 2) /\ CPU.Cycles c' = CPU.Cycles c + 2 /\
    CPU.Memory c' = CPU.Memory c.
Proof.
  intros Hn H0 H1 R0 R1. unfold CPU.Step. rewrite Hn.
  set (c0 := if CPU.IRQ c && _ then CPU.set_IRQ false c else c).
  assert (E : CPU.Memory c0 = CPU.Memory c /\ CPU.PC c0 = CPU.PC c /\
              CPU.Cycles c0 = CPU.Cycles c).
  { unfold c0. destruct (CPU.IRQ c && _); repeat split. }
  clearbody c0. destruct E as (Em & Ep & Ec).
  unfold CPU.read at 1. rewrite Em, Ep, R0.
  change (CPU.executeInstruction apuReadRegister apuWriteRegister ?x 0xA9)
    with (Some (CPU.execLDA apuReadRegister x CPU.AddrImmediate)).
  unfold CPU.execLDA, CPU.getOperand, CPU.getOperandAddress, CPU.read.
  cbn [CPU.PC CPU.set_PC CPU.Memory CPU.set_Memory]. rewrite Ep.
  rewrite (u16_small (CPU.PC c + 1)) by lia. rewrite R1. cbv zeta.
  set (c1 := CPU.set_A value _). change (CPU.A c1) with value.
  destruct (setZN_flags c1 value) as (Fz & Fn & _ & Fa & Fp & _ & Fm & Fc).
  eexists. split; [reflexivity|].
  unfold CPU.getFlag.
  cbn [CPU.A CPU.PC CPU.Memory CPU.Cycles CPU.set_Cycles CPU.P].
  cbv zeta in Fz, Fn, Fa, Fp, Fm, Fc. unfold CPU.getFlag in Fz, Fn.
  rewrite Fz, Fn, Fa, Fp, Fm, Fc. unfold c1.
  cbn [CPU.A CPU.set_A CPU.PC CPU.set_PC CPU.Memory CPU.set_Memory CPU.Cycles].
  rewrite Ec. repeat split. f_equal. lia.
Qed.

End InstructionFacts.


Lemma lda_immediate_example :
  exists c',
    CPU.Step BusScenario.noAPURead BusScenario.noAPUWrite CPUScenario.ldaCPU
      = Some (2, c') /\ CPU.A c' = 0x80 /\
    CPU.getFlag c' CPU.FlagZero = (0x80 =? 0) /\
    CPU.getFlag c' CPU.FlagNegative = Z.testbit 0x80 7 /\
    CPU.PC c' = u16 (CPU.PC CPUScenario.ldaCPU + 2) /\
    CPU.Cycles c' = CPU.Cycles CPUScenario.ldaCPU + 2 /\
    CPU.Memory c' = CPU.Memory CPUScenario.ldaCPU.
Proof.
  apply (lda_immediate_loads_and_sets_flags BusScenario.noAPURead
           BusScenario.noAPUWrite CPUScenario.ldaCPU 0x80); try reflexivity.
  vm_compute. discriminate.
Defined.
(** ** PPU: the frame *)

Section FrameFacts.
Context {M : Type} `{!Mapper.Mapper M}.
Import PPU PPUFrame PPUDots.
Implicit Types (p : PPU) (cart : option (Cartridge.Cartridge M)).

(** One dot moves the PPU to the next dot of the frame; the frame counter
    steps, and [FrameComplete] is raised, on the last dot only. *)
Lemma Step_next_dot p cart :
  inFrame p ->
  let q := fst (Step p cart) in
  inFrame q /\ frameIndex q = (frameIndex p + 1) mod dotsPerFrame /\
  Frame q = (if frameIndex p =? dotsPerFrame - 1
             then (Frame p + 1) mod 2 ^ 64 else Frame p) /\
  FrameComplete q = (frameIndex p =? dotsPerFrame - 1) || FrameComplete p.
Proof.
  intros [Hc Hs]. cbv zeta.
  destruct (PPU_Step_timing p cart Hc Hs) as (k & _ & F1 & F2 & _ & _ & F5 & F6 & _).
  cbv zeta in *. unfold inFrame, frameIndex, dotsPerFrame.
  rewrite F1, F2, F5, F6. clear F1 F2 F5 F6.
  change (262 * 341 - 1) with 89341. change (262 * 341) with 89342.
  destruct (Z.eqb_spec (Cycle p) 340) as [Ec|Ec];
    destruct (Z.eqb_spec (Scanline p) 260) as [Es|Es];
    destruct (Z.eqb_spec ((Scanline p + 1) * 341 + Cycle p) 89341) as [Ei|Ei];
    cbn [andb orb]; try lia; repeat split; try lia.
Qed.

(** The frame is 262 x 341 dots, every frame: [n] dots advance the dot
    number by [n] modulo 89342 (there is no shortened frame), and keep the
    PPU inside the frame. *)
Theorem frame_is_89342_dots (n : nat) p cart :
  inFrame p ->
  let q := fst (run n p cart) in
  inFrame q /\ frameIndex q = (frameIndex p + Z.of_nat n) mod dotsPerFrame.
Proof.
  revert p cart. induction n as [|n IH]; intros p cart Hp; cbv zeta.
  - cbn [run fst]. split; [exact Hp|].
    destruct Hp as [Hc Hs]. unfold frameIndex, dotsPerFrame. lia.
  - cbn [run]. destruct (Step_next_dot p cart Hp) as (Hq & Ei & _).
    destruct (Step p cart) as [p1 c1]. cbn [fst] in *.
    destruct (IH p1 c1 Hq) as (Hr & Er). split; [exact Hr|].
    rewrite Er, Ei. unfold dotsPerFrame.
    rewrite Zplus_mod_idemp_l. f_equal. lia.
Qed.

(** The scroll copy at the start of a line. *)
Lemma visibleCopy_x p :
  x (visibleCopy p)
  = if (0 <=? Scanline p) && (Scanline p <? 240) && (Cycle p =? 0) && renderingEnabled p
    then xTemp p else x p.
Proof.
  unfold visibleCopy.
  destruct ((0 <=? Scanline p) && (Scanline p <? 240)); cbn [andb]; [|reflexivity].
  destruct ((Cycle p =? 0) && renderingEnabled p); reflexivity.
Qed.

Lemma preRenderCopy_x p : x (preRenderCopy p) = x p.
Proof. unfold preRenderCopy. cbv zeta. split_ifs; reflexivity. Qed.

Lemma frameEnd_vblankStart_fields p :
  let q := frameEnd (vblankStart p) in
  x q = x p /\ xTemp q = xTemp p /\ PPUMASK q = PPUMASK p /\ Cycle q = Cycle p /\
  Scanline q = (if 261 <=? Scanline p then -1 else Scanline p).
Proof.
  cbv zeta. unfold vblankStart. cbv zeta.
  destruct (Scanline p =? 241);
    [ppu_simpl; destruct (nz (Z.land (PPUCTRL p) PPUCTRLNMIEnable))|];
    unfold frameEnd; cbv zeta; ppu_simpl;
    destruct (261 <=? Scanline p); ppu_simpl; repeat split.
Qed.

(** The fine-X scroll written through PPUSCROLL reaches the [x] register
    when the PPU arrives at dot 0 of a visible scanline with rendering
    enabled, and at no other dot. *)
Theorem fine_x_is_applied_at_line_start p cart :
  inFrame p ->
  let q := fst (Step p cart) in
  x q = if (Cycle p =? 340) && (Scanline p <? 239) && renderingEnabled p
        then xTemp p else x p.
Proof.
  intros [Hc Hs]. cbv zeta. rewrite Step_split.
  pose proof (stepRender_rendered p cart) as Hr.
  destruct (stepRender p cart) as [p1 c1]. cbn [fst snd] in *.
  revert Hr. unfold rendered. ppu_simpl.
  intros (_&R2&_&_&_&R6&R7&_&_&_&R11&R12&_).
  assert (Rr : renderingEnabled p1 = renderingEnabled p)
    by (unfold renderingEnabled; now rewrite R2).
  unfold stepClock. cbv zeta. ppu_simpl. rewrite R11.
  destruct (Z.eqb_spec (Cycle p) 340) as [Ec|Ec].
  - rewrite Ec. change (341 <=? 340 + 1) with true. cbv iota.
    unfold nextLine. cbv zeta. ppu_simpl.
    set (p2 := set_Scanline _ _).
    destruct (frameEnd_vblankStart_fields p2) as (Fx & Ft & Fm & Fc & Fs).
    cbv zeta in Fx, Ft, Fm, Fc, Fs.
    set (p3 := frameEnd (vblankStart p2)) in *.
    assert (E3 : x (preRenderCopy p3) = x p3) by apply preRenderCopy_x.
    destruct (preRenderCopy_sameTiming p3) as (_ & M4 & _ & C4 & S4 & _ & _ & _ & _ & T4).
    rewrite visibleCopy_x.
    unfold renderingEnabled at 1. rewrite M4, C4, S4, T4, E3, Fx, Ft, Fc, Fs.
    fold (renderingEnabled p3). unfold renderingEnabled. rewrite Fm.
    fold (renderingEnabled p2). unfold p2. ppu_simpl.
    fold (renderingEnabled p1). unfold renderingEnabled at 1. ppu_simpl.
    fold (renderingEnabled p1). rewrite Rr, R6, R7, R12.
    change (0 =? 0) with true. rewrite andb_true_r. cbn [andb].
    destruct (Z.leb_spec 261 (Scanline p + 1)), (Z.ltb_spec (Scanline p) 239);
      try lia; cbn [andb].
    + reflexivity.
    + destruct (Z.leb_spec 0 (Scanline p + 1)), (Z.ltb_spec (Scanline p + 1) 240);
        try lia; reflexivity.
    + destruct (Z.leb_spec 0 (Scanline p + 1)), (Z.ltb_spec (Scanline p + 1) 240);
        try lia; reflexivity.
  - destruct (Z.leb_spec 341 (Cycle p + 1)); [lia|]. cbv iota. ppu_simpl.
    set (p2 := set_Cycle _ _).
    assert (E3 : x (preRenderCopy p2) = x p2) by apply preRenderCopy_x.
    destruct (preRenderCopy_sameTiming p2) as (_ & M4 & _ & C4 & S4 & _ & _ & _ & _ & T4).
    rewrite visibleCopy_x. rewrite C4, E3. unfold p2. ppu_simpl.
    destruct (Z.eqb_spec (Cycle p + 1) 0); [lia|].
    rewrite andb_false_r. cbn [andb]. exact R6.
Qed.

End FrameFacts.

Lemma three_dots_from_power_on :
  let q := fst (PPUDots.run 3 PPU.New PPUStates.cart) in
  PPUDots.inFrame q /\
  PPUDots.frameIndex q
    = (PPUDots.frameIndex PPU.New + Z.of_nat 3) mod PPUDots.dotsPerFrame.
Proof.
  apply (frame_is_89342_dots 3 PPU.New PPUStates.cart).
  split; vm_compute; split; discriminate.
Defined.

Lemma fine_x_example :
  let p := PPUStates.endOfLine10 in
  let q := fst (PPU.Step p PPUStates.cart) in
  PPU.x q = if (PPU.Cycle p =? 340) && (PPU.Scanline p <? 239) && PPU.renderingEnabled p
            then PPU.xTemp p else PPU.x p.
Proof.
  apply (fine_x_is_applied_at_line_start PPUStates.endOfLine10 PPUStates.cart).
  split; vm_compute; split; discriminate.
Defined.

(** ** PPU: PPUDATA and the nametables, continued *)

Section PPUDATAMore.
Context {M : Type} `{!Mapper.Mapper M}.
Import PPU.
Implicit Types (p : PPU) (cart : option (Cartridge.Cartridge M)).

Lemma writeVRAM_keeps_v p cart addr value :
  v (fst (writeVRAM p cart addr value)) = v p /\
  PPUCTRL (fst (writeVRAM p cart addr value)) = PPUCTRL p.
Proof.
  unfold writeVRAM. cbv zeta.
  destruct (addr mod 0x4000 <? 0x2000); [destruct cart; split; reflexivity|].
  destruct (addr mod 0x4000 <? 0x3F00); [split; reflexivity|].
  destruct (addr mod 0x4000 <? 0x4000); split; reflexivity.
Qed.

(** Every PPUDATA access, read or write, at any address, steps [v] by 32
    when PPUCTRL bit 2 is set and by 1 otherwise, modulo $10000. *)
Theorem ppudata_access_post_increments p cart (value : Z) :
  let step := if nz (Z.land (PPUCTRL p) 0x04) then 32 else 1 in
  v (snd (fst (ReadRegister p cart 0x2007))) = u16 (v p + step) /\
  v (fst (WriteRegister p cart 0x2007 value)) = u16 (v p + step).
Proof.
  cbv zeta. split.
  - unfold ReadRegister.
    change (0x2007 =? 0x2002) with false. change (0x2007 =? 0x2004) with false.
    change (0x2007 =? 0x2007) with true. cbv iota.
    destruct (0x3F00 <=? v p).
    + destruct (readVRAM p cart (v p)) as [value1 c1].
      destruct (readVRAM p c1 (u16 (v p - 0x1000))) as [buf c2]. cbn [fst snd].
      exact (proj1 (incrementV_spec (set_readBuffer buf p))).
    + destruct (readVRAM p cart (v p)) as [buf c1]. cbn [fst snd].
      exact (proj1 (incrementV_spec (set_readBuffer buf p))).
  - rewrite WriteRegister_PPUDATA. cbn [fst].
    destruct (incrementV_spec (fst (writeVRAM p cart (v p) value))) as (Ev & _).
    destruct (writeVRAM_keeps_v p cart (v p) value) as (Kv & Kc).
    rewrite Ev, Kv, Kc. reflexivity.
Qed.

End PPUDATAMore.

Lemma horizontal_mirroring_example :
  let cart := Some NROMScenario.cart in
  PPU.readNameTable (PPU.writeNameTable PPU.New cart (0x2400 + 5) 0xAB) cart (0x2000 + 5)
    = PPU.readNameTable PPU.New cart (0x2000 + 5) /\
  PPU.readNameTable (PPU.writeNameTable PPU.New cart (0x2400 + 5) 0xAB) cart (0x2800 + 5)
    = 0xAB /\
  PPU.readNameTable (PPU.writeNameTable PPU.New cart (0x2C00 + 5) 0xAB) cart (0x2800 + 5)
    = PPU.readNameTable PPU.New cart (0x2800 + 5).
Proof.
  apply (horizontal_mirroring_as_coded PPU.New (Some NROMScenario.cart) 5 0xAB).
  - vm_compute. reflexivity.
  - lia.
Defined.

Lemma palette_alias_example :
  PPU.readVRAM PPU.New PPUStates.cart (0x3F10 + 4 * 1)
    = PPU.readVRAM PPU.New PPUStates.cart (0x3F00 + 4 * 1) /\
  PPU.writeVRAM PPU.New PPUStates.cart (0x3F10 + 4 * 1) 0x2A
    = PPU.writeVRAM PPU.New PPUStates.cart (0x3F00 + 4 * 1) 0x2A.
Proof. apply (palette_backdrop_alias PPU.New PPUStates.cart 1 0x2A). lia. Defined.


Lemma ppudata_palette_example :
  let p := PPU.set_v 0x3F01 PPU.New in
  PPU.ReadRegister p PPUStates.cart 0x2007
  = (Palette.ReadPalette (PPU.PaletteManager p) (Z.land (PPU.v p) 0x1F),
     PPU.incrementV
       (PPU.set_readBuffer
          (PPU.readNameTable p PPUStates.cart (PPU.v p - 0x1000)) p),
     PPUStates.cart).
Proof.
  apply (ReadRegister_PPUDATA_palette (PPU.set_v 0x3F01 PPU.New) PPUStates.cart).
  vm_compute. split; [discriminate|reflexivity].
Defined.
